(** * phenix [internal/mm]: the minimega client, embedded and verified

    A shallow embedding of [src/go/internal/mm/minimega.go]: the client
    that drives minimega through [mmcli] commands.  Functions of the Go
    file become programs in a small command monad ([Prog]) whose operations
    are the calls the Go code makes on [mmcli], on the package mutex
    [ccMu] and on the clock; a handler runs a program against a model of
    the controller and records every command issued. *)

From Stdlib Require Import ZArith Ascii String DecimalString.
From Stdlib Require Import Floats.SpecFloat.
From stdpp Require Import base option list strings gmap relations.

Local Open Scope Z_scope.

(** ** Go's [strings], [strconv] and [path/filepath] on byte strings *)

Module strings.

Definition HasPrefix (s prefix : string) : bool := String.prefix prefix s.

Definition HasSuffix (s suffix : string) : bool :=
  bool_decide (String.length suffix ≤ String.length s)%nat &&
  String.eqb
    (String.substring (String.length s - String.length suffix)
                      (String.length suffix) s)
    suffix.

(* if HasPrefix(s, prefix) { return s[len(prefix):] }; return s *)
Definition TrimPrefix (s prefix : string) : string :=
  if HasPrefix s prefix
  then String.substring (String.length prefix)
                        (String.length s - String.length prefix) s
  else s.

(* if HasSuffix(s, suffix) { return s[:len(s)-len(suffix)] }; return s *)
Definition TrimSuffix (s suffix : string) : string :=
  if HasSuffix s suffix
  then String.substring 0 (String.length s - String.length suffix) s
  else s.

(** [unicode.IsSpace] on the UTF-8 encoding: the number of bytes of the
    white-space rune the string starts with, [0] when it starts with none.
    ASCII: TAB LF VT FF CR SPACE; U+0085, U+00A0; U+1680; U+2000..U+200A,
    U+2028, U+2029, U+202F; U+205F; U+3000. *)
Definition space_width (s : string) : nat :=
  match s with
  | String c s1 =>
    let n := nat_of_ascii c in
    if bool_decide (n = 9 ∨ n = 10 ∨ n = 11 ∨ n = 12 ∨ n = 13 ∨ n = 32)%nat
    then 1%nat
    else match s1 with
    | String c1 s2 =>
      let n1 := nat_of_ascii c1 in
      if bool_decide (n = 194 ∧ (n1 = 133 ∨ n1 = 160))%nat then 2%nat
      else match s2 with
      | String c2 _ =>
        let n2 := nat_of_ascii c2 in
        if bool_decide
             ((n = 225 ∧ n1 = 154 ∧ n2 = 128) ∨
              (n = 226 ∧ n1 = 128 ∧
                 (128 ≤ n2 ≤ 138 ∨ n2 = 168 ∨ n2 = 169 ∨ n2 = 175)) ∨
              (n = 226 ∧ n1 = 129 ∧ n2 = 159) ∨
              (n = 227 ∧ n1 = 128 ∧ n2 = 128))%nat
        then 3%nat else 0%nat
      | EmptyString => 0%nat
      end
    | EmptyString => 0%nat
    end
  | EmptyString => 0%nat
  end.

(** The string is a sequence of white-space runes and nothing else. *)
Fixpoint all_space (s : string) : bool :=
  match s with
  | EmptyString => true
  | String _ s1 =>
    match space_width s, s1 with
    | 1%nat, _ => all_space s1
    | 2%nat, String _ s2 => all_space s2
    | 3%nat, String _ (String _ s3) => all_space s3
    | _, _ => false
    end
  end.

(* the string from its first byte that starts no white-space rune *)
Fixpoint TrimLeftSpace (s : string) : string :=
  match s with
  | EmptyString => EmptyString
  | String _ s1 =>
    match space_width s, s1 with
    | 1%nat, _ => TrimLeftSpace s1
    | 2%nat, String _ s2 => TrimLeftSpace s2
    | 3%nat, String _ (String _ s3) => TrimLeftSpace s3
    | _, _ => s
    end
  end.

Fixpoint TrimRightSpace (s : string) : string :=
  match s with
  | EmptyString => EmptyString
  | String c s' => if all_space s then EmptyString
                   else String c (TrimRightSpace s')
  end.

(* strings.TrimSpace: leading and trailing white space removed *)
Definition TrimSpace (s : string) : string :=
  TrimRightSpace (TrimLeftSpace s).

(** [strings.Split s sep] for a non-empty [sep]: the pieces between the
    leftmost non-overlapping occurrences of [sep]; always at least one
    piece.  [cur] is the piece being read, [skip] the bytes of a matched
    separator still to pass. *)
Fixpoint Split_aux (sep : string) (skip : nat) (cur : string) (s : string)
  : list string :=
  match s with
  | EmptyString => [cur]
  | String c s' =>
    match skip with
    | S n => Split_aux sep n cur s'
    | O => if String.prefix sep s
           then cur :: Split_aux sep (String.length sep - 1) EmptyString s'
           else Split_aux sep 0 (cur +:+ String c EmptyString) s'
    end
  end.
Definition Split (s sep : string) : list string := Split_aux sep 0 EmptyString s.

Definition Join (elems : list string) (sep : string) : string :=
  String.concat sep elems.

(** [strings.Fields]: the maximal runs of bytes that are not white space.
    [cur] is the field being read. *)
Fixpoint Fields_aux (cur : string) (s : string) : list string :=
  let flush := match cur with EmptyString => [] | _ => [cur] end in
  match s with
  | EmptyString => flush
  | String c s1 =>
    match space_width s, s1 with
    | 1%nat, _ => flush ++ Fields_aux EmptyString s1
    | 2%nat, String _ s2 => flush ++ Fields_aux EmptyString s2
    | 3%nat, String _ (String _ s3) => flush ++ Fields_aux EmptyString s3
    | _, _ => Fields_aux (cur +:+ String c EmptyString) s1
    end
  end.
Definition Fields (s : string) : list string := Fields_aux EmptyString s.

Fixpoint Contains (s substr : string) : bool :=
  String.prefix substr s ||
  match s with
  | EmptyString => false
  | String _ s' => Contains s' substr
  end.

(* strings.Count(s, sep) for a one-byte separator *)
Fixpoint CountByte (s : string) (c : ascii) : nat :=
  match s with
  | EmptyString => 0%nat
  | String d s' => ((if Ascii.eqb c d then 1 else 0) + CountByte s' c)%nat
  end.

End strings.

Module strconv.

Definition maxInt64 : Z := 2 ^ 63 - 1.
Definition minInt64 : Z := - 2 ^ 63.
Definition maxUint64 : Z := 2 ^ 64 - 1.

Definition digit (c : ascii) : option Z :=
  let n := Z.of_nat (nat_of_ascii c) in
  if bool_decide (48 ≤ n ≤ 57) then Some (n - 48) else None.

(** [ParseUint s 10 64] past the empty-string test: [inl n] the value,
    [inr true] a range error (the result is [maxUint64]), [inr false] a
    syntax error (the result is [0]).  Overflow is reported as soon as it
    happens, before the remaining bytes are looked at. *)
Fixpoint ParseUint_loop (n : Z) (s : string) : Z + bool :=
  match s with
  | EmptyString => inl n
  | String c s' =>
    match digit c with
    | None => inr false
    | Some d =>
      if bool_decide ((maxUint64 / 10 + 1) ≤ n) then inr true
      else let n1 := n * 10 + d in
           if bool_decide (maxUint64 < n1) then inr true
           else ParseUint_loop n1 s'
    end
  end.

(** [strconv.Atoi] on a 64-bit platform: the value and whether the error
    is nil.  A syntax error gives [0], a range error the nearest bound. *)
Definition Atoi (s : string) : Z * bool :=
  match s with
  | EmptyString => (0, false)
  | String c s' =>
    let neg := Ascii.eqb c "-"%char in
    let signed := neg || Ascii.eqb c "+"%char in
    let body := if signed then s' else s in
    match body with
    | EmptyString => (0, false)
    | _ =>
      match ParseUint_loop 0 body with
      | inr false => (0, false)
      | inr true => (if neg then minInt64 else maxInt64, false)
      | inl un =>
        if negb neg && bool_decide (2 ^ 63 ≤ un) then (maxInt64, false)
        else if neg && bool_decide (2 ^ 63 < un) then (minInt64, false)
        else (if neg then - un else un, true)
      end
    end
  end.

(* fmt's %d / strconv.Itoa *)
Definition Itoa (n : Z) : string := NilZero.string_of_int (Z.to_int n).

End strconv.

Module filepath.

Definition IsAbs (path : string) : bool := strings.HasPrefix path "/".

Fixpoint stripTrailingSlashes (s : string) : string :=
  match s with
  | EmptyString => EmptyString
  | String c s' =>
    match stripTrailingSlashes s' with
    | EmptyString => if Ascii.eqb c "/"%char then EmptyString
                     else String c EmptyString
    | t => String c t
    end
  end.

(* the part after the last slash, the whole string when there is none *)
Fixpoint lastElement (cur : string) (s : string) : string :=
  match s with
  | EmptyString => cur
  | String c s' =>
    if Ascii.eqb c "/"%char then lastElement EmptyString s'
    else lastElement (cur +:+ String c EmptyString) s'
  end.

Definition Base (path : string) : string :=
  if String.eqb path "" then "."
  else let e := lastElement EmptyString (stripTrailingSlashes path) in
       if String.eqb e "" then "/" else e.

End filepath.

(** ** Errors

    Go [error] values.  The three package sentinels and the two [context]
    errors are values of their own, compared by identity in Go; [Errorf]
    is [fmt.Errorf] without [%w], [Errorf_w] with a trailing [%w]: it keeps
    the wrapped error, and its text ends with the wrapped error's text. *)

Inductive error : Type :=
| ErrCaptureExists
| ErrNoCaptures
| ErrC2ClientNotActive
| context_Canceled
| context_DeadlineExceeded
| errors_New (msg : string)
| Errorf (msg : string)
| Errorf_w (msg : string) (err : error).

Fixpoint Error (e : error) : string :=
  match e with
  | ErrCaptureExists => "capture already exists"
  | ErrNoCaptures => "no captures exist"
  | ErrC2ClientNotActive => "C2 client not active for VM"
  | context_Canceled => "context canceled"
  | context_DeadlineExceeded => "context deadline exceeded"
  | errors_New msg => msg
  | Errorf msg => msg
  | Errorf_w msg err => msg +:+ Error err
  end.

(* errors.Unwrap *)
Definition Unwrap (e : error) : option error :=
  match e with Errorf_w _ err => Some err | _ => None end.

Global Instance error_eq_dec : EqDecision error.
Proof. solve_decision. Defined.

(** ** [mmcli]: commands, responses and rows *)

Module mmcli.

(** [mmcli.Command]; the field [Text] is Go's [Command.Command]. *)
Record Command : Type := mkCommand {
  Namespace : string;
  Text : string;
  Columns : list string;
  Filters : list string;
}.

Definition NewCommand : Command := mkCommand "" "" [] [].
Definition NewNamespacedCommand (ns : string) : Command := mkCommand ns "" [] [].

Definition setText (c : Command) (t : string) : Command :=
  mkCommand (Namespace c) t (Columns c) (Filters c).
Definition setColumns (c : Command) (l : list string) : Command :=
  mkCommand (Namespace c) (Text c) l (Filters c).
Definition setFilters (c : Command) (l : list string) : Command :=
  mkCommand (Namespace c) (Text c) (Columns c) l.

Global Instance Command_eq_dec : EqDecision Command.
Proof. solve_decision. Defined.

(** One response of one host: the fields the client reads.  [Data] is
    the payload rendered with [%v], absent when nil. *)
Record Response : Type := mkResponse {
  Resp_Response : string;
  Resp_Error : string;
  Resp_Data : option string;
}.

(** One value received from the channel [mmcli.Run] returns: [Resp]. *)
Definition Responses : Type := list Response.

(** A row of [mmcli.RunTabular]: column name to value; a missing column
    reads as the empty string, as a Go map does. *)
Definition Row : Type := gmap string string.
Definition col (row : Row) (k : string) : string := default "" (row !! k).

End mmcli.
Import mmcli.

(** ** Programs: the effects of the client

    The operations are the calls the Go code makes on the outside: a
    command sent with [mmcli.Run] (the channel read to its end) or
    [mmcli.RunTabular], the mutex [ccMu], [time.After], a [select] with a
    default case, [time.Sleep], and a run-time panic. *)

Inductive chan : Type :=
| ctxDone (closed_at : option Z)     (* ctx.Done(), closed at that instant *)
| timerC (fires_at : Z).             (* the channel of a time.After timer *)

Inductive Prog (A : Type) : Type :=
| Ret (a : A)
| Panic (msg : string)
| Run (cmd : Command) (k : list Responses → Prog A)
| RunTabular (cmd : Command) (k : list Row → Prog A)
| Lock (k : Prog A)
| Unlock (k : Prog A)
| TimeAfter (d : Z) (k : chan → Prog A)
| Select (cases : list chan) (k : option nat → Prog A)
| Sleep (d : Z) (k : Prog A).

Arguments Ret {A} a.
Arguments Panic {A} msg.
Arguments Run {A} cmd k.
Arguments RunTabular {A} cmd k.
Arguments Lock {A} k.
Arguments Unlock {A} k.
Arguments TimeAfter {A} d k.
Arguments Select {A} cases k.
Arguments Sleep {A} d k.

Fixpoint Prog_bind {A B} (f : A → Prog B) (p : Prog A) : Prog B :=
  match p with
  | Ret a => f a
  | Panic msg => Panic msg
  | Run cmd k => Run cmd (λ r, Prog_bind f (k r))
  | RunTabular cmd k => RunTabular cmd (λ r, Prog_bind f (k r))
  | Lock k => Lock (Prog_bind f k)
  | Unlock k => Unlock (Prog_bind f k)
  | TimeAfter d k => TimeAfter d (λ c, Prog_bind f (k c))
  | Select cases k => Select cases (λ i, Prog_bind f (k i))
  | Sleep d k => Sleep d (Prog_bind f k)
  end.

Global Instance Prog_ret : MRet Prog := @Ret.
Global Instance Prog_mbind : MBind Prog := @Prog_bind.
Global Instance Prog_fmap : FMap Prog := λ A B f p, Prog_bind (λ a, Ret (f a)) p.

Definition run (cmd : Command) : Prog (list Responses) := Run cmd Ret.
Definition runTabular (cmd : Command) : Prog (list Row) := RunTabular cmd Ret.
Definition lock : Prog unit := Lock (Ret ()).
Definition unlock : Prog unit := Unlock (Ret ()).
Definition time_After (d : Z) : Prog chan := TimeAfter d Ret.
Definition select_default (cases : list chan) : Prog (option nat) := Select cases Ret.
Definition time_Sleep (d : Z) : Prog unit := Sleep d (Ret ()).

(** [xs[i]] on a slice: a panic when [i] is out of range. *)
Definition outOfRange : string := "runtime error: index out of range".
Definition index {A} (xs : list A) (i : nat) : Prog A :=
  match xs !! i with
  | Some x => Ret x
  | None => Panic outOfRange
  end.

(** [for _, x := range xs { body }] with an accumulator. *)
Fixpoint forRange {A S} (xs : list A) (body : S → A → Prog S) (s : S) : Prog S :=
  match xs with
  | [] => Ret s
  | x :: xs' => s' ← body s x; forRange xs' body s'
  end.

(** ** float64 and durations

    [float64] is IEEE 754 binary64, by the Standard Library's executable
    specification ([prec = 53], [emax = 1024]). *)

Definition float64 : Type := spec_float.
Definition float64_zero : float64 := S754_zero false.
(* the conversion float64(n) of an integer: round to nearest even *)
Definition float64_of_int (n : Z) : float64 := binary_normalize 53 1024 n 0 false.
Definition float64_div (x y : float64) : float64 := SFdiv 53 1024 x y.
Definition float64_add (x y : float64) : float64 := SFadd 53 1024 x y.

Module time.
Definition Nanosecond : Z := 1.
Definition Millisecond : Z := 1000000.
Definition Second : Z := 1000000000.

(* func (d Duration) Seconds() float64 *)
Definition Seconds (d : Z) : float64 :=
  let sec := Z.quot d Second in
  let nsec := Z.rem d Second in
  float64_add (float64_of_int sec)
              (float64_div (float64_of_int nsec) (float64_of_int Second)).
End time.

(** ** The types of package [mm] *)

Module Capture.
Record t : Type := mk {
  VM : string;
  Interface : Z;
  Filepath : string;
}.
End Capture.

Module VM.
Record t : Type := mk {
  Host : string;
  Name : string;
  Running : bool;
  Networks : list string;
  Taps : list string;
  Captures : list Capture.t;
  Uptime : float64;
  RAM : Z;
  CPUs : Z;
  Disk : string;
}.
End VM.

Module Host.
Record t : Type := mk {
  Name : string;
  CPUs : Z;
  CPUCommit : Z;
  Load : list string;
  MemUsed : Z;
  MemTotal : Z;
  MemCommit : Z;
  VMs : Z;
  Tx : float64;
  Rx : float64;
  Bandwidth : string;
  NetCommit : Z;
  Uptime : float64;
  Schedulable : bool;
  Headnode : bool;
}.

Definition setName (h : t) (n : string) : t :=
  mk n (CPUs h) (CPUCommit h) (Load h) (MemUsed h) (MemTotal h) (MemCommit h)
     (VMs h) (Tx h) (Rx h) (Bandwidth h) (NetCommit h) (Uptime h)
     (Schedulable h) (Headnode h).
Definition setSchedulable (h : t) (b : bool) : t :=
  mk (Name h) (CPUs h) (CPUCommit h) (Load h) (MemUsed h) (MemTotal h)
     (MemCommit h) (VMs h) (Tx h) (Rx h) (Bandwidth h) (NetCommit h)
     (Uptime h) b (Headnode h).
Definition setHeadnode (h : t) (b : bool) : t :=
  mk (Name h) (CPUs h) (CPUCommit h) (Load h) (MemUsed h) (MemTotal h)
     (MemCommit h) (VMs h) (Tx h) (Rx h) (Bandwidth h) (NetCommit h)
     (Uptime h) (Schedulable h) b.
End Host.

(** The value [NewOptions(opts...)] builds; the functions below take it in
    place of the option setters. *)
Record Options : Type := mkOptions {
  ns : string;
  vm : string;
  cpu : Z;
  mem : Z;
  disk : string;
  injectPart : Z;
  injects : list string;
  connectIface : Z;
  connectVLAN : string;
  captureIface : Z;
  captureFile : string;
  screenshotSize : string;
}.

(** The value [NewC2Options(opts...)] builds; [timeout] in nanoseconds. *)
Record C2Options : Type := mkC2Options {
  c2_ns : string;
  c2_vm : string;
  command : string;
  commandID : string;
  timeout : Z;
}.

(** ** What the file takes from elsewhere

    Functions and constants of packages [common] and [mmcli] and of Go's
    library that [minimega.go] calls and that are not part of it. *)
Class Externals : Type := {
  (* common.PhenixBase *)
  PhenixBase : string;
  (* common.TrimHostnameSuffixes *)
  TrimHostnameSuffixes : string → string;
  (* mmcli.ErrorResponse: nil or the error of a response stream *)
  ErrorResponse : list Responses → option error;
  (* mmcli.SingleResponse *)
  SingleResponse : list Responses → string * option error;
  (* mmcli.SingleDataResponse; the data rendered with %v *)
  SingleDataResponse : list Responses → string * option error;
  (* NewOptions(): the defaults of every option *)
  defaultOptions : Options;
  (* filepath.Dir *)
  filepath_Dir : string → string;
  (* time.ParseDuration: nanoseconds, and whether the error is nil *)
  time_ParseDuration : string → Z * bool;
  (* strconv.ParseFloat(s, 64) *)
  strconv_ParseFloat : string → float64 * bool;
  (* fmt's %.1f *)
  fmt_f1 : float64 → string;
}.

(* NewOptions(NS(ns), VMName(vm)) *)
Definition NS_VMName `{Externals} (n v : string) : Options :=
  let o := defaultOptions in
  mkOptions n v (cpu o) (mem o) (disk o) (injectPart o) (injects o)
            (connectIface o) (connectVLAN o) (captureIface o) (captureFile o)
            (screenshotSize o).

(** A [context.Context] as the client sees it: the instant its [Done]
    channel is closed (never, when absent) and what [Err] returns from
    then on ([context.Canceled] or [context.DeadlineExceeded]). *)
Record Context : Type := mkContext {
  closes_at : option Z;
  Context_Err : error;
}.
Definition Context_Done (ctx : Context) : chan := ctxDone (closes_at ctx).

(** ** The client: [minimega.go] *)

Section Minimega.
Context `{Externals}.

(** [if err := m; err != nil { return wrap(err) }], then [k]. *)
Definition orReturn (m : Prog (option error)) (wrap : error → error)
           (k : Prog (option error)) : Prog (option error) :=
  err ← m;
  match err with
  | Some e => Ret (Some (wrap e))
  | None => k
  end.

(* mmcli.ErrorResponse(mmcli.Run(cmd)) *)
Definition runErr (cmd : Command) : Prog (option error) :=
  ErrorResponse <$> run cmd.

Definition ClearNamespace (ns : string) : Prog (option error) :=
  let cmd := NewCommand in
  let cmd := setText cmd ("clear namespace " +:+ ns) in
  orReturn (runErr cmd) (Errorf_w "clearing minimega namespace: ") (Ret None).

Definition LaunchVMs (ns : string) : Prog (option error) :=
  let cmd := NewNamespacedCommand ns in
  let cmd := setText cmd "vm launch" in
  orReturn (runErr cmd) (Errorf_w "launching VMs: ") (
  let cmd := setText cmd "vm start all" in
  orReturn (runErr cmd) (Errorf_w "starting VMs: ") (Ret None)).

(** [re.FindAllStringSubmatch(s, -1)] for the pattern of line 76, the
    text "Names: " followed by one group of any bytes but a newline, as
    many as there are; the group [m[1]] of every match: after each
    leftmost occurrence of "Names: " the rest of the line, the search
    resuming where the line ends.  [skip] counts the bytes of a matched
    "Names: " still to pass, [cap] is the group being read. *)
Fixpoint FindAllNames_aux (skip : nat) (cap : option string) (s : string)
  : list string :=
  match s with
  | EmptyString => match cap with Some cur => [cur] | None => [] end
  | String c s' =>
    match cap with
    | Some cur =>
      if Ascii.eqb c "010"%char then cur :: FindAllNames_aux 0 None s'
      else FindAllNames_aux 0 (Some (cur +:+ String c EmptyString)) s'
    | None =>
      match skip with
      | S O => FindAllNames_aux 0 (Some EmptyString) s'
      | S n => FindAllNames_aux n None s'
      | O => if String.prefix "Names: " s
             then FindAllNames_aux 6 None s'
             else FindAllNames_aux 0 None s'
      end
    end
  end.
Definition FindAllNames (s : string) : list string := FindAllNames_aux 0 None s.

(** The two nested loops of [GetLaunchProgress] over the responses of
    [ns queue]: the names listed after every "Names: ", counted. *)
Definition queuedNames (resps : list Responses) : Z :=
  fold_left (λ queued resps,
    fold_left (λ queued resp,
      if bool_decide (Resp_Error resp ≠ "") then queued
      else fold_left (λ queued m1,
             queued + Z.of_nat (length (strings.Split m1 ",")))
           (FindAllNames (Resp_Response resp)) queued)
    resps queued)
  resps 0.

Definition countBuilding (status : list Row) (queued : Z) : Z :=
  fold_left (λ queued s,
    if bool_decide (col s "state" = "BUILDING") then queued + 1 else queued)
  status queued.

Definition GetLaunchProgress (ns : string) (expected : Z)
  : Prog (float64 * option error) :=
  let cmd := NewNamespacedCommand ns in
  let cmd := setText cmd "ns queue" in
  resps ← run cmd;
  let queued := queuedNames resps in
  (* `ns queue` will be empty once queued VMs have been launched. *)
  if bool_decide (queued = 0) then
    let cmd := setText cmd "vm info" in
    let cmd := setColumns cmd ["state"] in
    status ← runTabular cmd;
    if bool_decide (length status = 0%nat) then Ret (float64_zero, None)
    else
      let queued := countBuilding status queued in
      Ret (float64_div (float64_of_int queued) (float64_of_int expected), None)
  else
    Ret (float64_div (float64_of_int queued) (float64_of_int expected), None).

(** Lines 135-142 and 144-151 of [GetVMInfo]: the decoding of a [vlan] or
    [tap] column; the nil slice is the empty list. *)
Definition decodeList (s : string) : list string :=
  let s := strings.TrimPrefix s "[" in
  let s := strings.TrimSuffix s "]" in
  let s := strings.TrimSpace s in
  if bool_decide (s ≠ "") then strings.Split s ", " else [].

Definition GetExperimentCaptures (o : Options) : Prog (list Capture.t) :=
  let cmd := NewNamespacedCommand (ns o) in
  let cmd := setText cmd "capture" in
  let cmd := setColumns cmd ["interface"; "path"] in
  rows ← runTabular cmd;
  forRange rows (λ captures row,
    (* `interface` column will be in the form of <vm_name>:<iface_idx> *)
    let iface := strings.Split (col row "interface") ":" in
    vm ← index iface 0;
    i1 ← index iface 1;
    let idx := fst (strconv.Atoi i1) in
    let capture := Capture.mk vm idx (col row "path") in
    Ret (captures ++ [capture])) [].

Definition GetVMCaptures (o : Options) : Prog (list Capture.t) :=
  captures ← GetExperimentCaptures o;
  Ret (filter (λ capture, Capture.VM capture = vm o) captures).

(** The body of the loop of [GetVMInfo]: the VM of a row, appended. *)
Definition GetVMInfo_row (o : Options) (vms : list VM.t) (row : Row)
  : Prog (list VM.t) :=
  let Host := col row "host" in
  let Name := col row "name" in
  let Running := bool_decide (col row "state" = "RUNNING") in
  let Networks := decodeList (col row "vlan") in
  let Taps := decodeList (col row "tap") in
  (* Make sure the vm name is set prior to calling "GetVMCaptures" as the
     vm name is not always set when calling GetVMInfo *)
  Captures ← GetVMCaptures (NS_VMName (ns o) Name);
  let '(uptime, ok) := time_ParseDuration (col row "uptime") in
  let Uptime := if ok then time.Seconds uptime else float64_zero in
  let RAM := fst (strconv.Atoi (col row "memory")) in
  let CPUs := fst (strconv.Atoi (col row "vcpus")) in
  (* TODO: confirm multiple disks are separated by whitespace. *)
  disk ← index (strings.Fields (col row "disks")) 0;
  (* diskspec can include multiple settings separated by comma. Path to
     disk will always be first setting. *)
  disk ← index (strings.Split disk ",") 0;
  let cmd := NewCommand in
  let cmd := setText cmd ("disk info " +:+ disk) in
  (* Only expect one row returned *)
  info ← runTabular cmd;
  resp ← index info 0;
  let Disk := if bool_decide (col resp "backingfile" = "")
              then col resp "image" else col resp "backingfile" in
  Ret (vms ++ [VM.mk Host Name Running Networks Taps Captures Uptime
                     RAM CPUs Disk]).

Definition GetVMInfo (o : Options) : Prog (list VM.t) :=
  let cmd := NewNamespacedCommand (ns o) in
  let cmd := setText cmd "vm info" in
  let cmd := setColumns cmd
    ["host"; "name"; "state"; "uptime"; "vlan"; "tap"; "memory"; "vcpus"; "disks"] in
  let cmd := if bool_decide (vm o ≠ "")
             then setFilters cmd ["name=" +:+ vm o] else cmd in
  rows ← runTabular cmd;
  forRange rows (GetVMInfo_row o) [].

Definition flush (ns : string) : Prog (option error) :=
  let cmd := NewNamespacedCommand ns in
  let cmd := setText cmd "vm flush" in
  orReturn (runErr cmd)
    (Errorf_w ("flushing VMs in namespace " +:+ ns +:+ ": ")) (Ret None).

Definition inject (disk : string) (part : Z) (injects : list string)
  : Prog (option error) :=
  let files := strings.Join injects " " in
  let cmd := NewCommand in
  let cmd := setText cmd
    ("disk inject " +:+ disk +:+ ":" +:+ strconv.Itoa part +:+ " files " +:+ files) in
  orReturn (runErr cmd)
    (Errorf_w ("injecting files into disk " +:+ disk +:+ ": ")) (Ret None).

Definition RedeployVM (o : Options) : Prog (option error) :=
  let inNS := " in namespace " +:+ ns o +:+ ": " in
  let cmd := NewNamespacedCommand (ns o) in
  let cmd := setText cmd ("vm config clone " +:+ vm o) in
  orReturn (runErr cmd) (Errorf_w ("cloning VM " +:+ vm o +:+ inNS)) (
  let cmd := setText cmd "clear vm config migrate" in
  orReturn (runErr cmd) (Errorf_w ("clearing config for VM " +:+ vm o +:+ inNS)) (
  let cmd := setText cmd ("vm kill " +:+ vm o) in
  orReturn (runErr cmd) (Errorf_w ("killing VM " +:+ vm o +:+ inNS)) (
  orReturn (flush (ns o)) id (
  (* the rest of the function, once [cmd] has passed the disk block *)
  let launch (cmd : Command) : Prog (option error) :=
    let cmd := setText cmd ("vm launch kvm " +:+ vm o) in
    orReturn (runErr cmd) (Errorf_w ("scheduling VM " +:+ vm o +:+ inNS)) (
    let cmd := setText cmd "vm launch" in
    orReturn (runErr cmd)
      (Errorf_w ("launching scheduled VMs in namespace " +:+ ns o +:+ ": ")) (
    let cmd := setText cmd ("vm start " +:+ vm o) in
    orReturn (runErr cmd) (Errorf_w ("starting VM " +:+ vm o +:+ inNS))
      (Ret None))) in
  (* cmd.Command = "vm config disk " + disk, and on *)
  let configDisk (cmd : Command) (disk_ : string) : Prog (option error) :=
    let cmd := setText cmd ("vm config disk " +:+ disk_) in
    orReturn (runErr cmd)
      (Errorf_w ("configuring disk for VM " +:+ vm o +:+ inNS)) (launch cmd) in
  let diskBlock (cmd : Command) : Prog (option error) :=
    if bool_decide (disk o ≠ "") then
      if bool_decide (length (injects o) = 0%nat) then configDisk cmd (disk o)
      else
        let cmd := setText cmd "vm config disk" in
        let cmd := setColumns cmd ["disks"] in
        let cmd := setFilters cmd ["name=" +:+ vm o] in
        config ← runTabular cmd;
        let cmd := setColumns cmd [] in
        let cmd := setFilters cmd [] in
        if bool_decide (length config = 0%nat) then
          Ret (Some (Errorf ("disk config not found for VM " +:+ vm o +:+
                             " in namespace " +:+ ns o)))
        else
          (* Should only be one row of data since we filter by VM name
             above. *)
          status ← index config 0;
          let disk_ := filepath.Base (col status "disks") in
          if strings.Contains disk_ "_snapshot" then
            let cmd := setText cmd
              ("disk snapshot " +:+ disk o +:+ " " +:+ disk_) in
            orReturn (runErr cmd)
              (Errorf_w ("snapshotting disk for VM " +:+ vm o +:+ inNS)) (
            orReturn (inject disk_ (injectPart o) (injects o)) id (
            configDisk cmd disk_))
          else configDisk cmd (disk o)
    else launch cmd in
  let memBlock (cmd : Command) : Prog (option error) :=
    if bool_decide (mem o ≠ 0) then
      let cmd := setText cmd ("vm config mem " +:+ strconv.Itoa (mem o)) in
      orReturn (runErr cmd)
        (Errorf_w ("configuring memory for VM " +:+ vm o +:+ inNS))
        (diskBlock cmd)
    else diskBlock cmd in
  if bool_decide (cpu o ≠ 0) then
    let cmd := setText cmd ("vm config vcpus " +:+ strconv.Itoa (cpu o)) in
    orReturn (runErr cmd)
      (Errorf_w ("configuring VCPUs for VM " +:+ vm o +:+ inNS)) (memBlock cmd)
  else memBlock cmd)))).

Definition KillVM (o : Options) : Prog (option error) :=
  let cmd := NewNamespacedCommand (ns o) in
  let cmd := setText cmd ("vm kill " +:+ vm o) in
  orReturn (runErr cmd)
    (Errorf_w ("killing VM " +:+ vm o +:+ " in namespace " +:+ ns o +:+ ": "))
    (flush (ns o)).

Definition GetVMHost (o : Options) : Prog (string * option error) :=
  let cmd := NewNamespacedCommand (ns o) in
  let cmd := setText cmd "vm info" in
  let cmd := setColumns cmd ["host"] in
  let cmd := setFilters cmd ["name=" +:+ vm o] in
  status ← runTabular cmd;
  if bool_decide (length status = 0%nat) then
    Ret ("", Some (Errorf ("VM " +:+ vm o +:+ " not found")))
  else
    row ← index status 0;
    Ret (col row "host", None).

(** The body of the loop of [processNamespaceHosts]: the host of a row. *)
Definition hostOfRow (row : Row) : Host.t :=
  let Tx := fst (strconv_ParseFloat (col row "tx")) in
  let Rx := fst (strconv_ParseFloat (col row "rx")) in
  let uptime := fst (time_ParseDuration (col row "uptime")) in
  Host.mk
    (col row "host")
    (fst (strconv.Atoi (col row "cpus")))
    (fst (strconv.Atoi (col row "cpucommit")))
    (strings.Split (col row "load") " ")
    (fst (strconv.Atoi (col row "memused")))
    (fst (strconv.Atoi (col row "memtotal")))
    (fst (strconv.Atoi (col row "memcommit")))
    (fst (strconv.Atoi (col row "vms")))
    Tx Rx
    ("rx: " +:+ fmt_f1 Rx +:+ " / tx: " +:+ fmt_f1 Tx)
    (fst (strconv.Atoi (col row "netcommit")))
    (time.Seconds uptime)
    false false.

Definition processNamespaceHosts (namespace : string)
  : Prog (list Host.t * option error) :=
  let cmd := NewNamespacedCommand namespace in
  let cmd := setText cmd "host" in
  status ← runTabular cmd;
  let hosts := fold_left (λ hosts row, hosts ++ [hostOfRow row]) status [] in
  Ret (hosts, None).

Definition Headnode : Prog string :=
  (* Get headnode details *)
  '(hosts, _) ← processNamespaceHosts "minimega";
  if bool_decide (length hosts = 0%nat) then Ret ""
  else
    h ← index hosts 0;
    let headnode := Host.Name h in
    (* Trim host name suffixes (like -minimega, or -phenix) potentially
       added to Docker containers by Docker Compose config. *)
    Ret (TrimHostnameSuffixes headnode).

Definition IsHeadnode (node : string) : Prog bool :=
  let node := TrimHostnameSuffixes node in
  headnode ← Headnode;
  Ret (bool_decide (node = headnode)).

(** The package-level [GetVMCaptures], [GetVMHost], [IsHeadnode] and
    [ClearNamespace] that [StartVMCapture] and [GetClusterHosts] call are
    the package's default client, this [Minimega]: the methods above. *)
Definition StartVMCapture (o : Options) : Prog (option error) :=
  captures ← GetVMCaptures o;
  if existsb (λ capture, bool_decide (Capture.Interface capture = captureIface o))
             captures
  then Ret (Some ErrCaptureExists)
  else if filepath.IsAbs (captureFile o) then
    Ret (Some (Errorf "path for capture file should not be absolute"))
  else
    '(host, err) ← GetVMHost o;
    match err with
    | Some err =>
      Ret (Some (Errorf_w "unable to determine what host the VM is scheduled on: " err))
    | None =>
      isHead ← IsHeadnode host;
      let cmdPrefix := if negb isHead then "mesh send " +:+ host else "" in
      let dir := PhenixBase +:+ "/images/" +:+ filepath_Dir (captureFile o) in
      let cmd := NewCommand in
      let cmd := setText cmd (cmdPrefix +:+ " shell mkdir -p " +:+ dir) in
      orReturn (runErr cmd)
        (Errorf_w "ensuring experiment files directory exists: ") (
      let cmd := NewNamespacedCommand (ns o) in
      let cmd := setText cmd
        ("capture pcap vm " +:+ vm o +:+ " " +:+ strconv.Itoa (captureIface o)
           +:+ " " +:+ captureFile o) in
      orReturn (runErr cmd)
        (Errorf_w ("starting VM capture for interface "
                   +:+ strconv.Itoa (captureIface o) +:+ " on VM " +:+ vm o
                   +:+ " in namespace " +:+ ns o +:+ ": "))
        (Ret None))
    end.

Definition StopVMCapture (o : Options) : Prog (option error) :=
  captures ← GetVMCaptures o;
  if bool_decide (length captures = 0%nat) then Ret (Some ErrNoCaptures)
  else
    let cmd := NewNamespacedCommand (ns o) in
    let cmd := setText cmd ("capture pcap delete vm " +:+ vm o) in
    orReturn (runErr cmd)
      (Errorf_w ("deleting VM captures for VM " +:+ vm o +:+ " in namespace "
                 +:+ ns o +:+ ": "))
      (Ret None).

(** The loop of [GetClusterHosts] over the compute nodes: the head node
    and the cluster as they stand after it. *)
Definition sortComputeNodes (hosts : list Host.t) (head : Host.t)
  : Host.t * list Host.t :=
  fold_left (λ '(head, cluster) host,
    (* This will happen if the headnode is included as a compute node
       (ie. when there's only one node in the cluster). *)
    if bool_decide (Host.Name host = Host.Name head) then
      (Host.setSchedulable head true, cluster)
    else
      let host := Host.setName host (TrimHostnameSuffixes (Host.Name host)) in
      let host := Host.setSchedulable host true in
      (head, cluster ++ [host]))
  hosts (head, []).

Definition GetClusterHosts (schedOnly : bool)
  : Prog (list Host.t * option error) :=
  (* Get headnode details *)
  '(hosts, err) ← processNamespaceHosts "minimega";
  match err with
  | Some err => Ret ([], Some (Errorf_w "processing headnode details: " err))
  | None =>
    if bool_decide (length hosts = 0%nat) then
      Ret ([], Some (Errorf "no cluster hosts found"))
    else
      head ← index hosts 0;
      let head := Host.setSchedulable head false in
      let head := Host.setHeadnode head true in
      (* Clear dummy namespace used for getting compute nodes in case a
         new compute node has been added since the last time the dummy
         namespace was created. *)
      _ ← ClearNamespace "__phenix__";
      (* Get compute nodes details *)
      '(hosts, err) ← processNamespaceHosts "__phenix__";
      match err with
      | Some err =>
        Ret ([], Some (Errorf_w "processing compute nodes details: " err))
      | None =>
        let '(head, cluster) := sortComputeNodes hosts head in
        if schedOnly && negb (Host.Schedulable head) then Ret (cluster, None)
        else
          let head := Host.setName head (TrimHostnameSuffixes (Host.Name head)) in
          Ret (cluster ++ [head], None)
      end
  end.

Definition IsC2ClientActive (o : C2Options) : Prog (option error) :=
  let cmd := NewNamespacedCommand (c2_ns o) in
  let cmd := setText cmd "vm info" in
  let cmd := setColumns cmd ["cc_active"] in
  let cmd := setFilters cmd ["name=" +:+ c2_vm o] in
  rows ← runTabular cmd;
  if bool_decide (length rows = 0%nat) then
    Ret (Some (Errorf ("no VMs returned for host " +:+ c2_vm o)))
  else
    row ← index rows 0;
    if bool_decide (col row "cc_active" ≠ "true") then
      Ret (Some ErrC2ClientNotActive)
    else Ret None.

(** What [ExecC2Command] does between [ccMu.Lock()] and the deferred
    [ccMu.Unlock()]. *)
Definition ExecC2Command_locked (o : C2Options) : Prog (string * option error) :=
  err ← IsC2ClientActive o;
  match err with
  | Some err => Ret ("", Some (Errorf_w "cannot execute command: " err))
  | None =>
    let cmd := NewNamespacedCommand (c2_ns o) in
    let cmd := setText cmd ("cc filter name=" +:+ c2_vm o) in
    err ← runErr cmd;
    match err with
    | Some err =>
      Ret ("", Some (Errorf_w ("setting host filter to " +:+ c2_vm o +:+ ": ") err))
    | None =>
      let cmd := setText cmd ("cc exec " +:+ command o) in
      resps ← run cmd;
      let '(data, err) := SingleDataResponse resps in
      match err with
      | Some err =>
        Ret ("", Some (Errorf_w ("executing command " +:+ command o +:+ ": ") err))
      | None =>
        (* This will the the ID for the cc exec command *)
        Ret (data, None)
      end
    end
  end.

Definition ExecC2Command (o : C2Options) : Prog (string * option error) :=
  _ ← lock;                           (* ccMu.Lock() *)
  r ← ExecC2Command_locked o;
  _ ← unlock;                         (* defer ccMu.Unlock() *)
  Ret r.

(** The [for] loop of [WaitForC2Response], run for at most [fuel] turns:
    [None] when it has not returned by then, else what the function
    literal returns. *)
Fixpoint WaitForC2Response_loop (fuel : nat) (ctx : Context) (o : C2Options)
         (cmd : Command) : Prog (option (option error)) :=
  match fuel with
  | O => Ret None
  | S fuel =>
    (* the channels of the cases, evaluated on entering the select *)
    let done := Context_Done ctx in
    after ← time_After (timeout o);
    chosen ← select_default [done; after];
    match chosen with
    | Some O => Ret (Some (Some (Context_Err ctx)))
    | Some _ =>
      Ret (Some (Some (Errorf ("timeout waiting for response for command "
                               +:+ commandID o))))
    | None =>
      rows ← runTabular cmd;
      if bool_decide (length rows = 0%nat) then
        Ret (Some (Some (Errorf ("no commands returned for ID " +:+ commandID o))))
      else
        row0 ← index rows 0;
        let rid := col row0 "id" in
        if bool_decide (rid ≠ commandID o) then
          Ret (Some (Some (Errorf ("wrong command returned: " +:+ rid))))
        else if existsb (λ row, bool_decide (col row "responses" ≠ "0")) rows
        then Ret (Some None)
        else
          _ ← time_Sleep (1 * time.Second);
          WaitForC2Response_loop fuel ctx o cmd
    end
  end.

Definition WaitForC2Response (fuel : nat) (ctx : Context) (o : C2Options)
  : Prog (option (string * option error)) :=
  let cmd := NewNamespacedCommand (c2_ns o) in
  let cmd := setText cmd "cc commands" in
  let cmd := setColumns cmd ["id"; "responses"] in
  let cmd := setFilters cmd ["id=" +:+ commandID o] in
  (* Multiple rows will come back for each command ID, one row per
     cluster host. *)
  r ← WaitForC2Response_loop fuel ctx o cmd;
  match r with
  | None => Ret None
  | Some (Some err) => Ret (Some ("", Some err))
  | Some None =>
    let cmd := setText cmd ("cc response " +:+ commandID o +:+ " raw") in
    resps ← run cmd;
    let '(resp, err) := SingleResponse resps in
    match err with
    | Some err =>
      Ret (Some ("", Some (Errorf_w ("getting response for command "
                                     +:+ commandID o +:+ ": ") err)))
    | None => Ret (Some (resp, None))
    end
  end.

End Minimega.

(** ** Running a program against a controller

    The controller is a state machine: a command meets the state of the
    world and gives responses and a new state.  The handler keeps, next to
    the world, the clock (nanoseconds), whether [ccMu] is held, and the log
    of the commands sent so far with their replies, oldest first. *)

Record Controller (World : Type) : Type := {
  (* mmcli.Run: every value the channel delivers *)
  respond : Command → World → list Responses * World;
  (* mmcli.RunTabular *)
  respondTabular : Command → World → list Row * World;
  (* the time the command takes, in nanoseconds *)
  latency : Command → World → N;
  (* which of several ready cases a select takes *)
  pick : World → nat;
}.
Arguments respond {World} _ _ _.
Arguments respondTabular {World} _ _ _.
Arguments latency {World} _ _ _.
Arguments pick {World} _ _.

(** What the controller answered to a command, by the call that sent it. *)
Inductive Reply : Type :=
| replyRun (resps : list Responses)
| replyTabular (rows : list Row).

Record Exchange : Type := mkExchange {
  sentCmd : Command;
  reply : Reply;
}.

Record State (World : Type) : Type := mkState {
  world : World;
  now : Z;
  held : bool;
  log : list Exchange;
}.
Arguments mkState {World} _ _ _ _.
Arguments world {World} _.
Arguments now {World} _.
Arguments held {World} _.
Arguments log {World} _.

Inductive outcome (A : Type) : Type :=
| Returned (a : A)
| Panicked (msg : string)
| Blocked.
Arguments Returned {A} a.
Arguments Panicked {A} msg.
Arguments Blocked {A}.

(** A channel can be received from: [ctx.Done()] once the context is
    closed, a timer's channel once the timer has fired. *)
Definition ready (t : Z) (c : chan) : bool :=
  match c with
  | ctxDone (Some t0) => bool_decide (t0 ≤ t)
  | ctxDone None => false
  | timerC t0 => bool_decide (t0 ≤ t)
  end.

(** The positions of the ready cases, counted from [i]. *)
Fixpoint readyCases (t : Z) (i : nat) (cases : list chan) : list nat :=
  match cases with
  | [] => []
  | c :: cases' =>
    (if ready t c then [i] else []) ++ readyCases t (S i) cases'
  end.

Section Exec.
Context {World : Type} (mm : Controller World).

Definition sent (cmd : Command) (r : Reply) (w' : World) (s : State World)
  : State World :=
  mkState w' (now s + Z.of_N (latency mm cmd (world s))) (held s)
          (log s ++ [mkExchange cmd r]).

Fixpoint exec {A} (p : Prog A) (s : State World) : outcome A * State World :=
  match p with
  | Ret a => (Returned a, s)
  | Panic msg => (Panicked msg, s)
  | Run cmd k =>
    let '(r, w') := respond mm cmd (world s) in
    exec (k r) (sent cmd (replyRun r) w' s)
  | RunTabular cmd k =>
    let '(r, w') := respondTabular mm cmd (world s) in
    exec (k r) (sent cmd (replyTabular r) w' s)
  | Lock k =>
    if held s then (Blocked, s)
    else exec k (mkState (world s) (now s) true (log s))
  | Unlock k =>
    if held s then exec k (mkState (world s) (now s) false (log s))
    else (Panicked "sync: unlock of unlocked mutex", s)
  | TimeAfter d k => exec (k (timerC (now s + d))) s
  | Select cases k =>
    match readyCases (now s) 0 cases with
    | [] => exec (k None) s                             (* default *)
    | i :: rest =>
      exec (k (Some (nth (pick mm (world s) mod S (length rest)) (i :: rest) i))) s
    end
  | Sleep d k =>
    exec k (mkState (world s) (now s + Z.max 0 d) (held s) (log s))
  end.

Definition start (w : World) : State World := mkState w 0 false [].

(** What a program run from a state adds to the log, and the commands
    of it: the commands the program sends. *)
Definition exchanges {A} (p : Prog A) (s : State World) : list Exchange :=
  drop (length (log s)) (log (exec p s).2).
Definition issued {A} (p : Prog A) (s : State World) : list Command :=
  sentCmd <$> exchanges p s.

End Exec.

(** ** Two calls at once

    Two goroutines, each running a program, against one controller and
    the one mutex [ccMu].  A move is a step of one of them: a command sent
    and answered (any answer: the controller is not constrained), the mutex
    taken when it is free, the mutex released by its holder.  The trace
    holds the commands in the order the controller receives them, each
    with the goroutine that sent it. *)

Inductive tid : Type := tA | tB.

Global Instance tid_eq_dec : EqDecision tid.
Proof. solve_decision. Defined.

Definition other (i : tid) : tid := match i with tA => tB | tB => tA end.

Record Conf (R : Type) : Type := mkConf {
  mutex : option tid;
  threads : tid → Prog R;
  trace : list (tid * Command);
}.
Arguments mkConf {R} _ _ _.
Arguments mutex {R} _.
Arguments threads {R} _ _.
Arguments trace {R} _.

Definition setThread {R} (i : tid) (p : Prog R) (f : tid → Prog R) : tid → Prog R :=
  λ j, if decide (i = j) then p else f j.

(** The move of goroutine [i], the controller answering [r] if the move
    is a command; [None] when [i] cannot move: it has returned, it waits
    for the mutex, or the answer is not one to its call. *)
Definition move {R} (i : tid) (r : Reply) (c : Conf R) : option (Conf R) :=
  match threads c i, r with
  | Run cmd k, replyRun resps =>
    Some (mkConf (mutex c) (setThread i (k resps) (threads c)) (trace c ++ [(i, cmd)]))
  | RunTabular cmd k, replyTabular rows =>
    Some (mkConf (mutex c) (setThread i (k rows) (threads c)) (trace c ++ [(i, cmd)]))
  | Lock k, _ =>
    match mutex c with
    | None => Some (mkConf (Some i) (setThread i k (threads c)) (trace c))
    | Some _ => None
    end
  | Unlock k, _ =>
    if bool_decide (mutex c = Some i)
    then Some (mkConf None (setThread i k (threads c)) (trace c))
    else None
  | _, _ => None
  end.

Definition step {R} (c c' : Conf R) : Prop := ∃ i r, move i r c = Some c'.

(** A schedule: the moves to make, in order. *)
Fixpoint schedule {R} (moves : list (tid * Reply)) (c : Conf R) : option (Conf R) :=
  match moves with
  | [] => Some c
  | (i, r) :: moves' =>
    match move i r c with
    | Some c' => schedule moves' c'
    | None => None
    end
  end.

(** Two calls of [ExecC2Command] about to start. *)
Definition twoCalls `{Externals} (oA oB : C2Options) : Conf (string * option error) :=
  mkConf None (λ i, ExecC2Command (match i with tA => oA | tB => oB end)) [].

(** The same without the mutex: the bodies alone. *)
Definition twoCallsUnlocked `{Externals} (oA oB : C2Options)
  : Conf (string * option error) :=
  mkConf None (λ i, ExecC2Command_locked (match i with tA => oA | tB => oB end)) [].

(** The commands of [ExecC2Command], in order: the query of
    [IsC2ClientActive], the filter, the exec. *)
Definition activeQuery (o : C2Options) : Command :=
  mkCommand (c2_ns o) "vm info" ["cc_active"] ["name=" +:+ c2_vm o].
Definition filterCommand (o : C2Options) : Command :=
  mkCommand (c2_ns o) ("cc filter name=" +:+ c2_vm o) [] [].
Definition execCommand (o : C2Options) : Command :=
  mkCommand (c2_ns o) ("cc exec " +:+ command o) [] [].
Definition c2Commands (o : C2Options) : list Command :=
  [activeQuery o; filterCommand o; execCommand o].

(** The commands of a trace that goroutine [i] sent as [l]. *)
Definition by_ (i : tid) (l : list Command) : list (tid * Command) :=
  (λ cmd, (i, cmd)) <$> l.

(** The cc commands of a trace: the filter and exec commands. *)
Definition ccOnly (tr : list (tid * Command)) : list (tid * Command) :=
  filter (λ x, strings.HasPrefix (Text x.2) "cc " = true) tr.

(** A program that only sends commands and returns: it takes no lock, reads
    no clock and does not panic. *)
Inductive simple {R} : Prog R → Prop :=
| simple_Ret r : simple (Ret r)
| simple_Run cmd k : (∀ resps, simple (k resps)) → simple (Run cmd k)
| simple_RunTabular cmd k : (∀ rows, simple (k rows)) → simple (RunTabular cmd k).

(** [runs p l q]: [p], having sent the commands [l] and got some answers,
    has [q] left to run. *)
Inductive runs {R} : Prog R → list Command → Prog R → Prop :=
| runs_nil p : runs p [] p
| runs_Run cmd k resps l q :
    runs (k resps) l q → runs (Run cmd k) (cmd :: l) q
| runs_RunTabular cmd k rows l q :
    runs (k rows) l q → runs (RunTabular cmd k) (cmd :: l) q.

(** A critical section: the body between [ccMu.Lock()] and the deferred
    [ccMu.Unlock()]. *)
Definition guarded {R} (body : Prog R) : Prog R :=
  Lock (body ≫= λ r, Unlock (Ret r)).

(** Where a goroutine stands: before its critical section, inside it with
    the commands [l] sent so far, or after it. *)
Inductive status : Type := Before | Inside | After.

Global Instance status_eq_dec : EqDecision status.
Proof. solve_decision. Defined.

Definition stands {R} (body : Prog R) (st : status) (l : list Command)
           (p : Prog R) : Prop :=
  match st with
  | Before => p = guarded body ∧ l = []
  | Inside => ∃ q, runs body l q ∧ simple q ∧ p = (q ≫= λ r, Unlock (Ret r))
  | After => ∃ r, runs body l (Ret r) ∧ p = Ret r
  end.

(** ** Test doubles

    A scripted controller: the replies to hand out, in order, to the
    commands sent with [mmcli.Run] and with [mmcli.RunTabular]; once a
    script is used up the reply is empty.  Commands take no time. *)

Record Script : Type := mkScript {
  replies : list (list Responses);
  tables : list (list Row);
}.

Definition scripted : Controller Script := {|
  respond _ w := (hd [] (replies w), mkScript (tl (replies w)) (tables w));
  respondTabular _ w := (hd [] (tables w), mkScript (replies w) (tl (tables w)));
  latency _ _ := 0%N;
  pick _ := 0%nat;
|}.

Definition ok : list Responses := [[mkResponse "" "" None]].
Definition failing (msg : string) : list Responses := [[mkResponse "" msg None]].
Definition row (kvs : list (string * string)) : Row := list_to_map kvs.

(** Modelled from the spec: [mmcli.ErrorResponse], [mmcli.SingleResponse]
    and [mmcli.SingleDataResponse] are not in the files at hand.  §7 has
    every row-level error string of the controller propagated, §4.1 has the
    single-value calls fail unless exactly one row is returned. *)
Definition firstError (resps : list Responses) : option error :=
  match filter (λ r, Resp_Error r ≠ "") (concat resps) with
  | r :: _ => Some (errors_New (Resp_Error r))
  | [] => None
  end.

Definition singleResponse (resps : list Responses) : string * option error :=
  match firstError resps, concat resps with
  | Some e, _ => ("", Some e)
  | None, [r] => (Resp_Response r, None)
  | None, _ => ("", Some (errors_New "expected exactly one response"))
  end.

Definition singleData (resps : list Responses) : string * option error :=
  match firstError resps, concat resps with
  | Some e, _ => ("", Some e)
  | None, [r] => (default "<nil>" (Resp_Data r), None)
  | None, _ => ("", Some (errors_New "expected exactly one response"))
  end.

(** Modelled from the spec: [common.TrimHostnameSuffixes] is not in the
    files at hand.  §4.5 has name normalization strip deployment-added
    suffixes; the comments of [Headnode] and [IsHeadnode] name them:
    -minimega and -phenix. *)
Definition trimHostnameSuffixes (s : string) : string :=
  strings.TrimSuffix (strings.TrimSuffix s "-minimega") "-phenix".

Definition testExternals : Externals := {|
  PhenixBase := "/phenix";
  TrimHostnameSuffixes := trimHostnameSuffixes;
  ErrorResponse := firstError;
  SingleResponse := singleResponse;
  SingleDataResponse := singleData;
  defaultOptions := mkOptions "" "" 0 0 "" 1 [] 0 "" 0 "" "";
  filepath_Dir s := ".";
  time_ParseDuration _ := (0, false);
  strconv_ParseFloat _ := (float64_zero, false);
  fmt_f1 _ := "0.0";
|}.


(** ** The claims' vocabulary *)

(** The commands of [KillVM] and [flush]. *)
Definition killCommand (o : Options) : Command :=
  mkCommand (ns o) ("vm kill " +:+ vm o) [] [].
Definition flushCommand (namespace : string) : Command :=
  mkCommand namespace "vm flush" [] [].

(** [c2] is sent at some point after [c1]. *)
Fixpoint sent_after (c1 c2 : Command) (l : list Command) : bool :=
  match l with
  | [] => false
  | c :: l' =>
    (bool_decide (c = c1) && bool_decide (c2 ∈ l')) || sent_after c1 c2 l'
  end.

(** A VM to kill, and a controller that refuses the kill. *)
Definition vm1 : Options := mkOptions "exp" "vm1" 0 0 "" 1 [] 0 "" 0 "" "".
Definition killRefused : Script := mkScript [failing "vm not found"; ok] [].
Definition allGranted : Script := mkScript [ok; ok] [].


(** *** Workflows of steps (§4.2, §7 of the specification)

    A step is one protocol call: its command, and the error the step
    returns for a reply that makes it fail. *)
Record Step : Type := mkStep {
  stepCmd : Command;
  stepFailure : Reply → option error;
}.

(** A command sent with [mmcli.Run] and checked with [mmcli.ErrorResponse]:
    it fails when the reply holds an error, with that error wrapped. *)
Definition runStep `{Externals} (cmd : Command) (wrap : error → error) : Step :=
  mkStep cmd (λ r, match r with
                   | replyRun resps => wrap <$> ErrorResponse resps
                   | replyTabular _ => None
                   end).

(** A query sent with [mmcli.RunTabular] that needs a row back. *)
Definition queryStep (cmd : Command) (notFound : error) : Step :=
  mkStep cmd (λ r, match r with
                   | replyTabular [] => Some notFound
                   | _ => None
                   end).

(** "The first failing step aborts the sequence and returns its wrapped
    error": the exchanges of a run of the steps, and its result.  Every
    step but the last of the run succeeded; the run stops at the step that
    failed, with its error, or has gone through all the steps, in order. *)
Inductive first_failure_aborts : list Step → list Exchange → option error → Prop :=
| all_steps_done : first_failure_aborts [] [] None
| step_failed st steps x e :
    sentCmd x = stepCmd st →
    stepFailure st (reply x) = Some e →
    first_failure_aborts (st :: steps) [x] (Some e)
| step_succeeded st steps x run result :
    sentCmd x = stepCmd st →
    stepFailure st (reply x) = None →
    first_failure_aborts steps run result →
    first_failure_aborts (st :: steps) (x :: run) result.

(** The disk the controller's config row resolves to: the base name of the
    [disks] column of the first row of the one tabular reply of a run. *)
Fixpoint resolvedDisk (run : list Exchange) : string :=
  match run with
  | [] => ""
  | x :: run' =>
    match reply x with
    | replyTabular (status :: _) => filepath.Base (col status "disks")
    | _ => resolvedDisk run'
    end
  end.

(** The steps of a redeploy, in the order of §4.2: clone the config, clear
    the migrate flag, kill, flush, the vCPU and memory overrides when asked
    for, the disk (with injects: the config query, and for a snapshot disk
    the new snapshot and the injection), schedule, launch, start.
    [disk_] is the disk the config query resolved to. *)
Definition redeploySteps `{Externals} (o : Options) (disk_ : string) : list Step :=
  let inNS := " in namespace " +:+ ns o +:+ ": " in
  let c := NewNamespacedCommand (ns o) in
  let configDisk d :=
    runStep (setText c ("vm config disk " +:+ d))
            (Errorf_w ("configuring disk for VM " +:+ vm o +:+ inNS)) in
  [ runStep (setText c ("vm config clone " +:+ vm o))
            (Errorf_w ("cloning VM " +:+ vm o +:+ inNS));
    runStep (setText c "clear vm config migrate")
            (Errorf_w ("clearing config for VM " +:+ vm o +:+ inNS));
    runStep (killCommand o) (Errorf_w ("killing VM " +:+ vm o +:+ inNS));
    runStep (flushCommand (ns o))
            (Errorf_w ("flushing VMs in namespace " +:+ ns o +:+ ": ")) ]
  ++ (if bool_decide (cpu o ≠ 0)
      then [runStep (setText c ("vm config vcpus " +:+ strconv.Itoa (cpu o)))
                    (Errorf_w ("configuring VCPUs for VM " +:+ vm o +:+ inNS))]
      else [])
  ++ (if bool_decide (mem o ≠ 0)
      then [runStep (setText c ("vm config mem " +:+ strconv.Itoa (mem o)))
                    (Errorf_w ("configuring memory for VM " +:+ vm o +:+ inNS))]
      else [])
  ++ (if bool_decide (disk o ≠ "") then
        if bool_decide (length (injects o) = 0%nat) then [configDisk (disk o)]
        else
          queryStep (mkCommand (ns o) "vm config disk" ["disks"] ["name=" +:+ vm o])
                    (Errorf ("disk config not found for VM " +:+ vm o +:+
                             " in namespace " +:+ ns o))
          :: (if strings.Contains disk_ "_snapshot" then
                [ runStep (setText c ("disk snapshot " +:+ disk o +:+ " " +:+ disk_))
                          (Errorf_w ("snapshotting disk for VM " +:+ vm o +:+ inNS));
                  runStep (setText NewCommand
                             ("disk inject " +:+ disk_ +:+ ":" +:+
                              strconv.Itoa (injectPart o) +:+ " files " +:+
                              strings.Join (injects o) " "))
                          (Errorf_w ("injecting files into disk " +:+ disk_ +:+ ": "));
                  configDisk disk_ ]
              else [configDisk (disk o)])
      else [])
  ++ [ runStep (setText c ("vm launch kvm " +:+ vm o))
               (Errorf_w ("scheduling VM " +:+ vm o +:+ inNS));
       runStep (setText c "vm launch")
               (Errorf_w ("launching scheduled VMs in namespace " +:+ ns o +:+ ": "));
       runStep (setText c ("vm start " +:+ vm o))
               (Errorf_w ("starting VM " +:+ vm o +:+ inNS)) ].

(** *** Captures *)

(** The one query of [GetExperimentCaptures]: the capture table. *)
Definition captureQuery (o : Options) : Command :=
  mkCommand (ns o) "capture" ["interface"; "path"] [].

(** The commands of [StartVMCapture] that change something on the
    cluster: the directory creation and the capture start.  [host] is the
    mesh prefix of the first ("" on the head node). *)
Definition mkdirCommand `{Externals} (o : Options) (cmdPrefix : string) : Command :=
  mkCommand "" (cmdPrefix +:+ " shell mkdir -p " +:+ PhenixBase +:+ "/images/"
                +:+ filepath_Dir (captureFile o)) [] [].
Definition captureStartCommand (o : Options) : Command :=
  mkCommand (ns o)
    ("capture pcap vm " +:+ vm o +:+ " " +:+ strconv.Itoa (captureIface o)
       +:+ " " +:+ captureFile o) [] [].

(** The capture a row of the capture table stands for: the loop of
    [GetExperimentCaptures] takes the first two parts of the [interface]
    column, split at its colons, and there is no capture when there are
    fewer. *)
Definition captureOfRow (row : Row) : option Capture.t :=
  match strings.Split (col row "interface") ":" with
  | vm :: idx :: _ => Some (Capture.mk vm (strconv.Atoi idx).1 (col row "path"))
  | _ => None
  end.

(** The row is a capture of the VM of [o] on the interface asked for. *)
Definition capturesInterface (o : Options) (row : Row) : Prop :=
  ∃ capture, captureOfRow row = Some capture ∧
             Capture.VM capture = vm o ∧
             Capture.Interface capture = captureIface o.

(** The [interface] column of the row has a colon, or has none. *)
Definition hasColon (row : Row) : Prop :=
  strings.CountByte (col row "interface") ":" ≠ 0%nat.
Definition noColon (row : Row) : Prop :=
  strings.CountByte (col row "interface") ":" = 0%nat.

(** A capture request with an absolute file, on a cluster with no capture
    yet, and one for an interface that is captured already. *)
Definition absCapture : Options :=
  mkOptions "exp" "vm1" 0 0 "" 1 [] 0 "" 0 "/tmp/vm1.pcap" "".
Definition noCaptures : Script := mkScript [] [[]].
Definition relCapture : Options :=
  mkOptions "exp" "vm1" 0 0 "" 1 [] 0 "" 0 "vm1.pcap" "".
Definition capturedAlready : Script :=
  mkScript [] [[row [("interface", "vm1:0"); ("path", "/phenix/images/old.pcap")]]].
(** The same capture after one of another VM, and beside a row whose
    interface column has no colon. *)
Definition capturedSecond : Script :=
  mkScript [] [[row [("interface", "vm2:0"); ("path", "/phenix/images/vm2.pcap")];
                row [("interface", "vm1:0"); ("path", "/phenix/images/old.pcap")]]].

(** *** Cluster hosts *)

(** A compute node as [GetClusterHosts] lists it: the name normalized, and
    schedulable. *)
Definition asComputeNode `{Externals} (host : Host.t) : Host.t :=
  Host.setSchedulable
    (Host.setName host (TrimHostnameSuffixes (Host.Name host))) true.

(** The head node as [GetClusterHosts] lists it. *)
Definition asHeadnode `{Externals} (head : Host.t) (schedulable : bool) : Host.t :=
  Host.setName
    (Host.setSchedulable (Host.setHeadnode (Host.setSchedulable head false) true)
                         schedulable)
    (TrimHostnameSuffixes (Host.Name head)).

(** The host query of [processNamespaceHosts], and the command of
    [ClearNamespace]. *)
Definition hostsQuery (namespace : string) : Command := mkCommand namespace "host" [] [].
Definition clearNamespaceCommand (namespace : string) : Command :=
  mkCommand "" ("clear namespace " +:+ namespace) [] [].

(** The host bears the name of the head node, as the controller reports
    the two names. *)
Definition namedAs (head host : Host.t) : Prop := Host.Name host = Host.Name head.
Global Instance namedAs_dec (head host : Host.t) : Decision (namedAs head host).
Proof. unfold namedAs. apply _. Defined.

(** A head node named "node" and one compute node named "node-minimega":
    two names, one normalized name. *)
Definition twoNames : Script :=
  mkScript [ok] [[row [("host", "node")]]; [row [("host", "node-minimega")]]].
(** A cluster of the one node "node". *)
Definition oneNode : Script :=
  mkScript [ok] [[row [("host", "node")]]; [row [("host", "node")]]].
(** A head node and two compute nodes. *)
Definition threeNodes : Script :=
  mkScript [ok] [[row [("host", "head")]];
                 [row [("host", "c1")]; row [("host", "c2-phenix")]]].

(** A head node that is the second of three compute nodes. *)
Definition headAmongThree : Script :=
  mkScript [ok] [[row [("host", "head")]];
                 [row [("host", "c1")]; row [("host", "head")];
                  row [("host", "c2")]]].

(** The hosts a call returned (none when it did not return), and of a
    host its name and its two flags. *)
Definition returnedHosts {S} (r : outcome (list Host.t * option error) * S)
  : list Host.t :=
  match r.1 with
  | Returned (hosts, _) => hosts
  | _ => []
  end.
Definition nameAndFlags (h : Host.t) : string * bool * bool :=
  (Host.Name h, Host.Headnode h, Host.Schedulable h).

(** *** List fields (§6 of the specification) *)

(** The list-field encoding of the specification: the elements joined
    with a comma and a space, in brackets. *)
Definition encodeList (l : list string) : string :=
  "[" +:+ strings.Join l ", " +:+ "]".

(** Identifier-safe strings: not empty, of letters, digits, underscore,
    hyphen and dot. *)
Definition ident_char (c : ascii) : bool :=
  let n := nat_of_ascii c in
  bool_decide ((48 ≤ n ≤ 57) ∨ (65 ≤ n ≤ 90) ∨ (97 ≤ n ≤ 122)
               ∨ n = 95 ∨ n = 45 ∨ n = 46)%nat.

Fixpoint all_chars (P : ascii → bool) (s : string) : bool :=
  match s with
  | EmptyString => true
  | String c s' => P c && all_chars P s'
  end.

Definition identifier_safe (s : string) : bool :=
  negb (String.eqb s "") && all_chars ident_char s.

(** *** VM info *)

(** The query of [GetVMInfo] and the disk query that follows each row. *)
Definition vmInfoQuery (o : Options) : Command :=
  mkCommand (ns o) "vm info"
    ["host"; "name"; "state"; "uptime"; "vlan"; "tap"; "memory"; "vcpus"; "disks"]
    (if bool_decide (vm o ≠ "") then ["name=" +:+ vm o] else []).
Definition isDiskInfo (cmd : Command) : bool :=
  strings.HasPrefix (Text cmd) "disk info ".

(** A row names a disk; a disk query was answered with a row. *)
Definition namesDisk (row : Row) : Prop := strings.Fields (col row "disks") ≠ [].
Definition diskInfoAnswered (x : Exchange) : Prop :=
  isDiskInfo (sentCmd x) = true → reply x ≠ replyTabular [].

(** One VM with a disk, its disk known to the controller; the same VM with
    the disk unknown; a VM whose row names no disk. *)
Definition oneVM : Script :=
  mkScript [] [[row [("name", "vm1"); ("disks", "/images/vm1.qc2,writeback")]];
               [];
               [row [("image", "/images/vm1.qc2"); ("backingfile", "/images/base.qc2")]]].
Definition diskUnknown : Script :=
  mkScript [] [[row [("name", "vm1"); ("disks", "/images/vm1.qc2")]]; []; []].
Definition noDisk : Script :=
  mkScript [] [[row [("name", "vm1"); ("disks", " ")]]; []].

(** Two C2 calls on two VMs, and a controller with both agents active. *)
Definition callA : C2Options := mkC2Options "exp" "vmA" "hostname" "" 0.
Definition callB : C2Options := mkC2Options "exp" "vmB" "uptime" "" 0.
Definition active : Reply := replyTabular [row [("cc_active", "true")]].
Definition granted : Reply := replyRun ok.
Definition commandId (id : string) : Reply :=
  replyRun [[mkResponse "" "" (Some id)]].


(** A schedule that runs call A to its end, then call B; one that
    alternates the two; and where the first leads from the two calls. *)
Definition callThrough (i : tid) (id : string) : list (tid * Reply) :=
  [(i, granted); (i, active); (i, granted); (i, commandId id); (i, granted)].
Definition serialRun : list (tid * Reply) := callThrough tA "1" ++ callThrough tB "2".
Definition alternatingRun : list (tid * Reply) :=
  [(tA, active); (tB, active); (tA, granted); (tB, granted);
   (tA, commandId "1"); (tB, commandId "2")].
Definition serialOutcome : Conf (string * option error) :=
  default (twoCalls (H := testExternals) callA callB)
          (schedule serialRun (twoCalls (H := testExternals) callA callB)).

(** *** Waiting for a C2 response *)

(** The query of [WaitForC2Response]: the command table, by id. *)
Definition statusQuery (o : C2Options) : Command :=
  mkCommand (c2_ns o) "cc commands" ["id"; "responses"] ["id=" +:+ commandID o].

(** A controller that never reports a response for the command: whatever
    the state, the command table has a first row with the command's id and
    no row with a response count other than "0". *)
Definition neverResponds {World} (mm : Controller World) (o : C2Options) : Prop :=
  ∀ w, ∃ row rows,
    (respondTabular mm (statusQuery o) w).1 = row :: rows ∧
    col row "id" = commandID o ∧
    Forall (λ r, col r "responses" = "0") (row :: rows).

(** The double of §8: one row for the command, the count always "0";
    it answers at once. *)
Definition pending (id : string) : Controller unit := {|
  respond _ w := ([], w);
  respondTabular _ w := ([row [("id", id); ("responses", "0")]], w);
  latency _ _ := 0%N;
  pick _ := 0%nat;
|}.

(** A wait of 200ms for command 7, under a context nobody cancels, and
    under one cancelled after 50ms. *)
Definition wait200ms : C2Options :=
  mkC2Options "exp" "vm1" "" "7" (200 * time.Millisecond).
Definition background : Context := mkContext None context_Canceled.
Definition cancelledAt50ms : Context :=
  mkContext (Some (50 * time.Millisecond)) context_Canceled.

(** *** Launch progress *)




(** The commands of [GetLaunchProgress]. *)
Definition queueCommand (namespace : string) : Command :=
  mkCommand namespace "ns queue" [] [].
Definition stateQuery (namespace : string) : Command :=
  mkCommand namespace "vm info" ["state"] [].

(** The count [GetLaunchProgress] divides: the names queued or, when no
    name is queued, the VMs that are building. *)
Definition launchQueued (resps : list Responses) (status : list Row) : Z :=
  if bool_decide (queuedNames resps = 0) then countBuilding status 0
  else queuedNames resps.


(** ** Properties of programs *)

Section Properties.
Context {World : Type} (mm : Controller World).

(** The program runs the steps, whatever the state it starts from. *)
Definition follows (p : Prog (option error)) (stepsOf : string → list Step) : Prop :=
  ∀ s : State World, ∃ result,
    (exec mm p s).1 = Returned result ∧
    first_failure_aborts (stepsOf (resolvedDisk (exchanges mm p s)))
                         (exchanges mm p s) result.

(** A program that sends nothing and takes no lock: it returns or panics
    where it stands. *)
Definition silent {A} (p : Prog A) : Prop :=
  ∀ s : State World,
    (∃ a, exec mm p s = (Returned a, s)) ∨ exec mm p s = (Panicked outOfRange, s).

End Properties.

Section Serialized.
Context {R : Type} (body : tid → Prog R).

(** What holds of every configuration two critical sections can reach:
    each goroutine stands before, inside or after its section; the mutex
    is held by the one inside; and the trace is all of what one has sent
    followed by all of what the other has sent, the second having sent
    something only once the first is done. *)
Definition serialized (c : Conf R) : Prop :=
  ∃ (st : tid → status) (l : tid → list Command) (first : tid),
    (∀ i, stands (body i) (st i) (l i) (threads c i)) ∧
    (∀ i, mutex c = Some i ↔ st i = Inside) ∧
    trace c = by_ first (l first) ++ by_ (other first) (l (other first)) ∧
    (l (other first) ≠ [] → st first = After).

End Serialized.

(** ** The rest of the client

    The methods of [minimega.go] that remain, and what they take from Go's
    library. *)

Class Library : Type := {
  (* the *NumError that strconv.Atoi returns for a string it rejects *)
  strconv_NumError : string → error;
  (* base64.StdEncoding.DecodeString: the bytes, a slice that is not nil,
     and the error *)
  base64_DecodeString : string → list Byte.byte * option error;
  (* the type assertion resp.Data.(string) on a payload that is not nil:
     the string, or nothing when the payload is no string *)
  Data_string : string → option string;
}.

Section MinimegaRest.
Context `{Externals} {lib : Library}.

(** The loop of [GetVMScreenshot] over the responses of one value of the
    channel: [inl] the screenshot when the loop runs to its end, [inr] the
    error of a [return] inside it. *)
Fixpoint GetVMScreenshot_resps (resps : Responses)
         (screenshot : option (list Byte.byte))
  : Prog (option (list Byte.byte) + error) :=
  match resps with
  | [] => Ret (inl screenshot)
  | resp :: resps' =>
    if bool_decide (Resp_Error resp ≠ "") then
      if strings.HasPrefix (Resp_Error resp) "vm not running:" then
        GetVMScreenshot_resps resps' screenshot
      else if bool_decide (Resp_Error resp = "cannot take screenshot of container")
      then GetVMScreenshot_resps resps' screenshot
      else
        (* Unknown error *)
        Ret (inr (Errorf ("unknown error getting VM screenshot: "
                          +:+ Resp_Error resp)))
    else
      match Resp_Data resp with
      | None => Ret (inr (Errorf "not found"))
      | Some data =>
        match screenshot with
        | None =>
          match Data_string data with
          | None => Panic "interface conversion: interface {} is not string"
          | Some data =>
            let '(decoded, err) := base64_DecodeString data in
            match err with
            | Some err =>
              Ret (inr (Errorf ("decoding screenshot: " +:+ Error err)))
            | None => GetVMScreenshot_resps resps' (Some decoded)
            end
          end
        | Some _ => Ret (inr (Errorf "received more than one screenshot"))
        end
      end
  end.

(** The loop over the values of the channel. *)
Fixpoint GetVMScreenshot_range (values : list Responses)
         (screenshot : option (list Byte.byte))
  : Prog (option (list Byte.byte) + error) :=
  match values with
  | [] => Ret (inl screenshot)
  | resps :: values' =>
    r ← GetVMScreenshot_resps resps screenshot;
    match r with
    | inl screenshot => GetVMScreenshot_range values' screenshot
    | inr err => Ret (inr err)
    end
  end.

Definition GetVMScreenshot (o : Options)
  : Prog (option (list Byte.byte) * option error) :=
  let cmd := NewNamespacedCommand (ns o) in
  let cmd := setText cmd ("vm screenshot " +:+ vm o +:+ " file /dev/null "
                          +:+ screenshotSize o) in
  values ← run cmd;
  r ← GetVMScreenshot_range values None;
  match r with
  | inr err => Ret (None, Some err)
  | inl None => Ret (None, Some (Errorf "not found"))
  | inl (Some screenshot) => Ret (Some screenshot, None)
  end.

Definition GetVNCEndpoint (o : Options) : Prog (string * option error) :=
  let cmd := NewNamespacedCommand (ns o) in
  let cmd := setText cmd "vm info" in
  let cmd := setColumns cmd ["host"; "vnc_port"] in
  let cmd := setFilters cmd ["type=kvm"; "name=" +:+ vm o] in
  rows ← runTabular cmd;
  let endpoint :=
    fold_left (λ _ vm, col vm "host" +:+ ":" +:+ col vm "vnc_port") rows "" in
  if bool_decide (endpoint = "") then Ret ("", Some (Errorf "not found"))
  else Ret (endpoint, None).

(** The loop of [GetVLANs] over the rows: the map filled so far, or the
    error of the first row whose [vlan] column is no integer; the map
    returned with an error is nil. *)
Fixpoint GetVLANs_range (status : list Row) (vlans : gmap string Z)
  : option (gmap string Z) * option error :=
  match status with
  | [] => (Some vlans, None)
  | row :: status' =>
    let alias := col row "alias" in
    let '(id, ok) := strconv.Atoi (col row "vlan") in
    if ok then GetVLANs_range status' (<[alias := id]> vlans)
    else (None, Some (Errorf_w "converting VLAN ID to integer: "
                               (strconv_NumError (col row "vlan"))))
  end.

Definition GetVLANs (o : Options)
  : Prog (option (gmap string Z) * option error) :=
  let cmd := NewNamespacedCommand (ns o) in
  let cmd := setText cmd "vlans" in
  let vlans : gmap string Z := ∅ in
  status ← runTabular cmd;
  Ret (GetVLANs_range status vlans).

End MinimegaRest.

(** ** The vocabulary of the further properties *)

(** *** Launching *)

(** The two steps of [LaunchVMs]. *)
Definition launchSteps `{Externals} (namespace : string) : list Step :=
  [ runStep (mkCommand namespace "vm launch" [] []) (Errorf_w "launching VMs: ");
    runStep (mkCommand namespace "vm start all" [] []) (Errorf_w "starting VMs: ") ].

(** *** VNC endpoints and VLANs *)

Definition vncQuery (o : Options) : Command :=
  mkCommand (ns o) "vm info" ["host"; "vnc_port"] ["type=kvm"; "name=" +:+ vm o].

Definition vlansQuery (o : Options) : Command := mkCommand (ns o) "vlans" [] [].

(** The row's [vlan] column is an integer for [strconv.Atoi], and the
    integer. *)
Definition vlanParses (row : Row) : Prop := (strconv.Atoi (col row "vlan")).2 = true.
Definition vlanID (row : Row) : Z := (strconv.Atoi (col row "vlan")).1.

(** A library double: every payload is a string, no string decodes. *)
Definition testLibrary : Library := {|
  strconv_NumError s := errors_New ("strconv.Atoi: parsing " +:+ s);
  base64_DecodeString s := ([], Some (errors_New "illegal base64 data"));
  Data_string s := Some s;
|}.

Definition oneVLAN : Options := mkOptions "exp" "" 0 0 "" 1 [] 0 "" 0 "" "".
Definition vlanTable : Script :=
  mkScript [] [[row [("alias", "mgmt"); ("vlan", "101")];
                row [("alias", "data"); ("vlan", "102")];
                row [("alias", "mgmt"); ("vlan", "103")]]].
Definition vlanTableBroken : Script :=
  mkScript [] [[row [("alias", "mgmt"); ("vlan", "101")];
                row [("alias", "data"); ("vlan", "auto")];
                row [("alias", "mgmt"); ("vlan", "103")]]].

(** *** Screenshots *)

Definition screenshotCommand (o : Options) : Command :=
  mkCommand (ns o)
    ("vm screenshot " +:+ vm o +:+ " file /dev/null " +:+ screenshotSize o) [] [].

(** A response [GetVMScreenshot] passes over: one with an error that says
    the VM is not running, or that it is a container. *)
Definition skipped (resp : Response) : bool :=
  bool_decide (Resp_Error resp ≠ "") &&
  (strings.HasPrefix (Resp_Error resp) "vm not running:" ||
   bool_decide (Resp_Error resp = "cannot take screenshot of container")).

Definition conversionPanic : string :=
  "interface conversion: interface {} is not string".

(** A library double whose decoder gives the bytes of the string back. *)
Definition plainLibrary : Library := {|
  strconv_NumError s := errors_New ("strconv.Atoi: parsing " +:+ s);
  base64_DecodeString s := (list_byte_of_string s, None);
  Data_string s := Some s;
|}.

Definition shot : Options := mkOptions "exp" "vm1" 0 0 "" 1 [] 0 "" 0 "" "215".
(** Two hosts answer: the VM runs on the second. *)
Definition oneScreenshot : Script :=
  mkScript [[[mkResponse "" "vm not running: vm1" None];
             [mkResponse "" "" (Some "iVBOR")]]] [].

(** *** Capture tables *)

(** The row is a capture of the VM of [o], on whatever interface. *)
Definition capturesVM (o : Options) (row : Row) : Prop :=
  ∃ capture, captureOfRow row = Some capture ∧ Capture.VM capture = vm o.

Definition deleteCapturesCommand (o : Options) : Command :=
  mkCommand (ns o) ("capture pcap delete vm " +:+ vm o) [] [].

(** A capture of vm2 alone; the request to stop the captures of vm1. *)
Definition capturedElsewhere : Script :=
  mkScript [ok] [[row [("interface", "vm2:0"); ("path", "/phenix/images/vm2.pcap")]]].
Definition capturedSecondThenGranted : Script :=
  mkScript [ok]
    [[row [("interface", "vm2:0"); ("path", "/phenix/images/vm2.pcap")];
      row [("interface", "vm1:0"); ("path", "/phenix/images/old.pcap")]]].

(** *** C2 commands, one call at a time *)

Definition responseQuery (o : C2Options) : Command :=
  mkCommand (c2_ns o) ("cc response " +:+ commandID o +:+ " raw")
            ["id"; "responses"] ["id=" +:+ commandID o].

(** A controller with the agent of vmA active that grants the filter and
    gives the exec the id 5; one whose agent is not active. *)
Definition agentActive : Script :=
  mkScript [ok; [[mkResponse "" "" (Some "5")]]] [[row [("cc_active", "true")]]].
Definition agentInactive : Script :=
  mkScript [ok; [[mkResponse "" "" (Some "5")]]] [[row [("cc_active", "false")]]].

(** A controller that has one response for command 7. *)
Definition answered7 : Script :=
  mkScript [[[mkResponse "done" "" None]]] [[row [("id", "7"); ("responses", "1")]]].

(** *** The commands and the VMs of [GetVMInfo] *)

(** The disk [GetVMInfo] asks about for a row: of the first field of the
    [disks] column, the part before the first comma. *)
Definition diskOfRow (row : Row) : string :=
  default "" (head (strings.Split
                      (default "" (head (strings.Fields (col row "disks")))) ",")).
Definition diskInfoCommand (row : Row) : Command :=
  mkCommand "" ("disk info " +:+ diskOfRow row) [] [].

(** What a VM of the result takes from its row of the VM table. *)
Definition readsRow (row : Row) (vm : VM.t) : Prop :=
  VM.Host vm = col row "host" ∧
  VM.Name vm = col row "name" ∧
  VM.Running vm = bool_decide (col row "state" = "RUNNING") ∧
  VM.Networks vm = decodeList (col row "vlan") ∧
  VM.Taps vm = decodeList (col row "tap") ∧
  VM.RAM vm = (strconv.Atoi (col row "memory")).1 ∧
  VM.CPUs vm = (strconv.Atoi (col row "vcpus")).1.

(** Two VMs, the second stopped, each with its disk known. *)
Definition twoVMs : Script :=
  mkScript []
    [[row [("name", "vm1"); ("host", "c1"); ("state", "RUNNING");
           ("vlan", "[mgmt, data]"); ("disks", "/images/vm1.qc2,writeback")];
      row [("name", "vm2"); ("host", "c2"); ("state", "QUIT");
           ("disks", "/images/vm2.qc2")]];
     [];
     [row [("image", "/images/vm1.qc2"); ("backingfile", "/images/base.qc2")]];
     [];
     [row [("image", "/images/vm2.qc2")]]].
Definition allVMs : Options := mkOptions "exp" "" 0 0 "" 1 [] 0 "" 0 "" "".

(** *** Starting a capture *)

(** The query of [GetVMHost]. *)
Definition vmHostQuery (o : Options) : Command :=
  mkCommand (ns o) "vm info" ["host"] ["name=" +:+ vm o].

(** What [Headnode] makes of the rows of the host query in namespace
    minimega: the normalized name of the first, or the empty string. *)
Definition headnodeOf `{Externals} (rows : list Row) : string :=
  match rows with
  | [] => ""
  | row :: _ => TrimHostnameSuffixes (col row "host")
  end.

(** The prefix [StartVMCapture] gives the directory creation for a VM on
    [host]: none on the head node, the mesh send to the host elsewhere. *)
Definition meshPrefix `{Externals} (host headnode : string) : string :=
  if bool_decide (TrimHostnameSuffixes host = headnode) then ""
  else "mesh send " +:+ host.

(** vm1 runs on the compute node c1 of the head node "head"; the only
    capture is one of vm2; the controller grants the directory and the
    capture. *)
Definition captureOnCompute : Script :=
  mkScript [ok; ok]
    [[row [("interface", "vm2:0"); ("path", "/phenix/images/vm2.pcap")]];
     [row [("host", "c1")]]; [row [("host", "head")]]].
(** The same, the directory refused. *)
Definition captureDirRefused : Script :=
  mkScript [failing "mkdir: permission denied"; ok]
    [[]; [row [("host", "c1")]]; [row [("host", "head")]]].
(** ** Facts about the handler *)

Section ExecFacts.
Context {World : Type} (mm : Controller World).

Lemma exec_bind {A B} (p : Prog A) (f : A → Prog B) (s : State World) :
  exec mm (p ≫= f) s =
  match exec mm p s with
  | (Returned a, s') => exec mm (f a) s'
  | (Panicked msg, s') => (Panicked msg, s')
  | (Blocked, s') => (Blocked, s')
  end.
Proof.
  revert s. induction p as [a|msg|cmd k IH|cmd k IH|k IH|k IH|d k IH|cs k IH|d k IH];
    intros s; cbn [exec mbind Prog_mbind Prog_bind]; try reflexivity.
  - destruct (respond mm cmd (world s)) as [r w']. apply IH.
  - destruct (respondTabular mm cmd (world s)) as [r w']. apply IH.
  - destruct (held s); [reflexivity | apply IH].
  - destruct (held s); [apply IH | reflexivity].
  - apply IH.
  - destruct (readyCases (now s) 0 cs); apply IH.
  - apply IH.
Qed.

Lemma exec_fmap {A B} (f : A → B) (p : Prog A) (s : State World) :
  exec mm (f <$> p) s =
  match exec mm p s with
  | (Returned a, s') => (Returned (f a), s')
  | (Panicked msg, s') => (Panicked msg, s')
  | (Blocked, s') => (Blocked, s')
  end.
Proof. apply (exec_bind p (λ a, Ret (f a))). Qed.

(** The log only grows. *)
Lemma exec_log_prefix {A} (p : Prog A) (s : State World) :
  log s `prefix_of` log (exec mm p s).2.
Proof.
  revert s. induction p as [a|msg|cmd k IH|cmd k IH|k IH|k IH|d k IH|cs k IH|d k IH];
    intros s; cbn [exec]; try reflexivity.
  - destruct (respond mm cmd (world s)) as [r w'].
    etrans; [|apply IH]. by apply prefix_app_r.
  - destruct (respondTabular mm cmd (world s)) as [r w'].
    etrans; [|apply IH]. by apply prefix_app_r.
  - destruct (held s); [reflexivity | apply (IH (mkState _ _ _ _))].
  - destruct (held s); [apply (IH (mkState _ _ _ _)) | reflexivity].
  - apply IH.
  - destruct (readyCases (now s) 0 cs); apply IH.
  - apply (IH (mkState _ _ _ _)).
Qed.

Lemma log_exchanges {A} (p : Prog A) (s : State World) :
  log (exec mm p s).2 = log s ++ exchanges mm p s.
Proof.
  unfold exchanges. destruct (exec_log_prefix p s) as [l ->].
  by rewrite drop_app_length.
Qed.

Lemma exchanges_sent {A} cmd r w' (p : Prog A) (s : State World) :
  drop (length (log s)) (log (exec mm p (sent mm cmd r w' s)).2)
  = mkExchange cmd r :: exchanges mm p (sent mm cmd r w' s).
Proof.
  rewrite log_exchanges. cbn [sent log].
  rewrite <- app_assoc, drop_app_length. reflexivity.
Qed.

Lemma exchanges_Ret {A} (a : A) (s : State World) : exchanges mm (Ret a) s = [].
Proof. unfold exchanges. cbn [exec snd]. by rewrite drop_all. Qed.

End ExecFacts.

(** ** [KillVM] and [flush] *)

Section KillVM.
Context `{Externals} {World : Type} (mm : Controller World).

Lemma exec_runErr (cmd : Command) (s : State World) :
  exec mm (runErr cmd) s =
  (Returned (ErrorResponse (respond mm cmd (world s)).1),
   sent mm cmd (replyRun (respond mm cmd (world s)).1)
      (respond mm cmd (world s)).2 s).
Proof.
  unfold runErr. rewrite exec_fmap. cbn [run exec].
  by destruct (respond mm cmd (world s)).
Qed.

Lemma exec_orReturn m wrap k (s : State World) :
  exec mm (orReturn m wrap k) s =
  match exec mm m s with
  | (Returned (Some e), s') => (Returned (Some (wrap e)), s')
  | (Returned None, s') => exec mm k s'
  | (Panicked msg, s') => (Panicked msg, s')
  | (Blocked, s') => (Blocked, s')
  end.
Proof.
  unfold orReturn. rewrite exec_bind.
  destruct (exec mm m s) as [[[e|]|msg|] s']; reflexivity.
Qed.

(** C9, as the code has it: [KillVM] sends the kill command first.  When the
  controller reports no error for it, the flush command of the VM's
  namespace is sent right after and nothing else, and [KillVM] returns
  what [flush] returns; when the kill fails, [KillVM] returns the wrapped
  error and sends no flush. *)
Theorem KillVM_flush_follows_successful_kill (o : Options) (s : State World) :
  let reply := respond mm (killCommand o) (world s) in
  let s1 := sent mm (killCommand o) (replyRun reply.1) reply.2 s in
  (ErrorResponse reply.1 = None →
   issued mm (KillVM o) s = [killCommand o; flushCommand (ns o)] ∧
   (exec mm (KillVM o) s).1 = (exec mm (flush (ns o)) s1).1) ∧
  (∀ e, ErrorResponse reply.1 = Some e →
   issued mm (KillVM o) s = [killCommand o] ∧
   (exec mm (KillVM o) s).1 =
     Returned (Some (Errorf_w
       ("killing VM " +:+ vm o +:+ " in namespace " +:+ ns o +:+ ": ") e))).
Proof.
  intros reply s1. unfold issued, exchanges, KillVM.
  rewrite exec_orReturn, exec_runErr.
  change (setText (NewNamespacedCommand (ns o)) ("vm kill " +:+ vm o))
  with (killCommand o).
  fold reply. fold s1. split.
  - intros ->. split; [|reflexivity].
  unfold s1 at 1. rewrite exchanges_sent. cbn [fmap list_fmap sentCmd]. f_equal.
  unfold exchanges, flush. rewrite exec_orReturn, exec_runErr.
  change (setText (NewNamespacedCommand (ns o)) "vm flush")
    with (flushCommand (ns o)).
  destruct (ErrorResponse _); cbn [exec snd log sent];
    by rewrite drop_app_length.
  - intros e ->. split; [|reflexivity].
  cbn [snd log sent s1]. by rewrite drop_app_length.
Qed.

End KillVM.

(** The theorem at work: the scripted controller grants both commands. *)
Lemma KillVM_flush_follows_successful_kill_witness :
  issued scripted (KillVM (H := testExternals) vm1) (start allGranted)
  = [killCommand vm1; flushCommand "exp"].
Proof.
  apply (proj1 (KillVM_flush_follows_successful_kill
                  (H := testExternals) scripted vm1 (start allGranted))).
  reflexivity.
Defined.

(** C9 as the spec states it fails: the controller refuses the kill, and
    the call returns with the kill command alone sent, no flush after it. *)
Lemma KillVM_no_flush_after_failed_kill :
  issued scripted (KillVM (H := testExternals) vm1) (start killRefused)
    = [killCommand vm1] ∧
  sent_after (killCommand vm1) (flushCommand "exp")
    (issued scripted (KillVM (H := testExternals) vm1) (start killRefused))
    = false.
Proof. split; [reflexivity|]. vm_compute. reflexivity. Qed.

(** ** [RedeployVM] *)

Section RedeployVM.
Context `{Externals} {World : Type} (mm : Controller World).

Local Abbreviation follows := (follows mm).

Lemma follows_done : follows (Ret None) (λ _, []).
Proof.
  intros s. exists None. rewrite exchanges_Ret. split; [reflexivity|constructor].
Qed.

Lemma follows_runStep cmd wrap k stepsOf :
  follows k stepsOf →
  follows (orReturn (runErr cmd) wrap k) (λ d, runStep cmd wrap :: stepsOf d).
Proof.
  intros Hk s. unfold exchanges. rewrite exec_orReturn, exec_runErr.
  destruct (respond mm cmd (world s)) as [resps w'] eqn:Hr. cbn [fst snd].
  destruct (ErrorResponse resps) as [e|] eqn:He.
  - exists (Some (wrap e)). cbn [fst snd sent log]. rewrite drop_app_length.
    split; [reflexivity|]. apply step_failed; [reflexivity|].
    cbn. by rewrite He.
  - rewrite exchanges_sent. destruct (Hk (sent mm cmd (replyRun resps) w' s))
      as (result & Hres & Hrun).
    exists result. split; [exact Hres|].
    cbn [resolvedDisk reply]. apply step_succeeded; [reflexivity| |exact Hrun].
    cbn. by rewrite He.
Qed.

Lemma follows_ext p q stepsOf :
  (∀ s, exec mm p s = exec mm q s) → follows q stepsOf → follows p stepsOf.
Proof. intros E Hq s. unfold exchanges. rewrite E. apply Hq. Qed.

(** [flush] and [inject] are steps of their own wrapping. *)
Lemma exec_orReturn_nested cmd wrap k (s : State World) :
  exec mm (orReturn (orReturn (runErr cmd) wrap (Ret None)) id k) s
  = exec mm (orReturn (runErr cmd) wrap k) s.
Proof.
  rewrite !exec_orReturn, exec_runErr.
  destruct (ErrorResponse _); reflexivity.
Qed.

Lemma follows_query cmd notFound (k : Row → Prog (option error)) stepsOf :
  (∀ status, follows (k status) (λ _, stepsOf (filepath.Base (col status "disks")))) →
  follows (config ← runTabular cmd;
           if bool_decide (length config = 0%nat) then Ret (Some notFound)
           else status ← index config 0; k status)
          (λ d, queryStep cmd notFound :: stepsOf d).
Proof.
  intros Hk s. unfold exchanges. rewrite exec_bind. cbn [runTabular exec].
  destruct (respondTabular mm cmd (world s)) as [config w'] eqn:Hr.
  destruct config as [|status rest].
  - exists (Some notFound). cbn [exec fst snd sent log bool_decide length].
    rewrite bool_decide_eq_true_2 by reflexivity.
    cbn [exec fst snd sent log]. rewrite drop_app_length.
    split; [reflexivity|]. by apply step_failed.
  - rewrite bool_decide_eq_false_2 by discriminate.
    cbn [index lookup list_lookup mbind Prog_mbind Prog_bind].
    rewrite exchanges_sent.
    destruct (Hk status (sent mm cmd (replyTabular (status :: rest)) w' s))
      as (result & Hres & Hrun).
    exists result. split; [exact Hres|].
    cbn [resolvedDisk reply]. by apply step_succeeded.
Qed.

(** C4: [RedeployVM] runs the steps of a redeploy in their order and stops
    at the first one that fails: it returns that step's wrapped error, the
    failed step's command is the last one sent, and every step before it
    succeeded; when no step fails, every step's command has been sent, in
    order, and the result is nil. *)
Theorem RedeployVM_first_failing_step_aborts (o : Options) (s : State World) :
  ∃ result,
    (exec mm (RedeployVM o) s).1 = Returned result ∧
    first_failure_aborts
      (redeploySteps o (resolvedDisk (exchanges mm (RedeployVM o) s)))
      (exchanges mm (RedeployVM o) s) result.
Proof.
  revert s. change (follows (RedeployVM o) (redeploySteps o)).
  unfold RedeployVM, redeploySteps, flush, inject, killCommand, flushCommand.
  lazy [setText setColumns setFilters NewNamespacedCommand NewCommand
        Namespace Text Columns Filters app].
  do 3 apply follows_runStep.
  eapply follows_ext; [intros s; apply exec_orReturn_nested|].
  apply follows_runStep.
  destruct (bool_decide (cpu o ≠ 0)); cbn [app]; [apply follows_runStep|];
    (destruct (bool_decide (mem o ≠ 0)); cbn [app]; [apply follows_runStep|]);
    (destruct (bool_decide (disk o ≠ "")); cbn [app];
     [destruct (bool_decide (length (injects o) = 0%nat)); cbn [app];
      [do 4 apply follows_runStep; apply follows_done
      |apply follows_query; intros status;
       destruct (strings.Contains (filepath.Base (col status "disks")) "_snapshot");
       [apply follows_runStep;
        eapply follows_ext; [intros s; apply exec_orReturn_nested|];
        do 5 apply follows_runStep; apply follows_done
       |do 4 apply follows_runStep; apply follows_done]]
     |do 3 apply follows_runStep; apply follows_done]).
Qed.

End RedeployVM.

(** ** Captures: [GetVMCaptures] and [StartVMCapture] *)

Section Captures.
Context `{Externals} {World : Type} (mm : Controller World).

Local Abbreviation silent := (silent mm).

Lemma silent_Ret {A} (a : A) : silent (Ret a).
Proof. intros s. left. by exists a. Qed.

Lemma silent_index {A} (xs : list A) i : silent (index xs i).
Proof.
  intros s. unfold index. destruct (xs !! i); [left; by eexists|by right].
Qed.

Lemma silent_bind {A B} (p : Prog A) (f : A → Prog B) :
  silent p → (∀ a, silent (f a)) → silent (p ≫= f).
Proof.
  intros Hp Hf s. rewrite exec_bind.
  destruct (Hp s) as [[a ->]| ->]; [apply Hf|by right].
Qed.

Lemma silent_forRange {A S} (xs : list A) (body : S → A → Prog S) (acc : S) :
  (∀ acc x, silent (body acc x)) → silent (forRange xs body acc).
Proof.
  intros Hbody. revert acc. induction xs as [|x xs IH]; intros acc; cbn [forRange].
  - apply silent_Ret.
  - apply silent_bind; [apply Hbody|apply IH].
Qed.

(** [GetVMCaptures] sends the capture query and nothing else, whether it
    returns or panics on a row it cannot split. *)
Lemma exec_GetVMCaptures (o : Options) (s : State World) :
  let rows := (respondTabular mm (captureQuery o) (world s)).1 in
  let s1 := sent mm (captureQuery o) (replyTabular rows)
                 (respondTabular mm (captureQuery o) (world s)).2 s in
  (∃ caps, exec mm (GetVMCaptures o) s = (Returned caps, s1)) ∨
  exec mm (GetVMCaptures o) s = (Panicked outOfRange, s1).
Proof.
  intros rows s1. unfold GetVMCaptures, GetExperimentCaptures.
  rewrite exec_bind, exec_bind. cbn [runTabular exec].
  unfold setText, setColumns, NewNamespacedCommand.
  cbn [Namespace Text Columns Filters].
  change (mkCommand (ns o) "capture" ["interface"; "path"] []) with (captureQuery o).
  destruct (respondTabular mm (captureQuery o) (world s)) as [rs w'] eqn:Hr.
  subst rows s1. cbn [fst snd].
  match goal with |- context [exec mm (forRange rs ?b ?a) ?st] =>
    destruct (silent_forRange rs b a
      ltac:(intros; repeat (apply silent_bind; [apply silent_index|intros]);
            apply silent_Ret) st) as [[caps ->]| ->]
  end.
  - left. by eexists.
  - by right.
Qed.

Lemma exchanges_one {A} (p : Prog A) (s : State World) cmd r w' res :
  exec mm p s = (res, sent mm cmd r w' s) → exchanges mm p s = [mkExchange cmd r].
Proof.
  intros E. unfold exchanges. rewrite E. cbn [snd sent log].
  by rewrite drop_app_length.
Qed.

(** C5, as the code has it: with an absolute capture file the call fails,
    having sent the capture query of [GetVMCaptures] and no other command:
    the existing captures are listed before the path is looked at.  It
    returns the capture-exists sentinel when the interface is captured
    already, the error on the path when not, and panics when a row of the
    capture table cannot be split. *)
Theorem StartVMCapture_absolute_path_one_query (o : Options) (s : State World) :
  filepath.IsAbs (captureFile o) = true →
  issued mm (StartVMCapture o) s = [captureQuery o] ∧
  ((exec mm (StartVMCapture o) s).1 = Returned (Some ErrCaptureExists) ∨
   (exec mm (StartVMCapture o) s).1 =
     Returned (Some (Errorf "path for capture file should not be absolute")) ∨
   ∃ msg, (exec mm (StartVMCapture o) s).1 = Panicked msg).
Proof.
  intros Habs. unfold issued, StartVMCapture.
  destruct (exec_GetVMCaptures o s) as [[caps E]|E].
  - assert (E' : ∃ res, exec mm (StartVMCapture o) s =
               (res, sent mm (captureQuery o)
                  (replyTabular (respondTabular mm (captureQuery o) (world s)).1)
                  (respondTabular mm (captureQuery o) (world s)).2 s) ∧
               (res = Returned (Some ErrCaptureExists) ∨
                res = Returned (Some (Errorf "path for capture file should not be absolute")))).
    { unfold StartVMCapture. rewrite exec_bind, E.
      destruct (existsb _ caps); [|rewrite Habs]; eexists; split;
        try reflexivity; auto. }
    destruct E' as (res & E' & Hres). unfold StartVMCapture in E'.
    rewrite (exchanges_one _ _ _ _ _ _ E'), E'. split; [reflexivity|].
    destruct Hres as [-> | ->]; auto.
  - assert (E' : exec mm (StartVMCapture o) s =
               (Panicked outOfRange, sent mm (captureQuery o)
                  (replyTabular (respondTabular mm (captureQuery o) (world s)).1)
                  (respondTabular mm (captureQuery o) (world s)).2 s)).
    { unfold StartVMCapture. by rewrite exec_bind, E. }
    unfold StartVMCapture in E'.
    rewrite (exchanges_one _ _ _ _ _ _ E'), E'. split; [reflexivity|].
    right; right. by exists outOfRange.
Qed.

(** The parts of a string split at its colons: one more than it has
    colons. *)
Lemma length_Split_colon (cur s : string) :
  length (strings.Split_aux ":" 0 cur s) = S (strings.CountByte s ":").
Proof.
  revert cur. induction s as [|c s IH]; intros cur; [reflexivity|].
  cbn [strings.Split_aux strings.CountByte String.prefix].
  destruct (ascii_dec ":" c) as [<-|Hne].
  - replace (String.prefix "" s) with true by (by destruct s).
    change (String.length ":" - 1)%nat with 0%nat.
    cbn [length]. by rewrite IH.
  - rewrite (proj2 (Ascii.eqb_neq _ _) Hne). apply IH.
Qed.

Lemma captureOfRow_hasColon (row : Row) : is_Some (captureOfRow row) ↔ hasColon row.
Proof.
  unfold captureOfRow, hasColon, strings.Split.
  pose proof (length_Split_colon "" (col row "interface")) as Hlen.
  destruct (strings.Split_aux ":" 0 "" (col row "interface")) as [|vm [|idx rest]];
    cbn [length] in Hlen.
  - discriminate.
  - split; [by intros [? ?]|]. intros Hc. destruct Hc. congruence.
  - split; [|by eexists]. intros _. intros Hc. rewrite Hc in Hlen. discriminate.
Qed.

Lemma captureOfRow_noColon (row : Row) : captureOfRow row = None ↔ noColon row.
Proof.
  rewrite eq_None_not_Some, captureOfRow_hasColon. unfold hasColon, noColon.
  split; [apply dec_stable|]. intros -> Hn. by apply Hn.
Qed.

(** The body of the loop of [GetExperimentCaptures] on a row: the capture
    of the row appended, or a panic when the row has none. *)
Lemma exec_capture_of_row (row : Row) (captures : list Capture.t) (s : State World) :
  exec mm
    (let iface := strings.Split (col row "interface") ":" in
     vm ← index iface 0;
     i1 ← index iface 1;
     let idx := fst (strconv.Atoi i1) in
     let capture := Capture.mk vm idx (col row "path") in
     Ret (captures ++ [capture])) s
  = match captureOfRow row with
    | Some capture => (Returned (captures ++ [capture]), s)
    | None => (Panicked outOfRange, s)
    end.
Proof.
  unfold captureOfRow. cbv zeta.
  by destruct (strings.Split (col row "interface") ":") as [|vm [|idx rest]].
Qed.

(** The loop of [GetExperimentCaptures]: the captures of the rows, in
    order, or a panic at the first row that has none. *)
Lemma exec_captures_of_rows (rows : list Row) (captures : list Capture.t)
      (s : State World) :
  exec mm
    (forRange rows (λ captures row,
       let iface := strings.Split (col row "interface") ":" in
       vm ← index iface 0;
       i1 ← index iface 1;
       let idx := fst (strconv.Atoi i1) in
       let capture := Capture.mk vm idx (col row "path") in
       Ret (captures ++ [capture])) captures) s
  = match mapM captureOfRow rows with
    | Some found => (Returned (captures ++ found), s)
    | None => (Panicked outOfRange, s)
    end.
Proof.
  revert captures. induction rows as [|row rows IH]; intros captures.
  - cbn. by rewrite app_nil_r.
  - cbn [forRange]. rewrite exec_bind, exec_capture_of_row. cbn [mapM].
    destruct (captureOfRow row) as [capture|]; [|reflexivity].
    rewrite IH. cbn [mbind option_bind].
    destruct (mapM captureOfRow rows) as [found|]; [|reflexivity].
    cbn. by rewrite <- app_assoc.
Qed.

(** [GetVMCaptures]: one query; the captures of the rows of the table whose
    VM is the one asked for, in order; a panic when a row of the table, of
    whatever VM, has no capture. *)
Lemma exec_GetVMCaptures_rows (o : Options) (s : State World) :
  let rows := (respondTabular mm (captureQuery o) (world s)).1 in
  let s1 := sent mm (captureQuery o) (replyTabular rows)
                 (respondTabular mm (captureQuery o) (world s)).2 s in
  exec mm (GetVMCaptures o) s
  = match mapM captureOfRow rows with
    | Some found =>
      (Returned (filter (λ capture, Capture.VM capture = vm o) found), s1)
    | None => (Panicked outOfRange, s1)
    end.
Proof.
  intros rows s1. unfold GetVMCaptures, GetExperimentCaptures.
  rewrite exec_bind, exec_bind. cbn [runTabular exec].
  unfold setText, setColumns, NewNamespacedCommand.
  cbn [Namespace Text Columns Filters].
  change (mkCommand (ns o) "capture" ["interface"; "path"] []) with (captureQuery o).
  subst rows s1.
  destruct (respondTabular mm (captureQuery o) (world s)) as [rows w'].
  cbn [fst snd]. rewrite exec_captures_of_rows.
  by destruct (mapM captureOfRow rows).
Qed.


End Captures.

(** C5 as the spec states it fails: an absolute file on a cluster with no
    capture.  The call fails on the path, and the capture query has been
    sent by then. *)
Lemma StartVMCapture_absolute_path_sends_query :
  exec scripted (StartVMCapture (H := testExternals) absCapture) (start noCaptures)
  = (Returned (Some (Errorf "path for capture file should not be absolute")),
     mkState (mkScript [] []) 0 false
             [mkExchange (captureQuery absCapture) (replyTabular [])]) ∧
  issued scripted (StartVMCapture (H := testExternals) absCapture) (start noCaptures)
  = [mkCommand "exp" "capture" ["interface"; "path"] []].
Proof. split; reflexivity. Qed.

Lemma StartVMCapture_absolute_path_one_query_witness :
  issued scripted (StartVMCapture (H := testExternals) absCapture) (start noCaptures)
    = [captureQuery absCapture] ∧
  ((exec scripted (StartVMCapture (H := testExternals) absCapture) (start noCaptures)).1
     = Returned (Some ErrCaptureExists) ∨
   (exec scripted (StartVMCapture (H := testExternals) absCapture) (start noCaptures)).1
     = Returned (Some (Errorf "path for capture file should not be absolute")) ∨
   ∃ msg,
     (exec scripted (StartVMCapture (H := testExternals) absCapture) (start noCaptures)).1
     = Panicked msg).
Proof.
  apply (StartVMCapture_absolute_path_one_query (H := testExternals) scripted
           absCapture (start noCaptures)).
  reflexivity.
Defined.



(** ** The cluster: [processNamespaceHosts] and [GetClusterHosts] *)

Section Cluster.
Context `{Externals} {World : Type} (mm : Controller World).

Lemma fold_left_snoc {A B} (f : A → B) (xs : list A) (acc : list B) :
  fold_left (λ acc x, acc ++ [f x]) xs acc = acc ++ (f <$> xs).
Proof.
  revert acc. induction xs as [|x xs IH]; intros acc; cbn.
  - by rewrite app_nil_r.
  - rewrite IH, <- app_assoc. reflexivity.
Qed.

(** The loop of [GetClusterHosts] over the compute nodes, whatever they
    are: the head node becomes schedulable when a compute node bears its
    name, and the others join the cluster, in order. *)
Lemma sortComputeNodes_fold (hosts : list Host.t) (head : Host.t) (cluster : list Host.t) :
  fold_left (λ '(head, cluster) host,
      if bool_decide (Host.Name host = Host.Name head) then
        (Host.setSchedulable head true, cluster)
      else
        (head, cluster ++ [Host.setSchedulable
             (Host.setName host (TrimHostnameSuffixes (Host.Name host))) true]))
    hosts (head, cluster)
  = (if bool_decide (Exists (namedAs head) hosts)
     then Host.setSchedulable head true else head,
     cluster ++ (asComputeNode <$> filter (λ host, ¬ namedAs head host) hosts)).
Proof.
  revert head cluster. induction hosts as [|host hosts IH]; intros head cluster.
  - cbn [fold_left]. rewrite bool_decide_eq_false_2 by (by intros ?%Exists_nil).
    by rewrite filter_nil, fmap_nil, app_nil_r.
  - cbn [fold_left]. rewrite filter_cons.
    destruct (decide (namedAs head host)) as [Hname|Hname].
    + rewrite (bool_decide_eq_true_2 _ Hname), IH.
      rewrite decide_False by (intros Hn; by apply Hn).
      rewrite (bool_decide_eq_true_2 (Exists (namedAs head) (host :: hosts)))
        by (by apply Exists_cons_hd).
      change (namedAs (Host.setSchedulable head true)) with (namedAs head).
      f_equal. by destruct (bool_decide _).
    + rewrite (bool_decide_eq_false_2 _ Hname), IH, decide_True by done.
      rewrite fmap_cons, <- app_assoc.
      rewrite (bool_decide_ext (Exists (namedAs head) (host :: hosts))
                               (Exists (namedAs head) hosts));
        [reflexivity|].
      rewrite Exists_cons. tauto.
Qed.

Lemma exec_processNamespaceHosts (namespace : string) (s : State World) :
  exec mm (processNamespaceHosts namespace) s
  = (Returned
       (hostOfRow <$> (respondTabular mm (hostsQuery namespace) (world s)).1, None),
     sent mm (hostsQuery namespace)
          (replyTabular (respondTabular mm (hostsQuery namespace) (world s)).1)
          (respondTabular mm (hostsQuery namespace) (world s)).2 s).
Proof.
  unfold processNamespaceHosts. rewrite exec_bind.
  lazy [setText NewNamespacedCommand Namespace Text Columns Filters].
  change (mkCommand namespace "host" [] []) with (hostsQuery namespace).
  cbn [runTabular exec].
  destruct (respondTabular mm (hostsQuery namespace) (world s)) as [rows w'].
  cbn [fst snd exec]. by rewrite fold_left_snoc.
Qed.

Lemma exec_ClearNamespace (namespace : string) (s : State World) :
  (exec mm (ClearNamespace namespace) s).2
  = sent mm (clearNamespaceCommand namespace)
         (replyRun (respond mm (clearNamespaceCommand namespace) (world s)).1)
         (respond mm (clearNamespaceCommand namespace) (world s)).2 s ∧
  ∃ cleared, (exec mm (ClearNamespace namespace) s).1 = Returned cleared.
Proof.
  unfold ClearNamespace. rewrite exec_orReturn, exec_runErr.
  lazy [setText NewCommand Namespace Text Columns Filters].
  change (mkCommand "" ("clear namespace " +:+ namespace) [] [])
    with (clearNamespaceCommand namespace).
  destruct (ErrorResponse _); cbn [exec fst snd]; split; try reflexivity;
    by eexists.
Qed.

(** C7, as the code has it.  The head node is the first row of the host
    query in namespace minimega, the compute nodes are the rows of the one
    in the scratch namespace, asked after the scratch namespace is cleared
    (an error of the clearing is ignored).  Names are compared as the
    controller reports them.  The call returns the compute nodes that do
    not bear the head node's name, in order, normalized and schedulable,
    and after them the head node, normalized, schedulable exactly when a
    compute node bears its name; the head node is left out exactly when
    only schedulable hosts are asked for and no compute node bears its
    name.  So a cluster whose one compute node is the head node gives the
    head node alone, head node and schedulable; compute nodes none of
    which is the head node give all of them and then the head node, not
    schedulable, or left out.  With no row for the head node the call
    fails, one query sent. *)
Theorem GetClusterHosts_single_and_multi_node (schedOnly : bool) (s : State World) :
  let headReply := respondTabular mm (hostsQuery "minimega") (world s) in
  let cleared := respond mm (clearNamespaceCommand "__phenix__") headReply.2 in
  let computeRows := (respondTabular mm (hostsQuery "__phenix__") cleared.2).1 in
  match headReply.1 with
  | [] =>
    (exec mm (GetClusterHosts schedOnly) s).1
      = Returned ([], Some (Errorf "no cluster hosts found")) ∧
    issued mm (GetClusterHosts schedOnly) s = [hostsQuery "minimega"]
  | headRow :: _ =>
    let head := hostOfRow headRow in
    let computes := hostOfRow <$> computeRows in
    let named := bool_decide (Exists (namedAs head) computes) in
    let others := filter (λ host, ¬ namedAs head host) computes in
    issued mm (GetClusterHosts schedOnly) s
      = [hostsQuery "minimega"; clearNamespaceCommand "__phenix__";
         hostsQuery "__phenix__"] ∧
    (exec mm (GetClusterHosts schedOnly) s).1
      = Returned ((asComputeNode <$> others) ++
                  (if schedOnly && negb named then [] else [asHeadnode head named]),
                  None) ∧
    Forall (λ host, Host.Schedulable host = true ∧ Host.Headnode host = false)
           (asComputeNode <$> others) ∧
    Host.Headnode (asHeadnode head named) = true ∧
    Host.Schedulable (asHeadnode head named) = named ∧
    ((∃ host, computes = [host] ∧ namedAs head host) →
     (exec mm (GetClusterHosts schedOnly) s).1
       = Returned ([asHeadnode head true], None)) ∧
    (Forall (λ host, ¬ namedAs head host) computes →
     (exec mm (GetClusterHosts schedOnly) s).1
       = Returned ((asComputeNode <$> computes) ++
                   (if schedOnly then [] else [asHeadnode head false]), None))
  end.
Proof.
  intros headReply cleared computeRows.
  pose proof (exec_processNamespaceHosts "minimega" s) as E0.
  fold headReply in E0.
  destruct (headReply.1) as [|headRow headRows] eqn:Hhead.
  - unfold issued, exchanges, GetClusterHosts. rewrite exec_bind, E0.
    cbn [fmap list_fmap length bool_decide decide_rel].
    rewrite bool_decide_eq_true_2 by done. cbn [exec fst snd sent log].
    split; [reflexivity|]. by rewrite drop_app_length.
  - intros head computes named others.
    set (s1 := sent mm (hostsQuery "minimega") (replyTabular (headRow :: headRows))
                    headReply.2 s) in *.
    destruct (exec_ClearNamespace "__phenix__" s1) as [E1 [res1 E1']].
    change (world s1) with headReply.2 in E1. fold cleared in E1.
    set (s2 := sent mm (clearNamespaceCommand "__phenix__") (replyRun cleared.1)
                    cleared.2 s1) in *.
    pose proof (exec_processNamespaceHosts "__phenix__" s2) as E2.
    change (world s2) with cleared.2 in E2. fold computeRows computes in E2.
    set (s3 := sent mm (hostsQuery "__phenix__") (replyTabular computeRows)
                    (respondTabular mm (hostsQuery "__phenix__") cleared.2).2 s2) in *.
    assert (E : exec mm (GetClusterHosts schedOnly) s
                = (Returned ((asComputeNode <$> others) ++
                             (if schedOnly && negb named then []
                              else [asHeadnode head named]), None), s3)).
    { unfold GetClusterHosts. rewrite exec_bind, E0.
      cbn [fmap list_fmap length].
      rewrite bool_decide_eq_false_2 by discriminate.
      cbn [index lookup list_lookup mbind Prog_mbind Prog_bind].
      change (Prog_bind ?f ?p) with (p ≫= f).
      rewrite exec_bind.
      destruct (exec mm (ClearNamespace "__phenix__") s1) as [r1 s2'] eqn:Ec.
      cbn [fst snd] in E1, E1'. subst r1 s2'.
      rewrite exec_bind, E2.
      unfold sortComputeNodes. rewrite sortComputeNodes_fold.
      fold head. cbn [app].
      change (namedAs (Host.setHeadnode (Host.setSchedulable head false) true))
        with (namedAs head).
      subst named others.
      destruct (bool_decide (Exists (namedAs head) computes));
        cbn [Host.Schedulable Host.setSchedulable Host.setHeadnode
             negb andb exec].
      - rewrite andb_false_r. reflexivity.
      - rewrite andb_true_r.
        destruct schedOnly; cbn [exec]; [by rewrite app_nil_r|reflexivity]. }
    split.
    { unfold issued, exchanges. rewrite E. cbn [snd sent log s3 s2 s1].
      by rewrite <- !app_assoc, drop_app_length. }
    rewrite E. cbn [fst]. split; [reflexivity|].
    split.
    { apply Forall_fmap, Forall_forall. intros host Hin.
      apply list_elem_of_filter in Hin as [_ Hin].
      apply list_elem_of_fmap in Hin as (row' & -> & _). by split. }
    split; [reflexivity|]. split; [reflexivity|]. subst named others. split.
    + intros (host & Hc & Hname).
      rewrite (bool_decide_eq_true_2 (Exists (namedAs head) computes))
        by (rewrite Hc; by apply Exists_cons_hd).
      rewrite Hc, filter_cons, decide_False, filter_nil
        by (intros Hn; by apply Hn).
      by rewrite andb_false_r.
    + intros Hnone.
      rewrite (bool_decide_eq_false_2 (Exists (namedAs head) computes)).
      * replace (filter (λ host, ¬ namedAs head host) computes) with computes.
        { by rewrite andb_true_r. }
        clear -Hnone. induction Hnone as [|host l Hh Hl IH]; [reflexivity|].
        by rewrite filter_cons, decide_True, <- IH.
      * intros Hex. apply Exists_exists in Hex as (host & Hin & Hname).
        rewrite Forall_forall in Hnone. by apply (Hnone host).
Qed.

End Cluster.

(** The theorem at work: a cluster of one node; a head node and two
    compute nodes, every host asked for; and a head node that is the
    second of three compute nodes, schedulable hosts asked for. *)
Lemma GetClusterHosts_single_and_multi_node_witness :
  nameAndFlags <$> returnedHosts
    (exec scripted (GetClusterHosts (H := testExternals) true) (start oneNode))
  = [("node", true, true)] ∧
  nameAndFlags <$> returnedHosts
    (exec scripted (GetClusterHosts (H := testExternals) false) (start threeNodes))
  = [("c1", false, true); ("c2", false, true); ("head", true, false)] ∧
  nameAndFlags <$> returnedHosts
    (exec scripted (GetClusterHosts (H := testExternals) true) (start headAmongThree))
  = [("c1", false, true); ("c2", false, true); ("head", true, true)].
Proof.
  split; [|split].
  - destruct (GetClusterHosts_single_and_multi_node (H := testExternals) scripted
                true (start oneNode)) as (_ & _ & _ & _ & _ & Hsingle & _).
    unfold returnedHosts. rewrite Hsingle; [reflexivity|].
    eexists. split; reflexivity.
  - destruct (GetClusterHosts_single_and_multi_node (H := testExternals) scripted
                false (start threeNodes)) as (_ & _ & _ & _ & _ & _ & Hmulti).
    unfold returnedHosts. rewrite Hmulti; [by vm_compute|].
    repeat constructor; vm_compute; discriminate.
  - destruct (GetClusterHosts_single_and_multi_node (H := testExternals) scripted
                true (start headAmongThree)) as (_ & Hall & _).
    unfold returnedHosts. rewrite Hall. by vm_compute.
Defined.

(** C7 as the spec states it fails: the compute node "node-minimega" and
    the head node "node" have the same normalized name, yet the call, asked
    for schedulable hosts, returns the compute node, which is no head node:
    the code compares the names as the controller reports them. *)
Lemma GetClusterHosts_compares_reported_names :
  TrimHostnameSuffixes (Externals := testExternals) "node-minimega"
    = TrimHostnameSuffixes (Externals := testExternals) "node" ∧
  nameAndFlags <$> returnedHosts
    (exec scripted (GetClusterHosts (H := testExternals) true) (start twoNames))
  = [("node", false, true)].
Proof. split; vm_compute; reflexivity. Qed.

(** ** Strings *)

Section StringFacts.

Lemma append_cons (c : ascii) (s t : string) :
  String c s +:+ t = String c (s +:+ t).
Proof. reflexivity. Qed.

Lemma append_nil_l (s : string) : "" +:+ s = s.
Proof. reflexivity. Qed.

Lemma append_nil_r (s : string) : s +:+ "" = s.
Proof.
  induction s as [|c s IH]; [reflexivity|]. by rewrite append_cons, IH.
Qed.

Lemma append_assoc (s t u : string) : (s +:+ t) +:+ u = s +:+ (t +:+ u).
Proof.
  induction s as [|c s IH]; [reflexivity|]. by rewrite !append_cons, IH.
Qed.

Lemma length_append (s t : string) :
  String.length (s +:+ t) = (String.length s + String.length t)%nat.
Proof.
  induction s as [|c s IH]; [reflexivity|].
  rewrite append_cons. cbn [String.length]. by rewrite IH.
Qed.

Lemma substring_all (s : string) : String.substring 0 (String.length s) s = s.
Proof. induction s as [|c s IH]; cbn; [reflexivity|by rewrite IH]. Qed.

Lemma substring_prefix (s t : string) :
  String.substring 0 (String.length s) (s +:+ t) = s.
Proof.
  induction s as [|c s IH]; [by destruct t|].
  rewrite append_cons. cbn [String.length String.substring]. by rewrite IH.
Qed.

Lemma substring_suffix (s t : string) :
  String.substring (String.length s) (String.length t) (s +:+ t) = t.
Proof.
  induction s as [|c s IH]; [apply substring_all|].
  rewrite append_cons. exact IH.
Qed.

Lemma TrimPrefix_append (p s : string) : strings.TrimPrefix (p +:+ s) p = s.
Proof.
  unfold strings.TrimPrefix, strings.HasPrefix.
  assert (Hp : String.prefix p (p +:+ s) = true).
  { induction p as [|c p IH]; [by destruct s|].
    rewrite append_cons. cbn [String.prefix].
    destruct (ascii_dec c c); [exact IH|done]. }
  rewrite Hp, length_append.
  replace (String.length p + String.length s - String.length p)%nat
    with (String.length s) by lia.
  apply substring_suffix.
Qed.

Lemma TrimSuffix_append (s x : string) : strings.TrimSuffix (s +:+ x) x = s.
Proof.
  unfold strings.TrimSuffix, strings.HasSuffix.
  rewrite length_append.
  replace (String.length s + String.length x - String.length x)%nat
    with (String.length s) by lia.
  rewrite substring_suffix, String.eqb_refl, bool_decide_eq_true_2 by lia.
  cbn [andb]. apply substring_prefix.
Qed.

End StringFacts.

(** ** List fields: decoding what the controller encodes *)

Section ListFields.

Lemma ident_char_range (c : ascii) :
  ident_char c = true →
  ((48 ≤ nat_of_ascii c ≤ 57) ∨ (65 ≤ nat_of_ascii c ≤ 90) ∨
   (97 ≤ nat_of_ascii c ≤ 122) ∨ nat_of_ascii c = 95 ∨ nat_of_ascii c = 45 ∨
   nat_of_ascii c = 46)%nat.
Proof. unfold ident_char. apply bool_decide_eq_true_1. Qed.

(** What a white-space rune is made of: no identifier character. *)
Lemma space_width_cases (c : ascii) (s : string) :
  match strings.space_width (String c s) with
  | 0 => True
  | 1 => ident_char c = false
  | 2 => ∃ c1 s2, s = String c1 s2 ∧ ident_char c = false ∧ ident_char c1 = false
  | 3 => ∃ c1 c2 s3, s = String c1 (String c2 s3) ∧
           ident_char c = false ∧ ident_char c1 = false ∧ ident_char c2 = false
  | _ => False
  end%nat.
Proof.
  unfold strings.space_width, ident_char. cbv zeta.
  case_bool_decide as H1.
  { apply bool_decide_eq_false_2. lia. }
  destruct s as [|c1 s2]; [exact I|].
  case_bool_decide as H2.
  { exists c1, s2. split; [reflexivity|]. split; apply bool_decide_eq_false_2; lia. }
  destruct s2 as [|c2 s3]; [exact I|].
  case_bool_decide as H3; [|exact I].
  exists c1, c2, s3. split; [reflexivity|].
  repeat split; apply bool_decide_eq_false_2; lia.
Qed.

Lemma ident_char_not_space (c : ascii) (s : string) :
  ident_char c = true → strings.space_width (String c s) = 0%nat.
Proof.
  intros Hc. pose proof (space_width_cases c s) as Hw.
  destruct (strings.space_width (String c s)) as [|[|[|[|w]]]];
    [reflexivity|congruence| | |done].
  - destruct Hw as (? & ? & _ & ? & _). congruence.
  - destruct Hw as (? & ? & ? & _ & ? & _). congruence.
Qed.

Lemma ident_char_not_comma (c : ascii) : ident_char c = true → c ≠ ","%char.
Proof.
  intros Hc%ident_char_range ->.
  change (nat_of_ascii ",") with 44%nat in Hc. lia.
Qed.

(** A string of white space holds no identifier character. *)
Lemma all_space_no_ident (s : string) :
  strings.all_space s = true → all_chars (λ c, negb (ident_char c)) s = true.
Proof.
  remember (String.length s) as n eqn:Hn.
  revert s Hn. induction (lt_wf n) as [n _ IH]. intros s -> Hs.
  destruct s as [|c s1]; [reflexivity|].
  cbn [strings.all_space] in Hs.
  pose proof (space_width_cases c s1) as Hw.
  destruct (strings.space_width (String c s1)) as [|[|[|[|w]]]];
    try discriminate.
  - cbn [all_chars]. rewrite Hw. cbn [negb andb].
    eapply IH; [|reflexivity|exact Hs]. cbn. lia.
  - destruct Hw as (c1 & s2 & -> & Hc & Hc1).
    cbn [all_chars]. rewrite Hc, Hc1. cbn [negb andb].
    eapply IH; [|reflexivity|exact Hs]. cbn. lia.
  - destruct Hw as (c1 & c2 & s3 & -> & Hc & Hc1 & Hc2).
    cbn [all_chars]. rewrite Hc, Hc1, Hc2. cbn [negb andb].
    eapply IH; [|reflexivity|exact Hs]. cbn. lia.
Qed.

Lemma all_chars_append P (s t : string) :
  all_chars P (s +:+ t) = all_chars P s && all_chars P t.
Proof.
  induction s as [|c s IH]; [reflexivity|].
  rewrite append_cons. cbn [all_chars]. by rewrite IH, andb_assoc.
Qed.

(** Nothing is trimmed from the right of a string that ends with an
    identifier character. *)
Lemma TrimRightSpace_ends_ident (t : string) (c : ascii) :
  ident_char c = true →
  strings.TrimRightSpace (t +:+ String c "") = t +:+ String c "".
Proof.
  intros Hc.
  assert (Hns : ∀ u, strings.all_space (u +:+ String c "") = false).
  { intros u. destruct (strings.all_space (u +:+ String c "")) eqn:Hs;
      [|reflexivity].
    apply all_space_no_ident in Hs. rewrite all_chars_append in Hs.
    cbn [all_chars] in Hs. rewrite Hc in Hs. cbn [negb andb] in Hs.
    by rewrite andb_false_r in Hs. }
  induction t as [|a t IH].
  - pose proof (Hns "") as H0. rewrite append_nil_l in H0.
    rewrite append_nil_l. cbn [strings.TrimRightSpace]. by rewrite H0.
  - pose proof (Hns (String a t)) as H1. rewrite append_cons in H1.
    rewrite append_cons. cbn [strings.TrimRightSpace]. by rewrite H1, IH.
Qed.

Lemma TrimLeftSpace_starts_ident (c : ascii) (s : string) :
  ident_char c = true → strings.TrimLeftSpace (String c s) = String c s.
Proof.
  intros Hc. cbn [strings.TrimLeftSpace].
  by rewrite (ident_char_not_space c s Hc).
Qed.

Lemma identifier_safe_inv (x : string) :
  identifier_safe x = true →
  all_chars ident_char x = true ∧
  (∃ c x', x = String c x' ∧ ident_char c = true) ∧
  (∃ t c, x = t +:+ String c "" ∧ ident_char c = true).
Proof.
  unfold identifier_safe. intros [Hne Hall]%andb_true_iff.
  split; [exact Hall|]. destruct x as [|c x]; [discriminate|]. clear Hne.
  cbn [all_chars] in Hall. apply andb_true_iff in Hall as [Hc Hx]. split.
  - by exists c, x.
  - revert c Hc. induction x as [|d x IH]; intros c Hc.
    + by exists "", c.
    + cbn [all_chars] in Hx. apply andb_true_iff in Hx as [Hd Hx].
      destruct (IH Hx d Hd) as (t & e & -> & He).
      by exists (String c t), e.
Qed.

(** Reading an element that holds no comma moves it to the piece. *)
Lemma Split_aux_no_comma (x cur rest : string) :
  all_chars ident_char x = true →
  strings.Split_aux ", " 0 cur (x +:+ rest)
  = strings.Split_aux ", " 0 (cur +:+ x) rest.
Proof.
  revert cur. induction x as [|c x IH]; intros cur Hx.
  - by rewrite append_nil_r.
  - cbn [all_chars] in Hx. apply andb_true_iff in Hx as [Hc Hx].
    change (String c x +:+ rest) with (String c (x +:+ rest)).
    cbn [strings.Split_aux String.prefix].
    destruct (ascii_dec "," c) as [<-|_];
      [by apply ident_char_not_comma in Hc|].
    rewrite IH by exact Hx. by rewrite append_assoc.
Qed.

(** At a separator the piece is closed and a new one starts behind it. *)
Lemma Split_aux_separator (cur rest : string) :
  strings.Split_aux ", " 0 cur (", " +:+ rest)
  = cur :: strings.Split_aux ", " 0 "" rest.
Proof.
  assert (Hp : String.prefix ", " (String "," (String " " rest)) = true)
    by (destruct rest; reflexivity).
  change (strings.Split_aux ", " 0 cur (", " +:+ rest))
    with (if String.prefix ", " (String "," (String " " rest))
          then cur :: strings.Split_aux ", " 0 "" rest
          else strings.Split_aux ", " 0 (cur +:+ String "," "") (String " " rest)).
  by rewrite Hp.
Qed.

Lemma Join_cons2 (x y : string) (l : list string) :
  strings.Join (x :: y :: l) ", " = x +:+ ", " +:+ strings.Join (y :: l) ", ".
Proof. reflexivity. Qed.

Lemma Split_Join (x : string) (l : list string) (cur : string) :
  Forall (λ y, identifier_safe y = true) (x :: l) →
  strings.Split_aux ", " 0 cur (strings.Join (x :: l) ", ") = (cur +:+ x) :: l.
Proof.
  revert x cur. induction l as [|y l IH]; intros x cur Hall.
  - apply Forall_inv in Hall. apply identifier_safe_inv in Hall as [Hx _].
    change (strings.Join [x] ", ") with x.
    rewrite <- (append_nil_r x) at 1. by rewrite Split_aux_no_comma.
  - pose proof (Forall_inv Hall) as Hx. apply identifier_safe_inv in Hx as [Hx _].
    apply Forall_inv_tail in Hall.
    rewrite Join_cons2, Split_aux_no_comma by exact Hx.
    rewrite Split_aux_separator, IH by exact Hall.
    by rewrite append_nil_l.
Qed.

Lemma Join_ends_ident (x : string) (l : list string) :
  Forall (λ y, identifier_safe y = true) (x :: l) →
  ∃ t c, strings.Join (x :: l) ", " = t +:+ String c "" ∧ ident_char c = true.
Proof.
  revert x. induction l as [|y l IH]; intros x Hall.
  - apply Forall_inv in Hall. by apply identifier_safe_inv in Hall as (_ & _ & ?).
  - apply Forall_inv_tail in Hall. destruct (IH y Hall) as (t & c & E & Hc).
    exists (x +:+ ", " +:+ t), c. split; [|exact Hc].
    by rewrite Join_cons2, E, !append_assoc.
Qed.

(** C8: decoding the bracketed, comma-space-joined encoding of a list of
    identifier-safe strings gives the list back, in order; the empty
    brackets and an absent column both decode to the empty list. *)
Theorem decodeList_encodeList (l : list string) :
  Forall (λ x, identifier_safe x = true) l →
  decodeList (encodeList l) = l ∧
  decodeList "[]" = [] ∧
  (∀ (row : Row) (column : string), row !! column = None →
     decodeList (col row column) = decodeList "[]").
Proof.
  intros Hall. split; [|split].
  - unfold decodeList, encodeList.
    rewrite TrimPrefix_append, TrimSuffix_append.
    destruct l as [|x l]; [reflexivity|].
    assert (Htrim : strings.TrimSpace (strings.Join (x :: l) ", ")
                    = strings.Join (x :: l) ", ").
    { unfold strings.TrimSpace.
      pose proof (Forall_inv Hall) as Hx.
      apply identifier_safe_inv in Hx as (_ & (c & x' & -> & Hc) & _).
      assert (Hstart : ∃ rest, strings.Join (String c x' :: l) ", " = String c rest).
      { destruct l; cbn; eauto. }
      destruct Hstart as [rest Hstart].
      rewrite Hstart, (TrimLeftSpace_starts_ident c rest Hc), <- Hstart.
      destruct (Join_ends_ident _ _ Hall) as (t & d & -> & Hd).
      by apply TrimRightSpace_ends_ident. }
    rewrite Htrim.
    assert (Hne : strings.Join (x :: l) ", " ≠ "").
    { pose proof (Forall_inv Hall) as Hx.
      apply identifier_safe_inv in Hx as (_ & (c & x' & -> & _) & _).
      destruct l; discriminate. }
    rewrite bool_decide_eq_true_2 by exact Hne.
    unfold strings.Split. by rewrite Split_Join.
  - reflexivity.
  - intros row column Hnone. unfold col. rewrite Hnone. reflexivity.
Qed.

End ListFields.

(** The theorem at work on the list of §6. *)
Lemma decodeList_encodeList_witness :
  decodeList "[eth0, eth1]" = ["eth0"; "eth1"] ∧
  decodeList "[]" = [] ∧
  decodeList (col (row [("name", "vm1")]) "vlan") = decodeList "[]".
Proof.
  destruct (decodeList_encodeList ["eth0"; "eth1"]) as (E & E0 & Habsent).
  - repeat constructor.
  - split; [exact E|]. split; [exact E0|]. by apply Habsent.
Defined.

(** ** VM info: [GetVMInfo] *)

Section VMInfo.
Context `{Externals} {World : Type} (mm : Controller World).

Lemma exchanges_bind {A B} (p : Prog A) (f : A → Prog B) (s s1 : State World) a :
  exec mm p s = (Returned a, s1) →
  exchanges mm (p ≫= f) s = exchanges mm p s ++ exchanges mm (f a) s1.
Proof.
  intros E. unfold exchanges at 1. rewrite exec_bind, E.
  rewrite log_exchanges.
  pose proof (log_exchanges mm p s) as Hp. rewrite E in Hp. cbn [snd] in Hp.
  by rewrite Hp, <- app_assoc, drop_app_length.
Qed.

Lemma Split_aux_cons (sep : string) (skip : nat) (cur s : string) :
  ∃ piece pieces, strings.Split_aux sep skip cur s = piece :: pieces.
Proof.
  revert skip cur. induction s as [|c s IH]; intros skip cur; cbn [strings.Split_aux].
  - by eexists _, _.
  - destruct skip as [|skip]; [|apply IH].
    destruct (String.prefix sep (String c s)); [by eexists _, _|apply IH].
Qed.

(** One turn of the loop of [GetVMInfo]: past the capture query it
    resolves the disk; it returns only when the row names a disk and the
    disk query is answered with a row, and panics on an index if not. *)
Lemma exec_GetVMInfo_row (o : Options) (vms : list VM.t) (row : Row) (s : State World) :
  match exec mm (GetVMInfo_row o vms row) s with
  | (Returned vms', s2) =>
    namesDisk row ∧ length vms' = S (length vms) ∧
    ∃ x1 x2, log s2 = log s ++ [x1; x2] ∧
             isDiskInfo (sentCmd x1) = false ∧ diskInfoAnswered x2
  | (Panicked msg, _) => msg = outOfRange
  | (Blocked, _) => False
  end.
Proof.
  unfold GetVMInfo_row. rewrite exec_bind.
  destruct (exec_GetVMCaptures mm (NS_VMName (ns o) (col row "name")) s)
    as [[caps ->]| ->]; [|reflexivity].
  destruct (time_ParseDuration (col row "uptime")) as [uptime ok].
  rewrite exec_bind. unfold namesDisk.
  destruct (strings.Fields (col row "disks")) as [|disk disks] eqn:Hf;
    [reflexivity|].
  cbn [index lookup list_lookup exec].
  rewrite exec_bind.
  destruct (Split_aux_cons "," 0 "" disk) as (d & ds & Hd).
  unfold strings.Split. rewrite Hd.
  cbn [index lookup list_lookup exec].
  rewrite exec_bind. cbn [runTabular exec].
  destruct (respondTabular mm _ _) as [info w'].
  destruct info as [|resp info]; [reflexivity|].
  cbn [index lookup list_lookup exec mbind Prog_mbind Prog_bind].
  split; [discriminate|]. split; [by rewrite length_app, Nat.add_comm|].
  eexists _, _. split; [cbn [sent log]; by rewrite <- app_assoc|].
  split; [reflexivity|]. intros _. discriminate.
Qed.

Lemma exec_GetVMInfo_loop (o : Options) (rows : list Row) (vms : list VM.t)
      (s : State World) :
  match exec mm (forRange rows (GetVMInfo_row o) vms) s with
  | (Returned vms', _) =>
    Forall namesDisk rows ∧
    Forall diskInfoAnswered (exchanges mm (forRange rows (GetVMInfo_row o) vms) s) ∧
    length vms' = (length vms + length rows)%nat
  | (Panicked msg, _) => msg = outOfRange
  | (Blocked, _) => False
  end.
Proof.
  revert vms s. induction rows as [|row rows IH]; intros vms s.
  - cbn [forRange exec]. rewrite exchanges_Ret. repeat split; [constructor..|].
    cbn. lia.
  - cbn [forRange].
    pose proof (exec_GetVMInfo_row o vms row s) as Hrow.
    destruct (exec mm (GetVMInfo_row o vms row) s) as [[vms1|msg|] s2] eqn:E;
      rewrite exec_bind, E; [|exact Hrow|exact Hrow].
    destruct Hrow as (Hdisk & Hlen & x1 & x2 & Hlog & Hx1 & Hx2).
    rewrite (exchanges_bind _ _ _ _ _ E).
    specialize (IH vms1 s2).
    destruct (exec mm (forRange rows (GetVMInfo_row o) vms1) s2)
      as [[vms2|msg|] s3]; [|exact IH|exact IH].
    destruct IH as (Hrows & Hrun & Hlen2). split; [by constructor|]. split.
    + apply Forall_app. split; [|exact Hrun].
      unfold exchanges. rewrite E. cbn [snd]. rewrite Hlog, drop_app_length.
      repeat constructor; [|exact Hx2]. intros Hd. congruence.
    + rewrite Hlen2, Hlen. cbn. lia.
Qed.

(** C10: [GetVMInfo] returns only when every row of the VM query names a
    disk and every disk query is answered with at least one row; it then
    has one VM per row.  In every other case it panics on an index out of
    range: the first field of the disks column and the first row of the
    disk query are taken without a test. *)
Theorem GetVMInfo_disk_resolution_needs_disk_and_row (o : Options) (s : State World) :
  let rows := (respondTabular mm (vmInfoQuery o) (world s)).1 in
  let run := exchanges mm (GetVMInfo o) s in
  match (exec mm (GetVMInfo o) s).1 with
  | Returned vms =>
    Forall namesDisk rows ∧ Forall diskInfoAnswered run ∧ length vms = length rows
  | Panicked msg =>
    msg = outOfRange
  | Blocked => False
  end ∧
  (¬ Forall namesDisk rows ∨ ¬ Forall diskInfoAnswered run →
   (exec mm (GetVMInfo o) s).1 = Panicked outOfRange).
Proof.
  intros rows run.
  assert (Hmatch :
    match (exec mm (GetVMInfo o) s).1 with
    | Returned vms =>
      Forall namesDisk rows ∧ Forall diskInfoAnswered run ∧ length vms = length rows
    | Panicked msg => msg = outOfRange
    | Blocked => False
    end).
  { subst rows run. unfold exchanges, GetVMInfo.
    assert (Hcmd : (if bool_decide (vm o ≠ "")
                    then setFilters (setColumns (setText (NewNamespacedCommand (ns o)) "vm info")
                           ["host"; "name"; "state"; "uptime"; "vlan"; "tap";
                            "memory"; "vcpus"; "disks"]) ["name=" +:+ vm o]
                    else setColumns (setText (NewNamespacedCommand (ns o)) "vm info")
                           ["host"; "name"; "state"; "uptime"; "vlan"; "tap";
                            "memory"; "vcpus"; "disks"]) = vmInfoQuery o).
    { unfold vmInfoQuery. by destruct (bool_decide (vm o ≠ "")). }
    rewrite Hcmd, exec_bind. cbn [runTabular exec].
    destruct (respondTabular mm (vmInfoQuery o) (world s)) as [rows w'].
    cbn [fst].
    pose proof (exec_GetVMInfo_loop o rows []
                  (sent mm (vmInfoQuery o) (replyTabular rows) w' s)) as Hloop.
    rewrite exchanges_sent.
    destruct (exec mm (forRange rows (GetVMInfo_row o) []) _) as [[vms|msg|] s3];
      [|exact Hloop|exact Hloop].
    destruct Hloop as (Hrows & Hrun & Hlen). cbn [fst].
    split; [exact Hrows|]. split; [|exact Hlen].
    constructor; [|exact Hrun]. intros Hd.
    unfold vmInfoQuery, isDiskInfo in Hd. cbn in Hd. discriminate. }
  split; [exact Hmatch|].
  intros Hnot. destruct ((exec mm (GetVMInfo o) s).1) as [vms|msg|].
  - destruct Hmatch as (? & ? & _). by destruct Hnot.
  - by rewrite Hmatch.
  - done.
Qed.

End VMInfo.

(** The theorem at work: a VM whose row names no disk, and a VM whose disk
    the controller does not know: [GetVMInfo] panics. *)
Lemma GetVMInfo_disk_resolution_needs_disk_and_row_witness :
  (exec scripted (GetVMInfo (H := testExternals) vm1) (start noDisk)).1
    = Panicked outOfRange ∧
  (exec scripted (GetVMInfo (H := testExternals) vm1) (start diskUnknown)).1
    = Panicked outOfRange.
Proof.
  split.
  - apply (proj2 (GetVMInfo_disk_resolution_needs_disk_and_row
                    (H := testExternals) scripted vm1 (start noDisk))).
    left. intros Hall. apply Forall_inv in Hall. by apply Hall.
  - apply (proj2 (GetVMInfo_disk_resolution_needs_disk_and_row
                    (H := testExternals) scripted vm1 (start diskUnknown))).
    right. intros Hall.
    apply Forall_inv_tail, Forall_inv_tail, Forall_inv in Hall.
    by apply Hall.
Defined.

(** ** Two calls at once: critical sections under [ccMu] *)

Section CriticalSections.
Context {R : Type} (body : tid → Prog R).
Hypothesis body_simple : ∀ i, simple (body i).

Lemma runs_snoc_Run (p : Prog R) l cmd k resps :
  runs p l (Run cmd k) → runs p (l ++ [cmd]) (k resps).
Proof.
  intros Hr. remember (Run cmd k) as q eqn:Hq.
  induction Hr as [p|c k' r l q Hr IH|c k' r l q Hr IH]; subst.
  - apply (runs_Run _ _ resps). constructor.
  - cbn. econstructor. by apply IH.
  - cbn. econstructor. by apply IH.
Qed.

Lemma runs_snoc_RunTabular (p : Prog R) l cmd k rows :
  runs p l (RunTabular cmd k) → runs p (l ++ [cmd]) (k rows).
Proof.
  intros Hr. remember (RunTabular cmd k) as q eqn:Hq.
  induction Hr as [p|c k' r l q Hr IH|c k' r l q Hr IH]; subst.
  - apply (runs_RunTabular _ _ rows). constructor.
  - cbn. econstructor. by apply IH.
  - cbn. econstructor. by apply IH.
Qed.

Lemma other_ne (i : tid) : other i ≠ i.
Proof. by destruct i. Qed.

Lemma other_or (i j : tid) : j = i ∨ j = other i.
Proof. destruct i, j; auto. Qed.

Lemma by_app (i : tid) (l1 l2 : list Command) : by_ i (l1 ++ l2) = by_ i l1 ++ by_ i l2.
Proof. apply fmap_app. Qed.

Local Abbreviation serialized := (serialized body).

Lemma serialized_initial :
  serialized (mkConf None (λ i, guarded (body i)) []).
Proof.
  exists (λ _, Before), (λ _, []), tA. repeat split; try done.
Qed.

(** A command sent from inside a section keeps the trace serialized. *)
Lemma serialized_send (c : Conf R) (st : tid → status) (l : tid → list Command)
      (first i : tid) (cmd : Command) (p' : Prog R) :
  (∀ j, stands (body j) (st j) (l j) (threads c j)) →
  (∀ j, mutex c = Some j ↔ st j = Inside) →
  trace c = by_ first (l first) ++ by_ (other first) (l (other first)) →
  (l (other first) ≠ [] → st first = After) →
  st i = Inside →
  stands (body i) Inside (l i ++ [cmd]) p' →
  serialized (mkConf (mutex c) (setThread i p' (threads c)) (trace c ++ [(i, cmd)])).
Proof.
  intros Hst Hmu Htr Hord Hi Hp'.
  set (l' := λ j, if decide (i = j) then l i ++ [cmd] else l j).
  assert (Hst' : ∀ j, stands (body j) (st j) (l' j)
                        (setThread i p' (threads c) j)).
  { intros j. unfold l', setThread. destruct (decide (i = j)) as [<-|_].
    - by rewrite Hi.
    - apply Hst. }
  assert (Hother : st (other i) ≠ Inside).
  { intros Ho. apply Hmu in Ho. apply Hmu in Hi. rewrite Hi in Ho.
    injection Ho as Ho. by destruct i. }
  destruct (decide (first = i)) as [->|Hne].
  - (* the sender is the first: the other has sent nothing yet *)
    assert (Hnil : l (other i) = []).
    { destruct (l (other i)) eqn:E; [done|].
      rewrite Hord in Hi by done. discriminate. }
    exists st, l', i. split; [exact Hst'|]. split; [exact Hmu|].
    cbn [trace]. unfold l'. rewrite decide_True by done.
    rewrite decide_False by (by destruct i).
    rewrite Htr, Hnil, by_app. cbn. split; [by rewrite !app_nil_r|done].
  - (* the sender is the second *)
    assert (Hi2 : i = other first) by (destruct first, i; done).
    destruct (st first) eqn:Hf.
    + (* the first has not started: the sender comes first *)
      assert (Hnil : l first = []).
      { specialize (Hst first). rewrite Hf in Hst. by destruct Hst. }
      exists st, l', i. split; [exact Hst'|]. split; [exact Hmu|].
      cbn [trace]. unfold l'. rewrite decide_True by done.
      rewrite decide_False by (by destruct i).
      assert (Hof : other i = first) by (subst i; by destruct first).
      rewrite Hof, Htr, Hnil, <- Hi2, by_app. cbn.
      split; [by rewrite app_nil_r|done].
    + exfalso. apply Hother. subst i. by destruct first.
    + exists st, l', first. split; [exact Hst'|]. split; [exact Hmu|].
      cbn [trace]. unfold l'. rewrite decide_False by done.
      rewrite <- Hi2, decide_True by done.
      rewrite Htr, <- Hi2, by_app, app_assoc. split; [reflexivity|].
      intros _. exact Hf.
Qed.

Lemma serialized_step (c c' : Conf R) : serialized c → step c c' → serialized c'.
Proof.
  intros (st & l & first & Hst & Hmu & Htr & Hord) (i & r & Hmove).
  unfold move in Hmove. pose proof (Hst i) as Hi.
  destruct (st i) eqn:Hsti; cbn [stands] in Hi.
  - (* before: the mutex is taken *)
    destruct Hi as [Hp Hl]. rewrite Hp in Hmove. unfold guarded in Hmove.
    destruct (mutex c) as [j|] eqn:Hm; [discriminate|]. injection Hmove as <-.
    exists (λ j, if decide (i = j) then Inside else st j), l, first.
    cbn [mutex threads trace]. split; [|split; [|split]].
    + intros j. unfold setThread. destruct (decide (i = j)) as [<-|_]; [|apply Hst].
      exists (body i). rewrite Hl. repeat split; [constructor|apply body_simple].
    + intros j. split.
      * intros [= <-]. by rewrite decide_True.
      * intros Hj. destruct (decide (i = j)) as [<-|_]; [done|].
        apply Hmu in Hj. congruence.
    + exact Htr.
    + intros Ho. specialize (Hord Ho).
      destruct (decide (i = first)) as [->|_]; [congruence|exact Hord].
  - (* inside: a command is sent, or the mutex released *)
    destruct Hi as (q & Hq & Hsimple & Hp). rewrite Hp in Hmove.
    destruct Hsimple as [res|cmd k Hk|cmd k Hk];
      cbn [mbind Prog_mbind Prog_bind] in Hmove.
    + assert (Hm : mutex c = Some i) by (by apply Hmu).
      rewrite bool_decide_eq_true_2 in Hmove by exact Hm. injection Hmove as <-.
      exists (λ j, if decide (i = j) then After else st j), l, first.
      cbn [mutex threads trace]. split; [|split; [|split]].
      * intros j. unfold setThread. destruct (decide (i = j)) as [<-|_]; [|apply Hst].
        by exists res.
      * intros j. split; [discriminate|].
        intros Hj. destruct (decide (i = j)) as [<-|Hne]; [done|].
        apply Hmu in Hj. congruence.
      * exact Htr.
      * intros Ho. destruct (decide (i = first)) as [->|_]; [done|by apply Hord].
    + destruct r as [resps|rows]; [|discriminate]. injection Hmove as <-.
      eapply serialized_send; try eassumption.
      exists (k resps). split; [by apply runs_snoc_Run|]. split; [apply Hk|done].
    + destruct r as [resps|rows]; [discriminate|]. injection Hmove as <-.
      eapply serialized_send; try eassumption.
      exists (k rows). split; [by apply runs_snoc_RunTabular|]. split; [apply Hk|done].
  - (* after: no move *)
    destruct Hi as (res & _ & Hp). by rewrite Hp in Hmove.
Qed.

Lemma serialized_reachable (c : Conf R) :
  rtc step (mkConf None (λ i, guarded (body i)) []) c → serialized c.
Proof.
  revert c. apply rtc_ind_r.
  - apply serialized_initial.
  - intros c c' _ Hstep Hc. by eapply serialized_step.
Qed.

End CriticalSections.

(** ** [ExecC2Command] *)

Section C2.
Context `{Externals}.

Lemma ExecC2Command_guarded (o : C2Options) :
  ExecC2Command o = guarded (ExecC2Command_locked o).
Proof. reflexivity. Qed.

Lemma ExecC2Command_locked_simple (o : C2Options) : simple (ExecC2Command_locked o).
Proof.
  unfold ExecC2Command_locked, IsC2ClientActive, runErr.
  cbn [mbind Prog_mbind Prog_bind runTabular run fmap Prog_fmap].
  constructor. intros rows. destruct rows as [|row rows].
  { cbn. constructor. }
  rewrite bool_decide_eq_false_2 by discriminate.
  cbn [index lookup list_lookup mbind Prog_mbind Prog_bind].
  destruct (bool_decide (col row "cc_active" ≠ "true"));
    cbn [mbind Prog_mbind Prog_bind]; [constructor|].
  constructor. intros resps. cbn [Prog_bind].
  destruct (ErrorResponse resps); cbn [Prog_bind]; [constructor|].
  constructor. intros resps2. cbn [Prog_bind].
  destruct (SingleDataResponse resps2) as [data [err|]]; constructor.
Qed.

Lemma runs_Ret_inv {R} (r : R) l (q : Prog R) : runs (Ret r) l q → l = [] ∧ q = Ret r.
Proof. by inversion 1. Qed.

(** The commands a call has sent are the first of its three; a call that
    has returned an id has sent the three. *)
Lemma runs_ExecC2Command_locked (o : C2Options) l q :
  runs (ExecC2Command_locked o) l q →
  l `prefix_of` c2Commands o ∧
  (∀ id, q = Ret (id, None) → l = c2Commands o).
Proof.
  unfold ExecC2Command_locked, IsC2ClientActive, runErr, c2Commands,
    activeQuery, filterCommand, execCommand.
  cbn [mbind Prog_mbind Prog_bind runTabular run fmap Prog_fmap].
  unfold setText, setColumns, setFilters, NewNamespacedCommand.
  cbn [Namespace Text Columns Filters].
  intros Hr. inversion Hr as [|?|? ? rows l1 ? Hr1]; subst.
  { split; [apply prefix_nil|discriminate]. }
  clear Hr. destruct rows as [|row rows].
  { cbn in Hr1. apply runs_Ret_inv in Hr1 as [-> ->].
    split; [by apply prefix_cons, prefix_nil|discriminate]. }
  rewrite bool_decide_eq_false_2 in Hr1 by discriminate.
  cbn [index lookup list_lookup mbind Prog_mbind Prog_bind] in Hr1.
  destruct (bool_decide (col row "cc_active" ≠ "true"));
    cbn [mbind Prog_mbind Prog_bind] in Hr1.
  { apply runs_Ret_inv in Hr1 as [-> ->].
    split; [by apply prefix_cons, prefix_nil|discriminate]. }
  inversion Hr1 as [|? ? resps l2 ? Hr2|]; subst.
  { split; [by apply prefix_cons, prefix_nil|discriminate]. }
  clear Hr1. cbn [Prog_bind] in Hr2.
  destruct (ErrorResponse resps); cbn [Prog_bind] in Hr2.
  { apply runs_Ret_inv in Hr2 as [-> ->].
    split; [by do 2 apply prefix_cons; apply prefix_nil|discriminate]. }
  inversion Hr2 as [|? ? resps2 l3 ? Hr3|]; subst.
  { split; [by do 2 apply prefix_cons; apply prefix_nil|discriminate]. }
  clear Hr2. cbn [Prog_bind] in Hr3.
  destruct (SingleDataResponse resps2) as [data [err|]];
    apply runs_Ret_inv in Hr3 as [-> ->]; split; done.
Qed.

Lemma schedule_reaches {R} (moves : list (tid * Reply)) (c c' : Conf R) :
  schedule moves c = Some c' → rtc step c c'.
Proof.
  revert c. induction moves as [|[i r] moves IH]; intros c; cbn [schedule].
  - intros [= ->]. constructor.
  - destruct (move i r c) as [c1|] eqn:E; [|discriminate].
    intros Hs. eapply rtc_l; [by exists i, r|by apply IH].
Qed.

(** C1: whatever the scheduling of two concurrent [ExecC2Command] calls and
    whatever the controller answers, the controller receives all the
    commands of one call before any command of the other: the active
    query, the filter and the exec of a call are never interleaved with
    those of the other call.  When both calls return an id, the cc
    commands received are filter(A), exec(A), filter(B), exec(B), or the
    same with B first. *)
Theorem ExecC2Command_filter_and_exec_never_interleave
        (oA oB : C2Options) (c : Conf (string * option error)) :
  rtc step (twoCalls oA oB) c →
  ∃ la lb,
    la `prefix_of` c2Commands oA ∧ lb `prefix_of` c2Commands oB ∧
    (trace c = by_ tA la ++ by_ tB lb ∨ trace c = by_ tB lb ++ by_ tA la) ∧
    (∀ idA idB,
       threads c tA = Ret (idA, None) → threads c tB = Ret (idB, None) →
       ccOnly (trace c) = [(tA, filterCommand oA); (tA, execCommand oA);
                           (tB, filterCommand oB); (tB, execCommand oB)] ∨
       ccOnly (trace c) = [(tB, filterCommand oB); (tB, execCommand oB);
                           (tA, filterCommand oA); (tA, execCommand oA)]).
Proof.
  intros Hreach.
  set (opts := λ i, match i with tA => oA | tB => oB end).
  apply (serialized_reachable (λ i, ExecC2Command_locked (opts i))) in Hreach;
    [|intros i; apply ExecC2Command_locked_simple].
  destruct Hreach as (st & l & first & Hst & Hmu & Htr & Hord).
  assert (Hsent : ∀ i, l i `prefix_of` c2Commands (opts i) ∧
            (∀ id, threads c i = Ret (id, None) → l i = c2Commands (opts i))).
  { intros i. specialize (Hst i). destruct (st i); cbn [stands] in Hst.
    - destruct Hst as [-> ->]. split; [apply prefix_nil|discriminate].
    - destruct Hst as (q & Hq & Hs & ->).
      split; [by apply (runs_ExecC2Command_locked _ _ _ Hq)|].
      intros id. destruct Hs; discriminate.
    - destruct Hst as (r & Hq & ->).
      split; [by apply (runs_ExecC2Command_locked _ _ _ Hq)|].
      intros id [= ->]. by apply (proj2 (runs_ExecC2Command_locked _ _ _ Hq) id). }
  exists (l tA), (l tB).
  split; [apply (Hsent tA)|]. split; [apply (Hsent tB)|].
  split.
  - destruct first; [left|right]; exact Htr.
  - intros idA idB HA HB.
    apply (proj2 (Hsent tA)) in HA. apply (proj2 (Hsent tB)) in HB.
    rewrite Htr. destruct first; cbn [other]; rewrite HA, HB; [left|right];
      reflexivity.
Qed.

End C2.

(** The theorem at work: call A runs to its end, then call B. *)
Lemma ExecC2Command_filter_and_exec_never_interleave_witness :
  ∃ la lb,
    la `prefix_of` c2Commands callA ∧ lb `prefix_of` c2Commands callB ∧
    (trace serialOutcome = by_ tA la ++ by_ tB lb ∨
     trace serialOutcome = by_ tB lb ++ by_ tA la) ∧
    (∀ idA idB,
       threads serialOutcome tA = Ret (idA, None) →
       threads serialOutcome tB = Ret (idB, None) →
       ccOnly (trace serialOutcome)
         = [(tA, filterCommand callA); (tA, execCommand callA);
            (tB, filterCommand callB); (tB, execCommand callB)] ∨
       ccOnly (trace serialOutcome)
         = [(tB, filterCommand callB); (tB, execCommand callB);
            (tA, filterCommand callA); (tA, execCommand callA)]).
Proof.
  apply (ExecC2Command_filter_and_exec_never_interleave
           (H := testExternals) callA callB serialOutcome).
  apply (schedule_reaches serialRun). reflexivity.
Defined.

(** What the mutex is for: the two bodies run without it can alternate,
    and the filter of call B then stands between the filter of call A and
    its exec. *)
Lemma without_ccMu_the_calls_interleave :
  (ccOnly ∘ trace) <$>
    schedule alternatingRun (twoCallsUnlocked (H := testExternals) callA callB)
  = Some [(tA, filterCommand callA); (tB, filterCommand callB);
          (tA, execCommand callA); (tB, execCommand callB)].
Proof. reflexivity. Qed.

(** ** [WaitForC2Response] *)

Section Wait.
Context `{Externals} {World : Type} (mm : Controller World).

(** One turn of the loop when nothing is ready: the timer of this turn
    has just been made and has not fired, so the select takes its default
    case; the controller is polled, reports no response, and the loop
    sleeps a second. *)
Lemma WaitForC2Response_loop_turn (fuel : nat) (ctx : Context) (o : C2Options)
      (s : State World) :
  neverResponds mm o →
  ready (now s) (Context_Done ctx) = false →
  0 < timeout o →
  exec mm (WaitForC2Response_loop (S fuel) ctx o (statusQuery o)) s
  = exec mm (WaitForC2Response_loop fuel ctx o (statusQuery o))
      (mkState (respondTabular mm (statusQuery o) (world s)).2
               (now s + Z.of_N (latency mm (statusQuery o) (world s))
                + 1 * time.Second)
               (held s)
               (log s ++ [mkExchange (statusQuery o)
                            (replyTabular (respondTabular mm (statusQuery o) (world s)).1)])).
Proof.
  intros Hpending Hctx Htimeout.
  cbn [WaitForC2Response_loop]. rewrite exec_bind. cbn [time_After exec].
  rewrite exec_bind. cbn [select_default exec readyCases].
  rewrite Hctx. cbn [ready app].
  rewrite bool_decide_eq_false_2 by lia. cbn [app].
  rewrite exec_bind. cbn [runTabular exec].
  destruct (Hpending (world s)) as (row & rows & Hrows & Hid & Hzero).
  destruct (respondTabular mm (statusQuery o) (world s)) as [rs w'].
  cbn [fst snd] in *. subst rs.
  rewrite bool_decide_eq_false_2 by discriminate.
  rewrite exec_bind. cbn [index lookup list_lookup exec].
  rewrite bool_decide_eq_false_2 by (intros Hne; by apply Hne).
  assert (Hnone : existsb (λ r, bool_decide (col r "responses" ≠ "0")) (row :: rows)
                  = false).
  { apply not_true_is_false. intros (r & Hin & Hr)%existsb_exists.
    apply bool_decide_eq_true_1 in Hr. apply Hr.
    rewrite Forall_forall in Hzero. apply Hzero. by apply list_elem_of_In. }
  rewrite Hnone, exec_bind. cbn [time_Sleep exec sent now world held log].
  rewrite Z.max_r by (unfold time.Second; lia). reflexivity.
Qed.

(** The loop never takes the timeout case: with a context that is not
    cancelled and a controller that reports no response, after any number
    of turns it has not returned; it has polled once a turn and slept a
    second a turn. *)
Lemma WaitForC2Response_loop_spins (fuel : nat) (ctx : Context) (o : C2Options)
      (s : State World) :
  neverResponds mm o →
  closes_at ctx = None →
  0 < timeout o →
  ∃ s', exec mm (WaitForC2Response_loop fuel ctx o (statusQuery o)) s
        = (Returned None, s') ∧
        now s + Z.of_nat fuel * time.Second ≤ now s' ∧
        sentCmd <$> log s' = (sentCmd <$> log s) ++ replicate fuel (statusQuery o).
Proof.
  intros Hpending Hctx Htimeout. revert s.
  induction fuel as [|fuel IH]; intros s.
  - exists s. cbn [WaitForC2Response_loop exec replicate].
    rewrite app_nil_r. repeat split; lia.
  - rewrite WaitForC2Response_loop_turn; [|done| |done].
    + destruct (IH (mkState (respondTabular mm (statusQuery o) (world s)).2
               (now s + Z.of_N (latency mm (statusQuery o) (world s))
                + 1 * time.Second)
               (held s)
               (log s ++ [mkExchange (statusQuery o)
                            (replyTabular (respondTabular mm (statusQuery o) (world s)).1)])))
        as (s' & E & Hnow & Hlog).
      exists s'. split; [exact E|]. cbn [now log] in *. split; [lia|].
      rewrite Hlog, fmap_app, <- app_assoc. reflexivity.
    + unfold Context_Done. by rewrite Hctx.
Qed.

(** C2, the timeout: [WaitForC2Response] with a positive timeout, a
    context that is never cancelled and a controller that never reports a
    response returns no timeout failure, however long it runs: after any
    number of turns of its loop the call is still polling, a second a
    turn. *)
Theorem WaitForC2Response_timeout_never_fires (fuel : nat) (ctx : Context)
        (o : C2Options) (s : State World) :
  neverResponds mm o →
  closes_at ctx = None →
  0 < timeout o →
  (exec mm (WaitForC2Response fuel ctx o) s).1 = Returned None ∧
  now s + Z.of_nat fuel * time.Second ≤ now (exec mm (WaitForC2Response fuel ctx o) s).2 ∧
  issued mm (WaitForC2Response fuel ctx o) s = replicate fuel (statusQuery o).
Proof.
  intros Hpending Hctx Htimeout.
  unfold issued, exchanges, WaitForC2Response.
  change (setFilters (setColumns (setText (NewNamespacedCommand (c2_ns o)) "cc commands")
            ["id"; "responses"]) ["id=" +:+ commandID o]) with (statusQuery o).
  rewrite exec_bind.
  destruct (WaitForC2Response_loop_spins fuel ctx o s Hpending Hctx Htimeout)
    as (s' & E & Hnow & Hlen).
  rewrite E. cbn [exec fst snd]. split; [reflexivity|]. split; [exact Hnow|].
  pose proof (exec_log_prefix mm
    (WaitForC2Response_loop fuel ctx o (statusQuery o)) s) as [l Hl].
  rewrite E in Hl. cbn [snd] in Hl. rewrite Hl in Hlen |- *.
  rewrite drop_app_length. rewrite fmap_app in Hlen.
  by apply app_inv_head in Hlen.
Qed.

(** C2, the cancellation: once the context is closed, the next turn of
    the loop returns [ctx.Err()] without polling the controller. *)
Lemma WaitForC2Response_loop_cancelled (fuel : nat) (ctx : Context) (o : C2Options)
      (cmd : Command) (t : Z) (s : State World) :
  closes_at ctx = Some t → t ≤ now s → 0 < timeout o →
  exec mm (WaitForC2Response_loop (S fuel) ctx o cmd) s
  = (Returned (Some (Some (Context_Err ctx))), s).
Proof.
  intros Hctx Ht Htimeout.
  cbn [WaitForC2Response_loop]. rewrite exec_bind. cbn [time_After exec].
  rewrite exec_bind. cbn [select_default exec readyCases].
  unfold Context_Done. rewrite Hctx. cbn [ready].
  rewrite bool_decide_eq_true_2 by exact Ht.
  rewrite bool_decide_eq_false_2 by lia. reflexivity.
Qed.

End Wait.

(** The failing input of C2: a timeout of 200ms, a context nobody cancels
    and the controller double that never reports a response.  After ten
    turns of the loop the call has returned nothing, the clock stands at
    ten seconds, and ten polls have been sent. *)
Lemma WaitForC2Response_timeout_never_fires_witness :
  (exec (pending "7") (WaitForC2Response (H := testExternals) 10 background wait200ms)
        (start ())).1 = Returned None ∧
  0 + Z.of_nat 10 * time.Second
    ≤ now (exec (pending "7")
             (WaitForC2Response (H := testExternals) 10 background wait200ms)
             (start ())).2 ∧
  issued (pending "7") (WaitForC2Response (H := testExternals) 10 background wait200ms)
         (start ())
    = replicate 10 (statusQuery wait200ms).
Proof.
  apply (WaitForC2Response_timeout_never_fires (H := testExternals) (pending "7")
           10 background wait200ms (start ())).
  - intros w. eexists _, _. split; [reflexivity|]. split; [reflexivity|].
    repeat constructor.
  - reflexivity.
  - reflexivity.
Defined.

(** The same call under a context cancelled after 50ms: the first turn
    polls and sleeps, the second returns the cancellation error. *)
Lemma WaitForC2Response_cancelled_at_50ms :
  exec (pending "7") (WaitForC2Response (H := testExternals) 10 cancelledAt50ms wait200ms)
       (start ())
  = (Returned (Some ("", Some context_Canceled)),
     mkState () (1 * time.Second) false
       [mkExchange (statusQuery wait200ms)
          (replyTabular [row [("id", "7"); ("responses", "0")]])]).
Proof. reflexivity. Qed.

(** ** float64: integers, their quotient, and the unit interval *)

Section Float64.
































End Float64.

(** ** GetLaunchProgress *)

Section LaunchProgress.
Context {World : Type} (mm : Controller World).





(** [GetLaunchProgress] returns, and with the nil error: zero when nothing
    is queued and the VM table is empty, else the quotient. *)
Lemma exec_GetLaunchProgress (ns : string) (expected : Z) (s : State World) :
  let resps := (respond mm (queueCommand ns) (world s)).1 in
  let status :=
    (respondTabular mm (stateQuery ns)
       (respond mm (queueCommand ns) (world s)).2).1 in
  (exec mm (GetLaunchProgress ns expected) s).1
  = Returned
      (if bool_decide (queuedNames resps = 0) && bool_decide (length status = 0%nat)
       then float64_zero
       else float64_div (float64_of_int (launchQueued resps status))
                        (float64_of_int expected),
       None).
Proof.
  intros resps status. unfold GetLaunchProgress, launchQueued.
  rewrite exec_bind. cbn [run exec].
  unfold setText, setColumns, NewNamespacedCommand.
  cbn [Namespace Text Columns Filters].
  change (mkCommand ns "ns queue" [] []) with (queueCommand ns).
  change (mkCommand ns "vm info" ["state"] []) with (stateQuery ns).
  subst resps status.
  destruct (respond mm (queueCommand ns) (world s)) as [resps w] eqn:Hr.
  cbn [fst snd].
  case_bool_decide as Hq; cbn [andb]; [|reflexivity].
  rewrite exec_bind. cbn [runTabular exec sent world].
  destruct (respondTabular mm (stateQuery ns) w) as [status w'] eqn:Ht.
  cbn [fst snd]. rewrite Hq.
  by case_bool_decide.
Qed.


(** No expected count makes [GetLaunchProgress] fail: it returns a number
    and the nil error. *)
Lemma GetLaunchProgress_never_fails (ns : string) (expected : Z) (s : State World) :
  ∃ v, (exec mm (GetLaunchProgress ns expected) s).1 = Returned (v, None).
Proof.
  pose proof (exec_GetLaunchProgress ns expected s) as Hx. cbv zeta in Hx.
  by eexists.
Qed.

End LaunchProgress.



(** * Further properties of the client *)

(** ** [LaunchVMs] *)

Section LaunchVMs.
Context `{Externals} {World : Type} (mm : Controller World).

Local Abbreviation follows := (follows mm).

(** X1.  [LaunchVMs] sends [vm launch] and, only when the controller reports no
    error for it, [vm start all]; it returns nil when both succeed and
    otherwise the wrapped error of the one that failed, after which
    nothing more is sent. *)
Theorem LaunchVMs_starts_only_what_launched (namespace : string) (s : State World) :
  ∃ result,
    (exec mm (LaunchVMs namespace) s).1 = Returned result ∧
    first_failure_aborts (launchSteps namespace)
                         (exchanges mm (LaunchVMs namespace) s) result.
Proof.
  revert s. change (follows (LaunchVMs namespace) (λ _, launchSteps namespace)).
  unfold LaunchVMs, launchSteps.
  lazy [setText setColumns setFilters NewNamespacedCommand NewCommand
        Namespace Text Columns Filters].
  do 2 apply follows_runStep. apply follows_done.
Qed.

End LaunchVMs.

(** ** [GetVNCEndpoint] and [GetVLANs] *)

Section Endpoints.
Context `{Externals} {lib : Library} {World : Type} (mm : Controller World).

Lemma exchanges_RunTabular {A} cmd (k : list Row → Prog A) (s : State World) :
  exchanges mm (RunTabular cmd k) s
  = mkExchange cmd (replyTabular (respondTabular mm cmd (world s)).1)
    :: exchanges mm (k (respondTabular mm cmd (world s)).1)
         (sent mm cmd (replyTabular (respondTabular mm cmd (world s)).1)
               (respondTabular mm cmd (world s)).2 s).
Proof.
  unfold exchanges at 1. cbn [exec].
  destruct (respondTabular mm cmd (world s)) as [r w']. cbn [fst snd].
  apply exchanges_sent.
Qed.

Lemma exchanges_Run {A} cmd (k : list Responses → Prog A) (s : State World) :
  exchanges mm (Run cmd k) s
  = mkExchange cmd (replyRun (respond mm cmd (world s)).1)
    :: exchanges mm (k (respond mm cmd (world s)).1)
         (sent mm cmd (replyRun (respond mm cmd (world s)).1)
               (respond mm cmd (world s)).2 s).
Proof.
  unfold exchanges at 1. cbn [exec].
  destruct (respond mm cmd (world s)) as [r w']. cbn [fst snd].
  apply exchanges_sent.
Qed.

Lemma exchanges_Panic {A} msg (s : State World) :
  exchanges mm (Panic (A := A) msg) s = [].
Proof. unfold exchanges. cbn [exec snd]. by rewrite drop_all. Qed.

Lemma exec_RunTabular {A} cmd (k : list Row → Prog A) (s : State World) :
  exec mm (RunTabular cmd k) s
  = exec mm (k (respondTabular mm cmd (world s)).1)
         (sent mm cmd (replyTabular (respondTabular mm cmd (world s)).1)
               (respondTabular mm cmd (world s)).2 s).
Proof. cbn [exec]. by destruct (respondTabular mm cmd (world s)). Qed.

Lemma exec_Run {A} cmd (k : list Responses → Prog A) (s : State World) :
  exec mm (Run cmd k) s
  = exec mm (k (respond mm cmd (world s)).1)
         (sent mm cmd (replyRun (respond mm cmd (world s)).1)
               (respond mm cmd (world s)).2 s).
Proof. cbn [exec]. by destruct (respond mm cmd (world s)). Qed.

Lemma fold_left_last {A} (f : A → string) (rows : list A) (e : string) :
  fold_left (λ _ x, f x) rows e = from_option f e (last rows).
Proof.
  revert e. induction rows as [|x rows IH]; intros e; [reflexivity|].
  cbn [fold_left]. rewrite IH. destruct rows as [|y rows]; [reflexivity|].
  rewrite last_cons_cons.
  destruct (last (y :: rows)) eqn:E; [reflexivity|].
  by apply last_None in E.
Qed.

(** X2.  [GetVNCEndpoint] sends one query.  With no row in the reply it fails
    with "not found"; with rows it returns [host:vnc_port] of the last
    row, never an error: a row whose columns are missing gives ":". *)
Theorem GetVNCEndpoint_last_row (o : Options) (s : State World) :
  let rows := (respondTabular mm (vncQuery o) (world s)).1 in
  issued mm (GetVNCEndpoint o) s = [vncQuery o] ∧
  (exec mm (GetVNCEndpoint o) s).1
  = Returned match last rows with
             | None => ("", Some (Errorf "not found"))
             | Some vm => (col vm "host" +:+ ":" +:+ col vm "vnc_port", None)
             end.
Proof.
  intros rows. unfold issued, GetVNCEndpoint.
  lazy [setText setColumns setFilters NewNamespacedCommand Namespace Text
        Columns Filters].
  change (mkCommand (ns o) "vm info" ["host"; "vnc_port"]
            ["type=kvm"; "name=" +:+ vm o]) with (vncQuery o).
  unfold runTabular. cbn [mbind Prog_mbind Prog_bind].
  rewrite exchanges_RunTabular, exec_RunTabular. fold rows.
  rewrite fold_left_last.
  destruct (last rows) as [vm|]; cbn [from_option].
  - rewrite bool_decide_eq_false_2.
    + by rewrite exchanges_Ret.
    + destruct (col vm "host"); discriminate.
  - rewrite bool_decide_eq_true_2 by done. by rewrite exchanges_Ret.
Qed.

Lemma GetVLANs_range_lookup (status : list Row) (vlans : gmap string Z) :
  Forall vlanParses status →
  ∃ vlans', GetVLANs_range status vlans = (Some vlans', None) ∧
    ∀ alias, vlans' !! alias
             = match last (filter (λ row, col row "alias" = alias) status) with
               | Some row => Some (vlanID row)
               | None => vlans !! alias
               end.
Proof.
  intros Hall. revert vlans.
  induction Hall as [|row status Hrow Hall IH]; intros vlans.
  - by exists vlans.
  - cbn [GetVLANs_range]. unfold vlanParses in Hrow.
    destruct (strconv.Atoi (col row "vlan")) as [id ok] eqn:E.
    cbn [snd] in Hrow. subst ok.
    destruct (IH (<[col row "alias" := id]> vlans)) as (vlans' & -> & Hlook).
    exists vlans'. split; [reflexivity|]. intros alias. rewrite Hlook.
    rewrite filter_cons. case_decide as Ha.
    + rewrite last_cons. destruct (last (filter _ status)); [reflexivity|].
      subst alias. rewrite lookup_insert_eq. unfold vlanID. by rewrite E.
    + destruct (last (filter _ status)); [reflexivity|].
      by rewrite lookup_insert_ne.
Qed.

(** X3.  [GetVLANs] on a table whose [vlan] column is an integer in every row:
    one query, and the map holds for every alias the ID of the last row of
    that alias, and nothing for an alias of no row. *)
Theorem GetVLANs_last_row_of_an_alias (o : Options) (s : State World) :
  let status := (respondTabular mm (vlansQuery o) (world s)).1 in
  Forall vlanParses status →
  issued mm (GetVLANs o) s = [vlansQuery o] ∧
  ∃ vlans,
    (exec mm (GetVLANs o) s).1 = Returned (Some vlans, None) ∧
    ∀ alias,
      vlans !! alias
      = vlanID <$> last (filter (λ row, col row "alias" = alias) status).
Proof.
  intros status Hall. unfold issued, GetVLANs.
  lazy [setText NewNamespacedCommand Namespace Text Columns Filters].
  change (mkCommand (ns o) "vlans" [] []) with (vlansQuery o).
  unfold runTabular. cbn [mbind Prog_mbind Prog_bind].
  rewrite exchanges_RunTabular, exec_RunTabular, exchanges_Ret. fold status.
  split; [reflexivity|].
  destruct (GetVLANs_range_lookup status ∅ Hall) as (vlans & E & Hlook).
  exists vlans. cbn [exec fst]. split; [by rewrite E|].
  intros alias. rewrite Hlook.
  destruct (last _); [reflexivity|]. by rewrite lookup_empty.
Qed.

Lemma GetVLANs_range_bad (good rest : list Row) (bad : Row) (vlans : gmap string Z) :
  Forall vlanParses good → ¬ vlanParses bad →
  GetVLANs_range (good ++ bad :: rest) vlans
  = (None, Some (Errorf_w "converting VLAN ID to integer: "
                          (strconv_NumError (col bad "vlan")))).
Proof.
  intros Hgood Hbad. revert vlans.
  induction Hgood as [|row good Hrow Hgood IH]; intros vlans.
  - cbn [app GetVLANs_range]. unfold vlanParses in Hbad.
    destruct (strconv.Atoi (col bad "vlan")) as [id []]; [by destruct Hbad|].
    reflexivity.
  - cbn [app GetVLANs_range]. unfold vlanParses in Hrow.
    destruct (strconv.Atoi (col row "vlan")) as [id ok]. cbn [snd] in Hrow.
    subst ok. apply IH.
Qed.

(** X4.  [GetVLANs] on a table with a row whose [vlan] column is no integer:
    the call returns the nil map and the error of [strconv.Atoi] for the
    first such row, wrapped; the rows before it are lost with the map. *)
Theorem GetVLANs_first_row_that_is_no_integer
        (o : Options) (s : State World) (good rest : list Row) (bad : Row) :
  (respondTabular mm (vlansQuery o) (world s)).1 = good ++ bad :: rest →
  Forall vlanParses good → ¬ vlanParses bad →
  issued mm (GetVLANs o) s = [vlansQuery o] ∧
  (exec mm (GetVLANs o) s).1
  = Returned (None, Some (Errorf_w "converting VLAN ID to integer: "
                                   (strconv_NumError (col bad "vlan")))).
Proof.
  intros Hrows Hgood Hbad. unfold issued, GetVLANs.
  lazy [setText NewNamespacedCommand Namespace Text Columns Filters].
  change (mkCommand (ns o) "vlans" [] []) with (vlansQuery o).
  unfold runTabular. cbn [mbind Prog_mbind Prog_bind].
  rewrite exchanges_RunTabular, exec_RunTabular, exchanges_Ret, Hrows.
  split; [reflexivity|]. cbn [exec fst].
  by rewrite (GetVLANs_range_bad good rest bad ∅ Hgood Hbad).
Qed.

End Endpoints.

(** Three rows, two of alias mgmt: the later ID is the one kept. *)
Lemma GetVLANs_last_row_of_an_alias_witness :
  ∃ vlans,
    (exec scripted (GetVLANs (lib := testLibrary) oneVLAN) (start vlanTable)).1
      = Returned (Some vlans, None) ∧
    vlans !! "mgmt" = Some 103 ∧ vlans !! "data" = Some 102 ∧
    vlans !! "none" = None.
Proof.
  destruct (GetVLANs_last_row_of_an_alias (lib := testLibrary) scripted oneVLAN
              (start vlanTable)) as (_ & vlans & E & Hlook).
  - repeat constructor.
  - exists vlans. split; [exact E|].
    split; [|split]; rewrite Hlook; reflexivity.
Defined.

(** The second row has no integer: the map of the first row is lost. *)
Lemma GetVLANs_first_row_that_is_no_integer_witness :
  (exec scripted (GetVLANs (lib := testLibrary) oneVLAN) (start vlanTableBroken)).1
  = Returned (None, Some (Errorf_w "converting VLAN ID to integer: "
                                   (errors_New "strconv.Atoi: parsing auto"))).
Proof.
  apply (GetVLANs_first_row_that_is_no_integer (lib := testLibrary) scripted oneVLAN
           (start vlanTableBroken)
           [row [("alias", "mgmt"); ("vlan", "101")]]
           [row [("alias", "mgmt"); ("vlan", "103")]]
           (row [("alias", "data"); ("vlan", "auto")])).
  - reflexivity.
  - repeat constructor.
  - unfold vlanParses. vm_compute. discriminate.
Defined.

(** ** [GetVMScreenshot] *)

Section Screenshot.
Context `{Externals} {lib : Library} {World : Type} (mm : Controller World).

Lemma skipped_inv (resp : Response) :
  skipped resp = true →
  Resp_Error resp ≠ "" ∧
  (strings.HasPrefix (Resp_Error resp) "vm not running:" = true ∨
   Resp_Error resp = "cannot take screenshot of container").
Proof.
  unfold skipped. intros [He Hk]%andb_true_iff.
  apply bool_decide_eq_true_1 in He. split; [done|].
  apply orb_true_iff in Hk as [?|Hk]; [by left|right].
  by apply bool_decide_eq_true_1 in Hk.
Qed.

(** The loop passes over a skipped response. *)
Lemma GetVMScreenshot_resps_skip (resp : Response) (resps : Responses) sc :
  skipped resp = true →
  GetVMScreenshot_resps (resp :: resps) sc = GetVMScreenshot_resps resps sc.
Proof.
  intros (He & Hk)%skipped_inv. cbn [GetVMScreenshot_resps].
  rewrite bool_decide_eq_true_2 by done.
  destruct Hk as [->|Hk]; [reflexivity|].
  rewrite (bool_decide_eq_true_2 _ Hk). by destruct (strings.HasPrefix _ _).
Qed.

(** On a response that is not skipped the loop returns an error, or, with
    no screenshot yet, takes the response's payload as the screenshot. *)
Lemma GetVMScreenshot_resps_stop (resp : Response) (resps : Responses) sc :
  skipped resp = false →
  (∃ err, GetVMScreenshot_resps (resp :: resps) sc = Ret (inr err)) ∨
  GetVMScreenshot_resps (resp :: resps) sc = Panic conversionPanic ∨
  (∃ payload data bytes,
     sc = None ∧ Resp_Error resp = "" ∧ Resp_Data resp = Some payload ∧
     Data_string payload = Some data ∧ base64_DecodeString data = (bytes, None) ∧
     GetVMScreenshot_resps (resp :: resps) sc
     = GetVMScreenshot_resps resps (Some bytes)).
Proof.
  unfold skipped. intros Hs. cbn [GetVMScreenshot_resps].
  case_bool_decide as He.
  - cbn [andb] in Hs. apply orb_false_iff in Hs as [-> Hs]. rewrite Hs.
    left. by eexists.
  - destruct (Resp_Data resp) as [payload|]; [|left; by eexists].
    destruct sc as [b|]; [left; by eexists|].
    destruct (Data_string payload) as [data|] eqn:Ed; [|right; by left].
    destruct (base64_DecodeString data) as [bytes [err|]] eqn:Eb;
      [left; by eexists|].
    right; right. by exists payload, data, bytes.
Qed.

Lemma GetVMScreenshot_resps_pure (resps : Responses) sc :
  (∃ r, GetVMScreenshot_resps resps sc = Ret r) ∨
  GetVMScreenshot_resps resps sc = Panic conversionPanic.
Proof.
  revert sc. induction resps as [|resp resps IH]; intros sc; [left; by eexists|].
  destruct (skipped resp) eqn:Hs.
  - rewrite GetVMScreenshot_resps_skip by done. apply IH.
  - destruct (GetVMScreenshot_resps_stop resp resps sc Hs)
      as [[err ->]|[->|(payload & data & bytes & _ & _ & _ & _ & _ & ->)]];
      [left; by eexists|by right|apply IH].
Qed.

Lemma GetVMScreenshot_resps_app (a b : Responses) sc :
  GetVMScreenshot_resps (a ++ b) sc
  = match GetVMScreenshot_resps a sc with
    | Ret (inl sc') => GetVMScreenshot_resps b sc'
    | p => p
    end.
Proof.
  revert sc. induction a as [|resp a IH]; intros sc; [reflexivity|].
  rewrite <- app_comm_cons. cbn [GetVMScreenshot_resps].
  destruct (bool_decide (Resp_Error resp ≠ "")).
  - destruct (strings.HasPrefix _ _); [apply IH|].
    destruct (bool_decide _); [apply IH|reflexivity].
  - destruct (Resp_Data resp) as [payload|]; [|reflexivity].
    destruct sc as [have|]; [reflexivity|].
    destruct (Data_string payload) as [data|]; [|reflexivity].
    destruct (base64_DecodeString data) as [bytes [err|]]; [reflexivity|apply IH].
Qed.

Lemma GetVMScreenshot_range_concat (values : list Responses) sc :
  GetVMScreenshot_range values sc = GetVMScreenshot_resps (concat values) sc.
Proof.
  revert sc. induction values as [|resps values IH]; intros sc; [reflexivity|].
  cbn [GetVMScreenshot_range concat]. rewrite GetVMScreenshot_resps_app.
  destruct (GetVMScreenshot_resps_pure resps sc) as [[[sc'|err] ->]| ->];
    cbn [mbind Prog_mbind Prog_bind]; [apply IH|reflexivity|reflexivity].
Qed.

(** With a screenshot in hand the loop runs to its end only over skipped
    responses. *)
Lemma GetVMScreenshot_resps_have (resps : Responses) bytes r :
  GetVMScreenshot_resps resps (Some bytes) = Ret (inl r) →
  r = Some bytes ∧ Forall (λ resp, skipped resp = true) resps.
Proof.
  induction resps as [|resp resps IH]; [by intros [= <-]|].
  destruct (skipped resp) eqn:Hs.
  - rewrite GetVMScreenshot_resps_skip by done. intros [-> ?]%IH.
    split; [done|]. by constructor.
  - destruct (GetVMScreenshot_resps_stop resp resps (Some bytes) Hs)
      as [[err ->]|[->|(? & ? & ? & ? & _)]]; discriminate.
Qed.

(** With none the loop runs to its end over skipped responses, or over
    skipped responses and one that holds the screenshot. *)
Lemma GetVMScreenshot_resps_none (resps : Responses) r :
  GetVMScreenshot_resps resps None = Ret (inl r) →
  (r = None ∧ Forall (λ resp, skipped resp = true) resps) ∨
  ∃ before resp after payload data bytes,
    r = Some bytes ∧ resps = before ++ resp :: after ∧
    Forall (λ resp, skipped resp = true) before ∧
    Forall (λ resp, skipped resp = true) after ∧
    Resp_Error resp = "" ∧ Resp_Data resp = Some payload ∧
    Data_string payload = Some data ∧ base64_DecodeString data = (bytes, None).
Proof.
  induction resps as [|resp resps IH]; [intros [= <-]; by left|].
  destruct (skipped resp) eqn:Hs.
  - rewrite GetVMScreenshot_resps_skip by done.
    intros [[-> ?]|(before & x & after & payload & data & bytes & -> & -> & ? & ? & ?)]%IH.
    + left. split; [done|]. by constructor.
    + right. exists (resp :: before), x, after, payload, data, bytes.
      split; [done|]. split; [done|]. split; [by constructor|done].
  - destruct (GetVMScreenshot_resps_stop resp resps None Hs)
      as [[err ->]|[->|(payload & data & bytes & _ & He & Hd & Hs' & Hb & ->)]];
      [discriminate..|].
    intros [-> Hafter]%GetVMScreenshot_resps_have. right.
    by exists [], resp, resps, payload, data, bytes.
Qed.

Lemma GetVMScreenshot_resps_skipped (resps : Responses) sc :
  Forall (λ resp, skipped resp = true) resps →
  GetVMScreenshot_resps resps sc = Ret (inl sc).
Proof.
  induction 1 as [|resp resps Hs _ IH]; [reflexivity|].
  by rewrite GetVMScreenshot_resps_skip.
Qed.

Lemma exec_GetVMScreenshot (o : Options) (s : State World) :
  let values := (respond mm (screenshotCommand o) (world s)).1 in
  issued mm (GetVMScreenshot o) s = [screenshotCommand o] ∧
  (exec mm (GetVMScreenshot o) s).1
  = match GetVMScreenshot_resps (concat values) None with
    | Ret (inr err) => Returned (None, Some err)
    | Ret (inl None) => Returned (None, Some (Errorf "not found"))
    | Ret (inl (Some screenshot)) => Returned (Some screenshot, None)
    | _ => Panicked conversionPanic
    end.
Proof.
  intros values. unfold issued, GetVMScreenshot.
  lazy [setText NewNamespacedCommand Namespace Text Columns Filters].
  change (mkCommand (ns o) _ [] []) with (screenshotCommand o).
  unfold run. cbn [mbind Prog_mbind Prog_bind].
  rewrite exchanges_Run, exec_Run. fold values.
  rewrite GetVMScreenshot_range_concat.
  destruct (GetVMScreenshot_resps_pure (concat values) None)
    as [[[[bytes|]|err] ->]| ->]; cbn [mbind Prog_mbind Prog_bind];
    by rewrite ?exchanges_Ret, ?exchanges_Panic.
Qed.

(** X5.  [GetVMScreenshot] sends one command and returns a screenshot that is
    not nil with the nil error, or nil with an error, and nothing else,
    unless it panics on a payload that is no string.  When every response
    is passed over (the VM runs nowhere, or there is no response), the
    error is "not found". *)
Theorem GetVMScreenshot_screenshot_or_error (o : Options) (s : State World) :
  let values := (respond mm (screenshotCommand o) (world s)).1 in
  issued mm (GetVMScreenshot o) s = [screenshotCommand o] ∧
  ((∃ screenshot, (exec mm (GetVMScreenshot o) s).1 = Returned (Some screenshot, None)) ∨
   (∃ err, (exec mm (GetVMScreenshot o) s).1 = Returned (None, Some err)) ∨
   (exec mm (GetVMScreenshot o) s).1 = Panicked conversionPanic) ∧
  (Forall (λ resp, skipped resp = true) (concat values) →
   (exec mm (GetVMScreenshot o) s).1 = Returned (None, Some (Errorf "not found"))).
Proof.
  intros values. destruct (exec_GetVMScreenshot o s) as [Hi Hx].
  fold values in Hx. split; [exact Hi|]. rewrite Hx. split.
  - destruct (GetVMScreenshot_resps_pure (concat values) None)
      as [[[[bytes|]|err] ->]| ->]; eauto.
  - intros Hall. by rewrite GetVMScreenshot_resps_skipped.
Qed.

(** X6.  [GetVMScreenshot] returns a screenshot exactly when, of all the
    responses of all the hosts, one has no error, the others are passed
    over (before it and after it), and that one's payload is a string that
    decodes: the screenshot is what it decodes to.  A second response
    without error, with or without payload, makes the call fail. *)
Theorem GetVMScreenshot_one_response_with_payload
        (o : Options) (s : State World) (screenshot : list Byte.byte) :
  let values := (respond mm (screenshotCommand o) (world s)).1 in
  (exec mm (GetVMScreenshot o) s).1 = Returned (Some screenshot, None) ↔
  ∃ before resp after payload data,
    concat values = before ++ resp :: after ∧
    Forall (λ resp, skipped resp = true) before ∧
    Forall (λ resp, skipped resp = true) after ∧
    Resp_Error resp = "" ∧ Resp_Data resp = Some payload ∧
    Data_string payload = Some data ∧
    base64_DecodeString data = (screenshot, None).
Proof.
  intros values. destruct (exec_GetVMScreenshot o s) as [_ Hx].
  fold values in Hx. rewrite Hx. split.
  - destruct (GetVMScreenshot_resps_pure (concat values) None)
      as [[[[bytes|]|err] E]| E]; rewrite E; try discriminate.
    intros [= ->].
    apply GetVMScreenshot_resps_none in E
      as [[? _]|(before & x & after & payload & data & bytes & [= <-] & ? & ?)];
      [discriminate|].
    by exists before, x, after, payload, data.
  - intros (before & resp & after & payload & data & -> & Hb & Ha & He & Hd & Hs & Hdec).
    rewrite GetVMScreenshot_resps_app, (GetVMScreenshot_resps_skipped before) by done.
    cbn [GetVMScreenshot_resps].
    rewrite bool_decide_eq_false_2, Hd, Hs, Hdec by (rewrite He; by intros []).
    by rewrite GetVMScreenshot_resps_skipped.
Qed.

End Screenshot.

(** Two hosts answer, the first that the VM is not running: the
    screenshot is the payload of the second. *)
Lemma GetVMScreenshot_one_response_with_payload_witness :
  (exec scripted (GetVMScreenshot (lib := plainLibrary) shot) (start oneScreenshot)).1
  = Returned (Some (list_byte_of_string "iVBOR"), None).
Proof.
  apply (proj2 (GetVMScreenshot_one_response_with_payload (lib := plainLibrary)
                  scripted shot (start oneScreenshot) (list_byte_of_string "iVBOR"))).
  exists [mkResponse "" "vm not running: vm1" None],
         (mkResponse "" "" (Some "iVBOR")), [], "iVBOR", "iVBOR".
  repeat split; repeat constructor.
Defined.

(** ** The capture table: [GetVMCaptures] and [StopVMCapture] *)

Section CaptureTable.
Context `{Externals} {World : Type} (mm : Controller World).

(** X8.  [GetVMCaptures] sends the capture query and nothing else.  When
    every row of the table has a colon in its interface column, it returns
    the captures of the rows whose VM is the one asked for, in the order
    of the table: the VM is the part before the first colon, the
    interface what [strconv.Atoi] makes of the part after it.  When a
    row, of whatever VM, has no colon, it panics on an index out of
    range. *)
Theorem GetVMCaptures_of_the_table (o : Options) (s : State World) :
  let rows := (respondTabular mm (captureQuery o) (world s)).1 in
  issued mm (GetVMCaptures o) s = [captureQuery o] ∧
  (Forall hasColon rows →
   ∃ found,
     Forall2 (λ row capture, captureOfRow row = Some capture) rows found ∧
     (exec mm (GetVMCaptures o) s).1
     = Returned (filter (λ capture, Capture.VM capture = vm o) found)) ∧
  (Exists noColon rows →
   (exec mm (GetVMCaptures o) s).1 = Panicked outOfRange).
Proof.
  intros rows. pose proof (exec_GetVMCaptures_rows mm o s) as E. cbv zeta in E.
  fold rows in E. split; [|split].
  - unfold issued. destruct (mapM captureOfRow rows);
      by rewrite (exchanges_one _ _ _ _ _ _ _ E).
  - intros Hall.
    destruct (mapM_is_Some_2 captureOfRow rows) as [found Hm].
    { eapply Forall_impl; [exact Hall|]. intros row. apply captureOfRow_hasColon. }
    rewrite E, Hm. exists found. split; [by apply mapM_Some|reflexivity].
  - intros Hno. rewrite E, (mapM_None_2 captureOfRow rows); [reflexivity|].
    eapply Exists_impl; [exact Hno|]. intros row. apply captureOfRow_noColon.
Qed.

(** X9.  [StopVMCapture] lists the captures first.  When no row of the
    table is a capture of the VM, it returns [ErrNoCaptures] and sends no
    delete, whatever captures other VMs have.  When a row is, it sends the
    delete for the VM and returns nil, or the controller's error for the
    delete, wrapped.  The rows are those of a table with a colon in every
    interface column; with a row that has none the call panics, the query
    sent. *)
Theorem StopVMCapture_deletes_what_is_listed (o : Options) (s : State World) :
  let rows := (respondTabular mm (captureQuery o) (world s)).1 in
  let deleted :=
    respond mm (deleteCapturesCommand o)
            (respondTabular mm (captureQuery o) (world s)).2 in
  (Exists noColon rows →
   issued mm (StopVMCapture o) s = [captureQuery o] ∧
   (exec mm (StopVMCapture o) s).1 = Panicked outOfRange) ∧
  (Forall hasColon rows → ¬ Exists (capturesVM o) rows →
   issued mm (StopVMCapture o) s = [captureQuery o] ∧
   (exec mm (StopVMCapture o) s).1 = Returned (Some ErrNoCaptures)) ∧
  (Forall hasColon rows → Exists (capturesVM o) rows →
   issued mm (StopVMCapture o) s = [captureQuery o; deleteCapturesCommand o] ∧
   (exec mm (StopVMCapture o) s).1
   = Returned (Errorf_w ("deleting VM captures for VM " +:+ vm o +:+ " in namespace "
                         +:+ ns o +:+ ": ") <$> ErrorResponse deleted.1)).
Proof.
  intros rows deleted.
  pose proof (exec_GetVMCaptures_rows mm o s) as Ec. cbv zeta in Ec.
  fold rows in Ec.
  set (s1 := sent mm (captureQuery o) (replyTabular rows)
                  (respondTabular mm (captureQuery o) (world s)).2 s) in *.
  assert (Hmine : ∀ found,
            Forall2 (λ row capture, captureOfRow row = Some capture) rows found →
            filter (λ capture, Capture.VM capture = vm o) found = [] ↔
            ¬ Exists (capturesVM o) rows).
  { intros found Hf. clear Ec. induction Hf as [|row capture rows' found' Hrow Hf IH].
    - rewrite filter_nil. split; [|done]. by intros _ ?%Exists_nil.
    - rewrite filter_cons, Exists_cons. case_decide as Hvm.
      + split; [discriminate|]. intros Hn. destruct Hn. left. by exists capture.
      + rewrite IH. split.
        * intros Hn [(c & Hc & Hvm')|Hex]; [|by apply Hn]. congruence.
        * intros Hn Hex. apply Hn. by right. }
  split; [|split].
  - intros Hno.
    rewrite (mapM_None_2 captureOfRow rows) in Ec.
    2:{ eapply Exists_impl; [exact Hno|]. intros row. apply captureOfRow_noColon. }
    assert (E : exec mm (StopVMCapture o) s = (Panicked outOfRange, s1)).
    { unfold StopVMCapture. by rewrite exec_bind, Ec. }
    unfold issued. by rewrite (exchanges_one _ _ _ _ _ _ _ E), E.
  - intros Hall Hnone.
    destruct (mapM_is_Some_2 captureOfRow rows) as [found Hm].
    { eapply Forall_impl; [exact Hall|]. intros row. apply captureOfRow_hasColon. }
    rewrite Hm in Ec.
    assert (E : exec mm (StopVMCapture o) s = (Returned (Some ErrNoCaptures), s1)).
    { unfold StopVMCapture. rewrite exec_bind, Ec.
      rewrite (proj2 (Hmine found (proj1 (mapM_Some _ _ _) Hm)) Hnone).
      reflexivity. }
    unfold issued. by rewrite (exchanges_one _ _ _ _ _ _ _ E), E.
  - intros Hall Hsome.
    destruct (mapM_is_Some_2 captureOfRow rows) as [found Hm].
    { eapply Forall_impl; [exact Hall|]. intros row. apply captureOfRow_hasColon. }
    rewrite Hm in Ec.
    assert (E : exec mm (StopVMCapture o) s
                = (Returned (Errorf_w ("deleting VM captures for VM " +:+ vm o
                                       +:+ " in namespace " +:+ ns o +:+ ": ")
                             <$> ErrorResponse deleted.1),
                   sent mm (deleteCapturesCommand o) (replyRun deleted.1) deleted.2 s1)).
    { unfold StopVMCapture. rewrite exec_bind, Ec.
      rewrite bool_decide_eq_false_2.
      2:{ intros Hlen. apply length_zero_iff_nil in Hlen.
          by apply (Hmine found (proj1 (mapM_Some _ _ _) Hm)) in Hlen. }
      rewrite exec_orReturn, exec_runErr.
      lazy [setText NewNamespacedCommand Namespace Text Columns Filters].
      change (mkCommand (ns o) ("capture pcap delete vm " +:+ vm o) [] [])
        with (deleteCapturesCommand o).
      change (world s1) with (respondTabular mm (captureQuery o) (world s)).2.
      fold deleted. by destruct (ErrorResponse deleted.1). }
    unfold issued, exchanges. rewrite E. cbn [fst snd sent log s1].
    by rewrite <- !app_assoc, drop_app_length.
Qed.

End CaptureTable.

(** The table holds a capture of vm2 alone: nothing of vm1 to stop, and
    no delete is sent.  It holds one of vm1 after it: the delete is
    sent. *)
Lemma StopVMCapture_deletes_what_is_listed_witness :
  (issued scripted (StopVMCapture (H := testExternals) relCapture)
          (start capturedElsewhere) = [captureQuery relCapture] ∧
   (exec scripted (StopVMCapture (H := testExternals) relCapture)
         (start capturedElsewhere)).1 = Returned (Some ErrNoCaptures)) ∧
  (issued scripted (StopVMCapture (H := testExternals) relCapture)
          (start capturedSecondThenGranted)
   = [captureQuery relCapture; deleteCapturesCommand relCapture] ∧
   (exec scripted (StopVMCapture (H := testExternals) relCapture)
         (start capturedSecondThenGranted)).1 = Returned None).
Proof.
  split.
  - apply (proj1 (proj2 (StopVMCapture_deletes_what_is_listed (H := testExternals)
                           scripted relCapture (start capturedElsewhere)))).
    + repeat constructor; vm_compute; discriminate.
    + intros [(c & Hc & Hvm)|Hex%Exists_nil]%Exists_cons; [|done].
      vm_compute in Hc. injection Hc as <-. discriminate.
  - apply (proj2 (proj2 (StopVMCapture_deletes_what_is_listed (H := testExternals)
                           scripted relCapture (start capturedSecondThenGranted)))).
    + repeat constructor; vm_compute; discriminate.
    + apply Exists_cons_tl, Exists_cons_hd.
      exists (Capture.mk "vm1" 0 "/phenix/images/old.pcap"). by split.
Defined.

(** The captures of vm1 in a table that holds one of vm2 before it. *)
Lemma GetVMCaptures_of_the_table_witness :
  (exec scripted (GetVMCaptures relCapture) (start capturedSecond)).1
  = Returned [Capture.mk "vm1" 0 "/phenix/images/old.pcap"].
Proof.
  destruct (proj1 (proj2 (GetVMCaptures_of_the_table scripted relCapture
                            (start capturedSecond)))) as (found & Hf & ->).
  - repeat constructor; vm_compute; discriminate.
  - apply Forall2_cons_inv_l in Hf as (c1 & found1 & Hc1 & Hf & ->).
    apply Forall2_cons_inv_l in Hf as (c2 & found2 & Hc2 & Hf & ->).
    apply Forall2_nil_inv_l in Hf as ->.
    vm_compute in Hc1, Hc2. injection Hc1 as <-. injection Hc2 as <-.
    reflexivity.
Defined.

(** ** [ExecC2Command], one call at a time *)

Section OneCall.
Context `{Externals} {World : Type} (mm : Controller World).

Lemma exec_ExecC2Command_locked (o : C2Options) (s : State World) :
  let rows := (respondTabular mm (activeQuery o) (world s)).1 in
  let s1 := sent mm (activeQuery o) (replyTabular rows)
                 (respondTabular mm (activeQuery o) (world s)).2 s in
  let filtered := respond mm (filterCommand o) (world s1) in
  let s2 := sent mm (filterCommand o) (replyRun filtered.1) filtered.2 s1 in
  let executed := respond mm (execCommand o) (world s2) in
  let s3 := sent mm (execCommand o) (replyRun executed.1) executed.2 s2 in
  exec mm (ExecC2Command_locked o) s
  = match rows with
    | [] =>
      (Returned ("", Some (Errorf_w "cannot execute command: "
                   (Errorf ("no VMs returned for host " +:+ c2_vm o)))), s1)
    | row :: _ =>
      if bool_decide (col row "cc_active" = "true") then
        match ErrorResponse filtered.1 with
        | Some err =>
          (Returned ("", Some (Errorf_w ("setting host filter to " +:+ c2_vm o +:+ ": ")
                                        err)), s2)
        | None =>
          (Returned match SingleDataResponse executed.1 with
                    | (data, None) => (data, None)
                    | (_, Some err) =>
                      ("", Some (Errorf_w ("executing command " +:+ command o +:+ ": ")
                                          err))
                    end, s3)
        end
      else
        (Returned ("", Some (Errorf_w "cannot execute command: " ErrC2ClientNotActive)),
         s1)
    end.
Proof.
  intros rows s1 filtered s2 executed s3.
  unfold ExecC2Command_locked, IsC2ClientActive.
  lazy [setText setColumns setFilters NewNamespacedCommand Namespace Text Columns Filters].
  change (mkCommand (c2_ns o) "vm info" ["cc_active"] ["name=" +:+ c2_vm o])
    with (activeQuery o).
  change (mkCommand (c2_ns o) ("cc filter name=" +:+ c2_vm o) [] [])
    with (filterCommand o).
  change (mkCommand (c2_ns o) ("cc exec " +:+ command o) [] [])
    with (execCommand o).
  rewrite exec_bind, exec_bind. unfold runTabular. rewrite (exec_RunTabular mm).
  fold rows. fold s1. cbn [exec].
  destruct rows as [|row rows'].
  - reflexivity.
  - rewrite bool_decide_eq_false_2 by discriminate.
    cbn [index lookup list_lookup mbind Prog_mbind Prog_bind].
    destruct (decide (col row "cc_active" = "true")) as [Hact|Hact].
    + rewrite (bool_decide_eq_false_2 (col row "cc_active" ≠ "true"))
        by (intros Hn; by apply Hn).
      rewrite (bool_decide_eq_true_2 _ Hact). cbn [exec].
      rewrite exec_bind, exec_runErr. fold filtered. fold s2.
      destruct (ErrorResponse filtered.1) as [err|]; [reflexivity|].
      rewrite exec_bind. unfold run. rewrite (exec_Run mm).
      fold executed. fold s3. cbn [exec].
      by destruct (SingleDataResponse executed.1) as [data [err|]].
    + rewrite (bool_decide_eq_true_2 _ Hact), (bool_decide_eq_false_2 _ Hact).
      reflexivity.
Qed.


(** X7.  [ExecC2Command], called with the mutex free, returns with the
    mutex free again on every path and never panics.  It asks whether the
    agent of the VM is active; it sends the filter only when the first row
    of the answer has [cc_active] "true", and the exec only when the
    filter met no error.  Without a row, and with an agent that is not
    active, nothing but the question is sent, and the error wraps
    [ErrC2ClientNotActive] in the second case.  Called with the mutex
    held, it waits and sends nothing. *)
Theorem ExecC2Command_sends_only_to_an_active_client (o : C2Options) (s : State World) :
  let rows := (respondTabular mm (activeQuery o) (world s)).1 in
  let w1 := (respondTabular mm (activeQuery o) (world s)).2 in
  let filtered := respond mm (filterCommand o) w1 in
  let executed := respond mm (execCommand o) filtered.2 in
  (held s = true → exec mm (ExecC2Command o) s = (Blocked, s)) ∧
  (held s = false →
   held (exec mm (ExecC2Command o) s).2 = false ∧
   match rows with
   | [] =>
     issued mm (ExecC2Command o) s = [activeQuery o] ∧
     (exec mm (ExecC2Command o) s).1
     = Returned ("", Some (Errorf_w "cannot execute command: "
                             (Errorf ("no VMs returned for host " +:+ c2_vm o))))
   | row :: _ =>
     if bool_decide (col row "cc_active" = "true") then
       match ErrorResponse filtered.1 with
       | Some err =>
         issued mm (ExecC2Command o) s = [activeQuery o; filterCommand o] ∧
         (exec mm (ExecC2Command o) s).1
         = Returned ("", Some (Errorf_w ("setting host filter to " +:+ c2_vm o +:+ ": ")
                                        err))
       | None =>
         issued mm (ExecC2Command o) s = c2Commands o ∧
         (exec mm (ExecC2Command o) s).1
         = Returned match SingleDataResponse executed.1 with
                    | (data, None) => (data, None)
                    | (_, Some err) =>
                      ("", Some (Errorf_w ("executing command " +:+ command o +:+ ": ")
                                          err))
                    end
       end
     else
       issued mm (ExecC2Command o) s = [activeQuery o] ∧
       (exec mm (ExecC2Command o) s).1
       = Returned ("", Some (Errorf_w "cannot execute command: " ErrC2ClientNotActive))
   end).
Proof.
  intros rows w1 filtered executed. split.
  { intros Hheld. unfold ExecC2Command, lock.
    cbn [mbind Prog_mbind Prog_bind exec]. by rewrite Hheld. }
  intros Hfree.
  set (sl := mkState (world s) (now s) true (log s)).
  pose proof (exec_ExecC2Command_locked o sl) as El. cbv zeta in El.
  change (world sl) with (world s) in El. fold rows w1 in El.
  change (world (sent mm (activeQuery o) (replyTabular rows) w1 sl)) with w1 in El.
  fold filtered in El.
  change (world (sent mm (filterCommand o) (replyRun filtered.1) filtered.2
                   (sent mm (activeQuery o) (replyTabular rows) w1 sl)))
    with filtered.2 in El.
  fold executed in El.
  assert (E : exec mm (ExecC2Command o) s
              = ((exec mm (ExecC2Command_locked o) sl).1,
                 mkState (world (exec mm (ExecC2Command_locked o) sl).2)
                         (now (exec mm (ExecC2Command_locked o) sl).2) false
                         (log (exec mm (ExecC2Command_locked o) sl).2))).
  { unfold ExecC2Command, lock, unlock.
    cbn [mbind Prog_mbind Prog_bind exec]. rewrite Hfree. fold sl.
    change (Prog_bind ?f ?p) with (p ≫= f). rewrite exec_bind, El.
    destruct rows as [|row rows']; [reflexivity|].
    destruct (bool_decide (col row "cc_active" = "true")); [|reflexivity].
    by destruct (ErrorResponse filtered.1). }
  unfold issued, exchanges. rewrite E, El. clear E El.
  destruct rows as [|row rows'].
  - cbn [fst snd held sent log sl]. split; [reflexivity|].
    rewrite drop_app_length. by split.
  - destruct (bool_decide (col row "cc_active" = "true")).
    + destruct (ErrorResponse filtered.1) as [err|].
      * cbn [fst snd held sent log sl]. split; [reflexivity|].
        rewrite <- !app_assoc, drop_app_length. by split.
      * cbn [fst snd held sent log sl]. split; [reflexivity|].
        rewrite <- !app_assoc, drop_app_length. by split.
    + cbn [fst snd held sent log sl]. split; [reflexivity|].
      rewrite drop_app_length. by split.
Qed.

End OneCall.

(** An active agent: the three commands, and the id of the exec.  An
    agent that is not active: the question alone. *)
Lemma ExecC2Command_sends_only_to_an_active_client_witness :
  (held (exec scripted (ExecC2Command (H := testExternals) callA) (start agentActive)).2
     = false ∧
   issued scripted (ExecC2Command (H := testExternals) callA) (start agentActive)
     = c2Commands callA ∧
   (exec scripted (ExecC2Command (H := testExternals) callA) (start agentActive)).1
     = Returned ("5", None)) ∧
  (held (exec scripted (ExecC2Command (H := testExternals) callA) (start agentInactive)).2
     = false ∧
   issued scripted (ExecC2Command (H := testExternals) callA) (start agentInactive)
     = [activeQuery callA] ∧
   (exec scripted (ExecC2Command (H := testExternals) callA) (start agentInactive)).1
     = Returned ("", Some (Errorf_w "cannot execute command: " ErrC2ClientNotActive))).
Proof.
  split.
  - exact (proj2 (ExecC2Command_sends_only_to_an_active_client (H := testExternals)
                    scripted callA (start agentActive)) eq_refl).
  - exact (proj2 (ExecC2Command_sends_only_to_an_active_client (H := testExternals)
                    scripted callA (start agentInactive)) eq_refl).
Defined.

(** ** [WaitForC2Response], turn by turn *)

Section WaitTurns.
Context `{Externals} {World : Type} (mm : Controller World).

(** What the function does with the result of its loop. *)
Lemma exec_WaitForC2Response (fuel : nat) (ctx : Context) (o : C2Options)
      (s : State World) :
  exec mm (WaitForC2Response fuel ctx o) s
  = match exec mm (WaitForC2Response_loop fuel ctx o (statusQuery o)) s with
    | (Returned None, s') => (Returned None, s')
    | (Returned (Some (Some err)), s') => (Returned (Some ("", Some err)), s')
    | (Returned (Some None), s') =>
      (Returned (Some match SingleResponse (respond mm (responseQuery o) (world s')).1 with
                      | (resp, None) => (resp, None)
                      | (_, Some err) =>
                        ("", Some (Errorf_w ("getting response for command "
                                             +:+ commandID o +:+ ": ") err))
                      end),
       sent mm (responseQuery o)
            (replyRun (respond mm (responseQuery o) (world s')).1)
            (respond mm (responseQuery o) (world s')).2 s')
    | (Panicked msg, s') => (Panicked msg, s')
    | (Blocked, s') => (Blocked, s')
    end.
Proof.
  unfold WaitForC2Response.
  lazy [setText setColumns setFilters NewNamespacedCommand Namespace Text Columns Filters].
  change (mkCommand (c2_ns o) "cc commands" ["id"; "responses"]
            ["id=" +:+ commandID o]) with (statusQuery o).
  change (mkCommand (c2_ns o) ("cc response " +:+ commandID o +:+ " raw")
            ["id"; "responses"] ["id=" +:+ commandID o]) with (responseQuery o).
  rewrite exec_bind.
  destruct (exec mm (WaitForC2Response_loop fuel ctx o (statusQuery o)) s)
    as [[[[err|]|]|msg|] s']; try reflexivity.
  rewrite exec_bind. unfold run. rewrite (exec_Run mm). cbn [exec].
  by destruct (SingleResponse _) as [resp [err|]].
Qed.

(** One turn of the loop under a context that is not closed: the timer
    of the turn has not fired, the default case is taken and the
    controller polled. *)
Lemma exec_WaitForC2Response_loop_poll (fuel : nat) (ctx : Context) (o : C2Options)
      (s : State World) :
  ready (now s) (Context_Done ctx) = false → 0 < timeout o →
  let rows := (respondTabular mm (statusQuery o) (world s)).1 in
  let s1 := sent mm (statusQuery o) (replyTabular rows)
                 (respondTabular mm (statusQuery o) (world s)).2 s in
  exec mm (WaitForC2Response_loop (S fuel) ctx o (statusQuery o)) s
  = match rows with
    | [] =>
      (Returned (Some (Some (Errorf ("no commands returned for ID " +:+ commandID o)))),
       s1)
    | row0 :: _ =>
      if bool_decide (col row0 "id" = commandID o) then
        if existsb (λ row, bool_decide (col row "responses" ≠ "0")) rows
        then (Returned (Some None), s1)
        else exec mm (WaitForC2Response_loop fuel ctx o (statusQuery o))
                  (mkState (world s1) (now s1 + 1 * time.Second) (held s1) (log s1))
      else
        (Returned (Some (Some (Errorf ("wrong command returned: " +:+ col row0 "id")))),
         s1)
    end.
Proof.
  intros Hctx Htimeout rows s1.
  cbn [WaitForC2Response_loop]. rewrite exec_bind. cbn [time_After exec].
  rewrite exec_bind. cbn [select_default exec readyCases].
  rewrite Hctx. cbn [ready app].
  rewrite bool_decide_eq_false_2 by lia. cbn [app].
  rewrite exec_bind. unfold runTabular. rewrite (exec_RunTabular mm).
  fold rows. fold s1. cbn [exec].
  destruct rows as [|row0 rows']; [reflexivity|].
  rewrite bool_decide_eq_false_2 by discriminate.
  rewrite exec_bind. cbn [index lookup list_lookup exec].
  destruct (decide (col row0 "id" = commandID o)) as [Hid|Hid].
  - rewrite (bool_decide_eq_true_2 _ Hid).
    rewrite bool_decide_eq_false_2 by (intros Hn; by apply Hn).
    destruct (existsb _ (row0 :: rows')); [reflexivity|].
    rewrite exec_bind. cbn [time_Sleep exec].
    by rewrite Z.max_r by (unfold time.Second; lia).
  - by rewrite (bool_decide_eq_false_2 _ Hid), (bool_decide_eq_true_2 _ Hid).
Qed.

(** X10.  One turn of [WaitForC2Response] under a context that is not
    cancelled, with a positive timeout: the command table is polled.  No
    row ends the call with an error, and so does a first row of another
    id; nothing more is sent.  A row whose response count is not "0", an
    absent count among them, makes the call ask for the response and
    return it, or the error of the asking, wrapped.  With every count "0"
    the call sleeps a second and goes on as a call made then. *)
Theorem WaitForC2Response_one_turn (fuel : nat) (ctx : Context) (o : C2Options)
        (s : State World) :
  ready (now s) (Context_Done ctx) = false → 0 < timeout o →
  let rows := (respondTabular mm (statusQuery o) (world s)).1 in
  let s1 := sent mm (statusQuery o) (replyTabular rows)
                 (respondTabular mm (statusQuery o) (world s)).2 s in
  let response := respond mm (responseQuery o) (world s1) in
  exec mm (WaitForC2Response (S fuel) ctx o) s
  = match rows with
    | [] =>
      (Returned (Some ("", Some (Errorf ("no commands returned for ID "
                                         +:+ commandID o)))), s1)
    | row0 :: _ =>
      if bool_decide (col row0 "id" = commandID o) then
        if existsb (λ row, bool_decide (col row "responses" ≠ "0")) rows
        then
          (Returned (Some match SingleResponse response.1 with
                          | (resp, None) => (resp, None)
                          | (_, Some err) =>
                            ("", Some (Errorf_w ("getting response for command "
                                                 +:+ commandID o +:+ ": ") err))
                          end),
           sent mm (responseQuery o) (replyRun response.1) response.2 s1)
        else
          exec mm (WaitForC2Response fuel ctx o)
               (mkState (world s1) (now s1 + 1 * time.Second) (held s1) (log s1))
      else
        (Returned (Some ("", Some (Errorf ("wrong command returned: "
                                           +:+ col row0 "id")))), s1)
    end.
Proof.
  intros Hctx Htimeout rows s1 response.
  rewrite exec_WaitForC2Response.
  pose proof (exec_WaitForC2Response_loop_poll fuel ctx o s Hctx Htimeout) as E.
  cbv zeta in E. fold rows in E. fold s1 in E. rewrite E.
  destruct rows as [|row0 rows']; [reflexivity|].
  destruct (bool_decide (col row0 "id" = commandID o)); [|reflexivity].
  destruct (existsb _ (row0 :: rows')); [reflexivity|].
  by rewrite exec_WaitForC2Response.
Qed.

(** X11.  [WaitForC2Response] called under a context that is cancelled
    already returns the context's error, which is not the timeout error,
    and sends nothing: the controller is not polled. *)
Theorem WaitForC2Response_cancelled_before_the_call
        (fuel : nat) (ctx : Context) (o : C2Options) (t : Z) (s : State World) :
  closes_at ctx = Some t → t ≤ now s → 0 < timeout o →
  exec mm (WaitForC2Response (S fuel) ctx o) s
  = (Returned (Some ("", Some (Context_Err ctx))), s) ∧
  issued mm (WaitForC2Response (S fuel) ctx o) s = [].
Proof.
  intros Hctx Ht Htimeout.
  assert (E : exec mm (WaitForC2Response (S fuel) ctx o) s
              = (Returned (Some ("", Some (Context_Err ctx))), s)).
  { rewrite exec_WaitForC2Response.
    by rewrite (WaitForC2Response_loop_cancelled mm fuel ctx o _ t s Hctx Ht Htimeout). }
  split; [exact E|]. unfold issued, exchanges. rewrite E. cbn [snd].
  by rewrite drop_all.
Qed.

End WaitTurns.

(** The command has a response at the first poll: it is fetched. *)
Lemma WaitForC2Response_one_turn_witness :
  (exec scripted (WaitForC2Response (H := testExternals) 1 background wait200ms)
        (start answered7)).1
  = Returned (Some ("done", None)) ∧
  issued scripted (WaitForC2Response (H := testExternals) 1 background wait200ms)
         (start answered7)
  = [statusQuery wait200ms; responseQuery wait200ms].
Proof.
  unfold issued, exchanges.
  rewrite (WaitForC2Response_one_turn (H := testExternals) scripted 0 background
             wait200ms (start answered7)); [|reflexivity|reflexivity].
  split; reflexivity.
Defined.

(** A context cancelled at 50ms, a call made at 60ms. *)
Lemma WaitForC2Response_cancelled_before_the_call_witness :
  exec scripted (WaitForC2Response (H := testExternals) 1 cancelledAt50ms wait200ms)
       (mkState answered7 (60 * time.Millisecond) false [])
  = (Returned (Some ("", Some context_Canceled)),
     mkState answered7 (60 * time.Millisecond) false []).
Proof.
  apply (WaitForC2Response_cancelled_before_the_call (H := testExternals) scripted 0
           cancelledAt50ms wait200ms (50 * time.Millisecond)).
  - reflexivity.
  - unfold time.Millisecond. cbn. lia.
  - reflexivity.
Defined.

(** ** [GetVMInfo]: what is sent, and what is read from the rows *)

Section VMInfoCommands.
Context `{Externals} {World : Type} (mm : Controller World).

(** One turn of the loop that returns: the capture query and the disk
    query of the row were sent, and one VM was appended, read from the
    row. *)
Lemma exec_GetVMInfo_row_sent (o : Options) (vms vms' : list VM.t) (row : Row)
      (s s2 : State World) :
  exec mm (GetVMInfo_row o vms row) s = (Returned vms', s2) →
  ∃ vm r1 r2,
    vms' = vms ++ [vm] ∧ readsRow row vm ∧
    log s2 = log s ++ [mkExchange (captureQuery o) r1;
                       mkExchange (diskInfoCommand row) r2].
Proof.
  unfold GetVMInfo_row. rewrite exec_bind.
  destruct (exec_GetVMCaptures mm (NS_VMName (ns o) (col row "name")) s)
    as [[caps ->]| ->]; [|discriminate].
  change (captureQuery (NS_VMName (ns o) (col row "name"))) with (captureQuery o).
  destruct (time_ParseDuration (col row "uptime")) as [uptime ok].
  rewrite exec_bind.
  destruct (strings.Fields (col row "disks")) as [|disk disks] eqn:Hf;
    [discriminate|].
  cbn [index lookup list_lookup exec].
  rewrite exec_bind.
  destruct (Split_aux_cons "," 0 "" disk) as (d & ds & Hd).
  assert (Hdisk : diskInfoCommand row = mkCommand "" ("disk info " +:+ d) [] []).
  { unfold diskInfoCommand, diskOfRow, strings.Split. rewrite Hf.
    change (default "" (head (disk :: disks))) with disk. by rewrite Hd. }
  unfold strings.Split. rewrite Hd.
  cbn [index lookup list_lookup exec].
  rewrite exec_bind. cbn [runTabular exec].
  lazy [setText NewCommand Namespace Text Columns Filters].
  destruct (respondTabular mm _ _) as [info w'].
  destruct info as [|resp info]; [discriminate|].
  cbn [index lookup list_lookup exec mbind Prog_mbind Prog_bind].
  intros [= <- <-]. eexists _, _, _. split; [reflexivity|].
  split; [unfold readsRow; cbn; by repeat split|].
  cbn [sent log]. by rewrite <- app_assoc, Hdisk.
Qed.

Lemma exec_GetVMInfo_loop_sent (o : Options) (rows : list Row) (vms vms' : list VM.t)
      (s s' : State World) :
  exec mm (forRange rows (GetVMInfo_row o) vms) s = (Returned vms', s') →
  ∃ news,
    vms' = vms ++ news ∧ Forall2 readsRow rows news ∧
    sentCmd <$> drop (length (log s)) (log s')
    = flat_map (λ row, [captureQuery o; diskInfoCommand row]) rows.
Proof.
  revert vms s. induction rows as [|row rows IH]; intros vms s.
  - cbn [forRange exec]. intros [= <- <-]. exists [].
    rewrite app_nil_r, drop_all. by repeat split.
  - cbn [forRange]. rewrite exec_bind.
    destruct (exec mm (GetVMInfo_row o vms row) s) as [[vms1|msg|] s2] eqn:E;
      [|discriminate..].
    apply exec_GetVMInfo_row_sent in E as (vm & r1 & r2 & -> & Hvm & Hlog).
    intros Hrest.
    pose proof (exec_log_prefix mm (forRange rows (GetVMInfo_row o) (vms ++ [vm])) s2)
      as [l Hl].
    rewrite Hrest in Hl. cbn [snd] in Hl.
    apply IH in Hrest as (news & -> & Hnews & Hsent).
    exists (vm :: news). split; [by rewrite <- app_assoc|].
    split; [by constructor|].
    rewrite Hl, drop_app_length in Hsent.
    rewrite Hl, Hlog, <- app_assoc, drop_app_length.
    cbn [flat_map app fmap list_fmap sentCmd]. by rewrite <- Hsent.
Qed.

(** X12.  When [GetVMInfo] returns, it has sent the VM query and then,
    for every row of the answer and in the order of the rows, the capture
    query of the namespace and the disk query of the row's first disk: the
    capture table is asked for once for every VM.  It returns one VM for
    every row, in order, with the host, the name, the running state, the
    networks, the taps, the memory and the CPUs read from the row: running
    exactly when the state is RUNNING, and zero for a number that is no
    integer. *)
Theorem GetVMInfo_asks_twice_for_every_row (o : Options) (s : State World)
        (vms : list VM.t) :
  let rows := (respondTabular mm (vmInfoQuery o) (world s)).1 in
  (exec mm (GetVMInfo o) s).1 = Returned vms →
  issued mm (GetVMInfo o) s
  = vmInfoQuery o :: flat_map (λ row, [captureQuery o; diskInfoCommand row]) rows ∧
  Forall2 readsRow rows vms.
Proof.
  intros rows. unfold issued, exchanges, GetVMInfo.
  assert (Hcmd : (if bool_decide (vm o ≠ "")
                  then setFilters (setColumns (setText (NewNamespacedCommand (ns o)) "vm info")
                         ["host"; "name"; "state"; "uptime"; "vlan"; "tap";
                          "memory"; "vcpus"; "disks"]) ["name=" +:+ vm o]
                  else setColumns (setText (NewNamespacedCommand (ns o)) "vm info")
                         ["host"; "name"; "state"; "uptime"; "vlan"; "tap";
                          "memory"; "vcpus"; "disks"]) = vmInfoQuery o).
  { unfold vmInfoQuery. by destruct (bool_decide (vm o ≠ "")). }
  rewrite Hcmd, exec_bind. unfold runTabular. rewrite (exec_RunTabular mm).
  fold rows. cbn [exec].
  set (s1 := sent mm (vmInfoQuery o) (replyTabular rows)
                  (respondTabular mm (vmInfoQuery o) (world s)).2 s).
  destruct (exec mm (forRange rows (GetVMInfo_row o) []) s1) as [res s'] eqn:E.
  cbn [fst snd]. intros ->.
  pose proof (exec_log_prefix mm (forRange rows (GetVMInfo_row o) []) s1) as [l Hl].
  rewrite E in Hl. cbn [snd] in Hl.
  apply exec_GetVMInfo_loop_sent in E as (news & Hvms & Hnews & Hsent).
  cbn [app] in Hvms. subst news. split; [|exact Hnews].
  rewrite Hl, drop_app_length in Hsent.
  rewrite Hl. cbn [s1 sent log]. rewrite <- app_assoc, drop_app_length.
  cbn [app fmap list_fmap sentCmd]. by rewrite Hsent.
Qed.

End VMInfoCommands.

(** Two VMs: five commands, the capture query twice. *)
Lemma GetVMInfo_asks_twice_for_every_row_witness :
  issued scripted (GetVMInfo (H := testExternals) allVMs) (start twoVMs)
  = [vmInfoQuery allVMs;
     captureQuery allVMs; mkCommand "" "disk info /images/vm1.qc2" [] [];
     captureQuery allVMs; mkCommand "" "disk info /images/vm2.qc2" [] []] ∧
  (λ vm, (VM.Name vm, VM.Host vm, VM.Running vm, VM.Networks vm)) <$>
    match (exec scripted (GetVMInfo (H := testExternals) allVMs) (start twoVMs)).1 with
    | Returned vms => vms
    | _ => []
    end
  = [("vm1", "c1", true, ["mgmt"; "data"]); ("vm2", "c2", false, [])].
Proof.
  destruct (exec scripted (GetVMInfo (H := testExternals) allVMs) (start twoVMs))
    as [[vms| |] s'] eqn:E; [|by vm_compute in E..].
  destruct (GetVMInfo_asks_twice_for_every_row (H := testExternals) scripted allVMs
              (start twoVMs) vms) as [Hsent Hrows]; [by rewrite E|].
  split; [exact Hsent|]. cbn [fst].
  apply Forall2_cons_inv_l in Hrows as (vm1 & vms1 & Hvm1 & Hrows & ->).
  apply Forall2_cons_inv_l in Hrows as (vm2 & vms2 & Hvm2 & Hrows & ->).
  apply Forall2_nil_inv_l in Hrows as ->.
  destruct Hvm1 as (Ha1 & Hb1 & Hc1 & Hd1 & _), Hvm2 as (Ha2 & Hb2 & Hc2 & Hd2 & _).
  cbn [fmap list_fmap].
  rewrite Ha1, Hb1, Hc1, Hd1, Ha2, Hb2, Hc2, Hd2. reflexivity.
Defined.

(** ** [GetLaunchProgress]: what a line of names counts *)

Section NamesLine.
Context {World : Type} (mm : Controller World).

(** The parts of a string split at a byte: one more than the byte occurs. *)
Lemma length_Split_byte (c : ascii) (cur s : string) :
  length (strings.Split_aux (String c "") 0 cur s) = S (strings.CountByte s c).
Proof.
  revert cur. induction s as [|d s IH]; intros cur; [reflexivity|].
  cbn [strings.Split_aux strings.CountByte String.prefix].
  destruct (ascii_dec c d) as [<-|Hne].
  - replace (String.prefix "" s) with true by (by destruct s).
    change (String.length (String c "") - 1)%nat with 0%nat.
    cbn [length]. by rewrite IH, Ascii.eqb_refl.
  - rewrite (proj2 (Ascii.eqb_neq _ _) Hne). apply IH.
Qed.

(** Past "Names: " the match takes the rest of the line. *)
Lemma FindAllNames_rest_of_line (cur l : string) :
  strings.CountByte l "010" = 0%nat →
  FindAllNames_aux 0 (Some cur) l = [cur +:+ l].
Proof.
  revert cur. induction l as [|c l IH]; intros cur Hl.
  - cbn [FindAllNames_aux]. by rewrite append_nil_r.
  - cbn [FindAllNames_aux]. cbn [strings.CountByte] in Hl.
    destruct (Ascii.eqb_spec "010" c) as [<-|Hne]; [discriminate|].
    rewrite (proj2 (Ascii.eqb_neq c "010")) by congruence.
    rewrite IH by done. by rewrite append_assoc.
Qed.

Lemma FindAllNames_names_line (l : string) :
  strings.CountByte l "010" = 0%nat →
  FindAllNames ("Names: " +:+ l) = [l].
Proof.
  intros Hl. unfold FindAllNames.
  change ("Names: " +:+ l)
    with (String "N" (String "a" (String "m" (String "e" (String "s"
           (String ":" (String " " l))))))).
  cbn [FindAllNames_aux].
  replace (String.prefix "Names: " _) with true.
  - by rewrite FindAllNames_rest_of_line.
  - symmetry. change (String.prefix "" l = true). by destruct l.
Qed.

Lemma queuedNames_names_line (l : string) (data : option string) :
  strings.CountByte l "010" = 0%nat →
  queuedNames [[mkResponse ("Names: " +:+ l) "" data]]
  = 1 + Z.of_nat (strings.CountByte l ",").
Proof.
  intros Hl. unfold queuedNames. cbn [fold_left Resp_Error Resp_Response].
  rewrite bool_decide_eq_false_2 by (by intros []).
  rewrite FindAllNames_names_line by done. cbn [fold_left].
  unfold strings.Split. rewrite length_Split_byte. lia.
Qed.

(** X13.  When [ns queue] answers with the one line "Names: " and a
    list, [GetLaunchProgress] counts one queued VM more than the list has
    commas, so one for a list that is empty; it returns that count
    divided by the expected count and does not ask for the VM table. *)
Theorem GetLaunchProgress_counts_a_names_line
        (ns : string) (expected : Z) (s : State World) (l : string)
        (data : option string) :
  (respond mm (queueCommand ns) (world s)).1
    = [[mkResponse ("Names: " +:+ l) "" data]] →
  strings.CountByte l "010" = 0%nat →
  issued mm (GetLaunchProgress ns expected) s = [queueCommand ns] ∧
  (exec mm (GetLaunchProgress ns expected) s).1
  = Returned (float64_div (float64_of_int (1 + Z.of_nat (strings.CountByte l ",")))
                          (float64_of_int expected), None).
Proof.
  intros Hreply Hl. unfold issued, GetLaunchProgress.
  lazy [setText setColumns NewNamespacedCommand Namespace Text Columns Filters].
  change (mkCommand ns "ns queue" [] []) with (queueCommand ns).
  unfold run. cbn [mbind Prog_mbind Prog_bind].
  rewrite (exchanges_Run mm), (exec_Run mm), Hreply.
  rewrite queuedNames_names_line by done.
  rewrite bool_decide_eq_false_2 by lia.
  by rewrite exchanges_Ret.
Qed.

End NamesLine.

(** A line of three names, and a line of none: three, and one, of four. *)
Lemma GetLaunchProgress_counts_a_names_line_witness :
  (exec scripted (GetLaunchProgress "exp" 4)
        (start (mkScript [[[mkResponse "Names: vm1,vm2,vm3" "" None]]] []))).1
  = Returned (float64_div (float64_of_int 3) (float64_of_int 4), None) ∧
  (exec scripted (GetLaunchProgress "exp" 4)
        (start (mkScript [[[mkResponse "Names: " "" None]]] []))).1
  = Returned (float64_div (float64_of_int 1) (float64_of_int 4), None).
Proof.
  split.
  - apply (GetLaunchProgress_counts_a_names_line scripted "exp" 4
             (start (mkScript [[[mkResponse "Names: vm1,vm2,vm3" "" None]]] []))
             "vm1,vm2,vm3" None); reflexivity.
  - apply (GetLaunchProgress_counts_a_names_line scripted "exp" 4
             (start (mkScript [[[mkResponse "Names: " "" None]]] []))
             "" None); reflexivity.
Defined.

(** ** [StartVMCapture], past the two checks *)

Section StartCapture.
Context `{Externals} {World : Type} (mm : Controller World).

Lemma exec_GetVMHost (o : Options) (s : State World) :
  exec mm (GetVMHost o) s
  = (Returned match (respondTabular mm (vmHostQuery o) (world s)).1 with
              | [] => ("", Some (Errorf ("VM " +:+ vm o +:+ " not found")))
              | row :: _ => (col row "host", None)
              end,
     sent mm (vmHostQuery o)
          (replyTabular (respondTabular mm (vmHostQuery o) (world s)).1)
          (respondTabular mm (vmHostQuery o) (world s)).2 s).
Proof.
  unfold GetVMHost.
  lazy [setText setColumns setFilters NewNamespacedCommand Namespace Text Columns Filters].
  change (mkCommand (ns o) "vm info" ["host"] ["name=" +:+ vm o]) with (vmHostQuery o).
  rewrite exec_bind. unfold runTabular. rewrite (exec_RunTabular mm). cbn [exec].
  by destruct (respondTabular mm (vmHostQuery o) (world s)).1.
Qed.

Lemma exec_IsHeadnode (node : string) (s : State World) :
  exec mm (IsHeadnode node) s
  = (Returned (bool_decide
                 (TrimHostnameSuffixes node
                  = headnodeOf (respondTabular mm (hostsQuery "minimega") (world s)).1)),
     sent mm (hostsQuery "minimega")
          (replyTabular (respondTabular mm (hostsQuery "minimega") (world s)).1)
          (respondTabular mm (hostsQuery "minimega") (world s)).2 s).
Proof.
  unfold IsHeadnode, Headnode. rewrite !exec_bind, (exec_processNamespaceHosts mm).
  by destruct (respondTabular mm (hostsQuery "minimega") (world s)).1.
Qed.

(** With a colon in every row and no capture of the VM on the interface,
    the first check passes. *)
Lemma no_capture_on_interface (o : Options) (rows : list Row) (found : list Capture.t) :
  mapM captureOfRow rows = Some found →
  ¬ Exists (capturesInterface o) rows →
  existsb (λ capture, bool_decide (Capture.Interface capture = captureIface o))
          (filter (λ capture, Capture.VM capture = vm o) found) = false.
Proof.
  intros Hm Hnone. apply not_true_is_false.
  intros (capture & Hin & Hif)%existsb_exists.
  apply bool_decide_eq_true_1 in Hif.
  apply list_elem_of_In, list_elem_of_filter in Hin as [Hvm Hin].
  apply mapM_Some in Hm. apply list_elem_of_lookup in Hin as [i Hi].
  destruct (Forall2_lookup_r _ _ _ _ _ Hm Hi) as (row & Hrow & Hcap).
  apply Hnone, Exists_exists. exists row. split.
  - by eapply list_elem_of_lookup_2.
  - by exists capture.
Qed.

(** X14.  [StartVMCapture] for an interface that is not captured yet and
    a file that is not absolute, the capture table having a colon in every
    row.  It asks for the host of the VM and fails when the VM is not
    found.  It asks for the head node and sends the directory creation:
    through [mesh send] to the host, unless the host's normalized name is
    the head node's.  Only when the directory is made does it send the
    capture start; it returns nil, or the error of the command that
    failed, wrapped. *)
Theorem StartVMCapture_makes_the_directory_first (o : Options) (s : State World) :
  let captured := respondTabular mm (captureQuery o) (world s) in
  let hostReply := respondTabular mm (vmHostQuery o) captured.2 in
  let headReply := respondTabular mm (hostsQuery "minimega") hostReply.2 in
  Forall hasColon captured.1 →
  ¬ Exists (capturesInterface o) captured.1 →
  filepath.IsAbs (captureFile o) = false →
  match hostReply.1 with
  | [] =>
    issued mm (StartVMCapture o) s = [captureQuery o; vmHostQuery o] ∧
    (exec mm (StartVMCapture o) s).1
    = Returned (Some (Errorf_w "unable to determine what host the VM is scheduled on: "
                               (Errorf ("VM " +:+ vm o +:+ " not found"))))
  | hostRow :: _ =>
    let mkdir :=
      mkdirCommand o (meshPrefix (col hostRow "host") (headnodeOf headReply.1)) in
    let made := respond mm mkdir headReply.2 in
    let started := respond mm (captureStartCommand o) made.2 in
    match ErrorResponse made.1 with
    | Some err =>
      issued mm (StartVMCapture o) s
      = [captureQuery o; vmHostQuery o; hostsQuery "minimega"; mkdir] ∧
      (exec mm (StartVMCapture o) s).1
      = Returned (Some (Errorf_w "ensuring experiment files directory exists: " err))
    | None =>
      issued mm (StartVMCapture o) s
      = [captureQuery o; vmHostQuery o; hostsQuery "minimega"; mkdir;
         captureStartCommand o] ∧
      (exec mm (StartVMCapture o) s).1
      = Returned (Errorf_w ("starting VM capture for interface "
                            +:+ strconv.Itoa (captureIface o) +:+ " on VM " +:+ vm o
                            +:+ " in namespace " +:+ ns o +:+ ": ")
                  <$> ErrorResponse started.1)
    end
  end.
Proof.
  intros captured hostReply headReply Hall Hnone Hrel.
  pose proof (exec_GetVMCaptures_rows mm o s) as Ec. cbv zeta in Ec.
  fold captured in Ec.
  destruct (mapM_is_Some_2 captureOfRow captured.1) as [found Hm].
  { eapply Forall_impl; [exact Hall|]. intros row. apply captureOfRow_hasColon. }
  rewrite Hm in Ec.
  set (s1 := sent mm (captureQuery o) (replyTabular captured.1) captured.2 s) in *.
  pose proof (exec_GetVMHost o s1) as Eh.
  change (world s1) with captured.2 in Eh. fold hostReply in Eh.
  set (s2 := sent mm (vmHostQuery o) (replyTabular hostReply.1) hostReply.2 s1) in *.
  assert (Estart : exec mm (StartVMCapture o) s
            = exec mm
                (match hostReply.1 with
                 | [] =>
                   Ret (Some (Errorf_w
                     "unable to determine what host the VM is scheduled on: "
                     (Errorf ("VM " +:+ vm o +:+ " not found"))))
                 | hostRow :: _ =>
                   isHead ← IsHeadnode (col hostRow "host");
                   let cmdPrefix :=
                     if negb isHead then "mesh send " +:+ col hostRow "host" else "" in
                   orReturn (runErr (mkdirCommand o cmdPrefix))
                     (Errorf_w "ensuring experiment files directory exists: ")
                     (orReturn (runErr (captureStartCommand o))
                        (Errorf_w ("starting VM capture for interface "
                                   +:+ strconv.Itoa (captureIface o) +:+ " on VM "
                                   +:+ vm o +:+ " in namespace " +:+ ns o +:+ ": "))
                        (Ret None))
                 end) s2).
  { unfold StartVMCapture. rewrite exec_bind, Ec.
    rewrite (no_capture_on_interface o _ _ Hm Hnone), Hrel.
    rewrite exec_bind, Eh. by destruct hostReply.1. }
  unfold issued, exchanges. rewrite Estart. clear Estart Ec Eh.
  destruct hostReply.1 as [|hostRow hostRows] eqn:Hhost.
  - cbn [exec fst snd s2 s1 sent log].
    by rewrite <- !app_assoc, drop_app_length.
  - set (mkdir := mkdirCommand o
                    (meshPrefix (col hostRow "host") (headnodeOf headReply.1))).
    set (made := respond mm mkdir headReply.2).
    set (started := respond mm (captureStartCommand o) made.2).
    rewrite exec_bind, exec_IsHeadnode.
    change (world s2) with hostReply.2. fold headReply.
    set (s3 := sent mm (hostsQuery "minimega") (replyTabular headReply.1)
                    headReply.2 s2).
    assert (Hprefix :
      (if negb (bool_decide (TrimHostnameSuffixes (col hostRow "host")
                             = headnodeOf headReply.1))
       then "mesh send " +:+ col hostRow "host" else "")
      = meshPrefix (col hostRow "host") (headnodeOf headReply.1)).
    { unfold meshPrefix. by destruct (bool_decide _). }
    cbv zeta. rewrite Hprefix. fold mkdir.
    rewrite exec_orReturn, exec_runErr.
    change (world s3) with headReply.2. fold made.
    set (s4 := sent mm mkdir (replyRun made.1) made.2 s3).
    destruct (ErrorResponse made.1) as [err|].
    + cbn [fst snd s4 s3 s2 s1 sent log].
      by rewrite <- !app_assoc, drop_app_length.
    + rewrite exec_orReturn, exec_runErr.
      change (world s4) with made.2. fold started.
      destruct (ErrorResponse started.1) as [err|];
        cbn [exec fst snd s4 s3 s2 s1 sent log fmap option_fmap option_map];
        by rewrite <- !app_assoc, drop_app_length.
Qed.

End StartCapture.

(** A VM on a compute node: the directory is made through the mesh, then
    the capture started.  The directory refused: no capture started. *)
Lemma StartVMCapture_makes_the_directory_first_witness :
  (issued scripted (StartVMCapture (H := testExternals) relCapture)
          (start captureOnCompute)
   = [captureQuery relCapture; vmHostQuery relCapture; hostsQuery "minimega";
      mkCommand "" "mesh send c1 shell mkdir -p /phenix/images/." [] [];
      captureStartCommand relCapture] ∧
   (exec scripted (StartVMCapture (H := testExternals) relCapture)
         (start captureOnCompute)).1 = Returned None) ∧
  (issued scripted (StartVMCapture (H := testExternals) relCapture)
          (start captureDirRefused)
   = [captureQuery relCapture; vmHostQuery relCapture; hostsQuery "minimega";
      mkCommand "" "mesh send c1 shell mkdir -p /phenix/images/." [] []] ∧
   (exec scripted (StartVMCapture (H := testExternals) relCapture)
         (start captureDirRefused)).1
   = Returned (Some (Errorf_w "ensuring experiment files directory exists: "
                              (errors_New "mkdir: permission denied")))).
Proof.
  split.
  - apply (StartVMCapture_makes_the_directory_first (H := testExternals) scripted
             relCapture (start captureOnCompute)).
    + repeat constructor. by vm_compute.
    + intros [(capture & Hc & Hvm & _)|[]%Exists_nil]%Exists_cons.
      vm_compute in Hc. injection Hc as <-. discriminate Hvm.
    + reflexivity.
  - apply (StartVMCapture_makes_the_directory_first (H := testExternals) scripted
             relCapture (start captureDirRefused)).
    + constructor.
    + by intros ?%Exists_nil.
    + reflexivity.
Defined.
